(** * Betaflight attitude-control core: src/main/flight/pid.c

    A shallow embedding of the PID controller of pid.c and the proofs of
    its specification.

    Modelling conventions.
    - A C [float] is an exact rational ([Q]): the control flow, the
      comparisons and the order of the assignments are those of the source,
      the arithmetic is exact.  The one float that is converted to an
      integer and then decides branches, the Nyquist frequency of
      pidInitFilters, is computed in binary32, every operation rounded to
      nearest ([round32]).
    - Infinities and NaN are outside the model, and where C divides by zero
      the model has [x / 0 = 0].  pid.c has three such divisions: by
      [deltaT] (line 522; zero when two ticks carry the same time stamp),
      by [setpointRelaxRatio] (line 289) and by
      [1 - itermWindupPointPercent / 100] (line 299).  The two of
      pidInitConfig give [+inf] in C and [0] in the model, so a derived
      [relaxFactor] or [ITermWindupPointInv] that is zero marks a
      configuration the model does not cover; the theorems that read the
      derivative or the integration step ask for a non-zero divisor.
    - Unsigned and signed machine integers are [Z]; the wrap-around of the
      32-bit time stamps is written out ([u32], [s32]).
    - The file-scope and function-scope [static] variables of pid.c are the
      fields of one record, [pidState], threaded through every function.
    - What pid.c reads from other modules during a tick (RC commands, gyro,
      attitude, mixer, arming and mode flags) is the record [inputs]; the
      scale constants of flight/pid.h and the filter library of
      common/filter.c are the record [platform]. *)

From Stdlib Require Import ZArith QArith Qabs Qround Qpower Bool List Lia Lqa.
Import ListNotations.

Open Scope Q_scope.

(** ** Numeric helpers of common/maths.h *)

Definition Qltb (x y : Q) : bool := negb (Qle_bool y x).
Definition Qgtb (x y : Q) : bool := Qltb y x.
Definition Qgeb (x y : Q) : bool := Qle_bool y x.

(** A C float used as a condition: true when it is not zero. *)
Definition Qnonzero (x : Q) : bool := negb (Qeq_bool x 0).

(** Modelled from the spec: the macro [ABS] of common/maths.h is not in
    src; [ABS(x)] is [x > 0 ? x : -x], the magnitude. *)
Definition ABS (x : Q) : Q := if Qgtb x 0 then x else - x.

(** [ABS] at an integer type. *)
Definition ABSi (x : Z) : Z := if (x >? 0)%Z then x else (- x)%Z.

(** Modelled from the spec: the macros [MIN] and [MAX] of common/maths.h
    are not in src; [MIN(a,b)] is [a < b ? a : b] and [MAX(a,b)] is
    [a > b ? a : b]. *)
Definition MIN (a b : Q) : Q := if Qltb a b then a else b.
Definition MAXi (a b : Z) : Z := if (a >? b)%Z then a else b.

(** Modelled from the spec: [constrainf] of common/maths.h is not in src;
    it is the clamp of its first argument to [[low, high]]: below [low] it
    returns [low], above [high] it returns [high], otherwise the value. *)
Definition constrainf (amt low high : Q) : Q :=
  if Qltb amt low then low
  else if Qgtb amt high then high
  else amt.

(** 32-bit time stamps ([timeUs_t] is [uint32_t], [timeDelta_t] is
    [int32_t]). *)
Definition u32 (x : Z) : Z := (x mod 2 ^ 32)%Z.
Definition s32 (x : Z) : Z :=
  let y := u32 x in if (y <? 2 ^ 31)%Z then y else (y - 2 ^ 32)%Z.

(** Modelled from the spec: [cmpTimeUs] of drivers/time.h is not in src; it
    is the signed difference of two time stamps of the monotonic
    microsecond clock. *)
Definition cmpTimeUs (a b : Z) : Z := s32 (a - b).

(** Conversion of a non-negative float to [uint32_t]: truncation. *)
Definition Qtrunc (x : Q) : Z := (Qnum x ÷ Zpos (Qden x))%Z.

(** ** Binary32 rounding

    A binary32 operation gives the exact result rounded to the nearest
    number with a 24-bit significand, ties to even.  The exponent range is
    not modelled: the values rounded here, a loop time of 1 .. 2^32 - 1
    microseconds and its reciprocal, are far from the subnormal and the
    overflow range. *)

(** [floor (log2 x)] of a positive rational. *)
Definition Qlog2 (x : Q) : Z :=
  let k := (Z.log2 (Qnum x) - Z.log2 (Zpos (Qden x)))%Z in
  if Qle_bool (2 ^ k) x then k else (k - 1)%Z.

(** The nearest integer, ties to even. *)
Definition Qrne (x : Q) : Z :=
  let f := Qfloor x in
  let r := x - inject_Z f in
  if Qltb r (1 # 2) then f
  else if Qltb (1 # 2) r then (f + 1)%Z
  else if Z.even f then f else (f + 1)%Z.

(** The nearest binary32 number: the significand is the value scaled by
    [2 ^ e] into [2^23, 2^24) and rounded to an integer. *)
Definition round32 (x : Q) : Q :=
  match Qnum x with
  | Z0 => 0
  | Zpos _ =>
      let e := (Qlog2 x - 23)%Z in inject_Z (Qrne (x / 2 ^ e)) * 2 ^ e
  | Zneg _ =>
      let e := (Qlog2 (- x) - 23)%Z in
      - (inject_Z (Qrne (- x / 2 ^ e)) * 2 ^ e)
  end.

(** ** Axes and arrays indexed by an axis *)

Inductive axis : Set := FD_ROLL | FD_PITCH | FD_YAW.

Definition axis_eqb (a b : axis) : bool :=
  match a, b with
  | FD_ROLL, FD_ROLL | FD_PITCH, FD_PITCH | FD_YAW, FD_YAW => true
  | _, _ => false
  end.

(** The aliases of fc/rc_controls.h used by pidController. *)
Definition PITCH : axis := FD_PITCH.
Definition YAW : axis := FD_YAW.

(** [for (int axis = FD_ROLL; axis <= FD_YAW; axis++)] *)
Definition allAxes : list axis := [FD_ROLL; FD_PITCH; FD_YAW].

(** An array indexed by an axis, and the assignment [arr[a] = v]. *)
Definition upd {A : Type} (arr : axis -> A) (a : axis) (v : A) : axis -> A :=
  fun b => if axis_eqb b a then v else arr b.

(** ** The profile (flight/pid.h: [pidProfile_t]) *)

Module Profile.

(** Modelled from the spec: [pid8_t] of flight/pid.h is not in src; the
    raw P, I and D of one controller, three unsigned bytes. *)
Record pid8_t : Set := { P : Z; I : Z; D : Z }.

(** Modelled from the spec: [pidProfile_t] of flight/pid.h is not in src;
    these are the fields that pid.c reads, raw unsigned integers (8 or 16
    bits) tuned by the user. *)
Record t : Set := {
  pid_ROLL : pid8_t;
  pid_PITCH : pid8_t;
  pid_YAW : pid8_t;
  pid_LEVEL : pid8_t;
  yaw_lpf_hz : Z;
  dterm_lpf_hz : Z;
  dterm_notch_hz : Z;
  dterm_notch_cutoff : Z;
  dterm_filter_type : Z;
  itermWindupPointPercent : Z;
  levelAngleLimit : Z;
  setpointRelaxRatio : Z;
  dtermSetpointWeight : Z;
  yawRateAccelLimit : Z;
  rateAccelLimit : Z;
  crash_time : Z;
  crash_delay : Z;
  crash_recovery_angle : Z;
  crash_recovery_rate : Z;
  crash_dthreshold : Z;
  crash_gthreshold : Z;
  crash_setpoint_threshold : Z;
  crash_recovery : Z;
  horizon_tilt_effect : Z;
  horizon_tilt_expert_mode : Z;
  crash_limit_yaw : Z;
  itermLimit : Z
}.

(** [pidProfile->pid[axis]] for a flight-dynamics axis. *)
Definition pid (p : t) (a : axis) : pid8_t :=
  match a with
  | FD_ROLL => pid_ROLL p
  | FD_PITCH => pid_PITCH p
  | FD_YAW => pid_YAW p
  end.

Definition u8 (x : Z) : bool := ((0 <=? x) && (x <=? 255))%Z.
Definition u16 (x : Z) : bool := ((0 <=? x) && (x <=? 65535))%Z.
Definition pid8_ok (x : pid8_t) : bool := u8 (P x) && u8 (I x) && u8 (D x).

(** Every field is within the range of its C type. *)
Definition ok (p : t) : bool :=
  pid8_ok (pid_ROLL p) && pid8_ok (pid_PITCH p) && pid8_ok (pid_YAW p)
  && pid8_ok (pid_LEVEL p)
  && u16 (yaw_lpf_hz p) && u16 (dterm_lpf_hz p) && u16 (dterm_notch_hz p)
  && u16 (dterm_notch_cutoff p) && u8 (dterm_filter_type p)
  && u8 (itermWindupPointPercent p) && u8 (levelAngleLimit p)
  && u8 (setpointRelaxRatio p) && u8 (dtermSetpointWeight p)
  && u16 (yawRateAccelLimit p) && u16 (rateAccelLimit p)
  && u16 (crash_time p) && u16 (crash_delay p)
  && u8 (crash_recovery_angle p) && u8 (crash_recovery_rate p)
  && u16 (crash_dthreshold p) && u16 (crash_gthreshold p)
  && u16 (crash_setpoint_threshold p) && u8 (crash_recovery p)
  && u8 (horizon_tilt_effect p) && u8 (horizon_tilt_expert_mode p)
  && u16 (crash_limit_yaw p) && u16 (itermLimit p).

End Profile.

(** Modelled from the spec: the enumerations [pidCrashRecovery_e] of
    flight/pid.h and [filterType_e] of common/filter.h are not in src; pid.c
    uses [crash_recovery] as a condition, so OFF is zero, and the proofs use
    no other fact about these values. *)
Definition PID_CRASH_RECOVERY_OFF : Z := 0.
Definition PID_CRASH_RECOVERY_ON : Z := 1.
Definition PID_CRASH_RECOVERY_BEEP : Z := 2.
Definition FILTER_PT1 : Z := 0.
Definition FILTER_BIQUAD : Z := 1.
Definition FILTER_FIR : Z := 2.

(** [resetPidProfile]: the default profile. *)
Definition resetPidProfile : Profile.t :=
  {| Profile.pid_ROLL := {| Profile.P := 40; Profile.I := 40; Profile.D := 30 |};
     Profile.pid_PITCH := {| Profile.P := 58; Profile.I := 50; Profile.D := 35 |};
     Profile.pid_YAW := {| Profile.P := 70; Profile.I := 45; Profile.D := 20 |};
     Profile.pid_LEVEL := {| Profile.P := 50; Profile.I := 50; Profile.D := 75 |};
     Profile.yaw_lpf_hz := 0;
     Profile.dterm_lpf_hz := 100;
     Profile.dterm_notch_hz := 260;
     Profile.dterm_notch_cutoff := 160;
     Profile.dterm_filter_type := FILTER_BIQUAD;
     Profile.itermWindupPointPercent := 50;
     Profile.levelAngleLimit := 65;
     Profile.setpointRelaxRatio := 100;
     Profile.dtermSetpointWeight := 0;
     Profile.yawRateAccelLimit := 100;
     Profile.rateAccelLimit := 0;
     Profile.crash_time := 500;
     Profile.crash_delay := 0;
     Profile.crash_recovery_angle := 10;
     Profile.crash_recovery_rate := 100;
     Profile.crash_dthreshold := 50;
     Profile.crash_gthreshold := 400;
     Profile.crash_setpoint_threshold := 350;
     Profile.crash_recovery := PID_CRASH_RECOVERY_OFF;
     Profile.horizon_tilt_effect := 130;
     Profile.horizon_tilt_expert_mode := 0;
     Profile.crash_limit_yaw := 200;
     Profile.itermLimit := 150 |}.

(** ** The filter library (common/filter.h) *)

(** The storage of one filter instance ([pt1Filter_t], [biquadFilter_t],
    [firFilterDenoise_t]): its coefficients and its history. *)
Definition filterState : Type := list Q.

(** The values a [filterApplyFnPtr] of pid.c takes. *)
Inductive filterApplyFn : Set :=
| nullFilterApply
| pt1FilterApply
| biquadFilterApply
| firFilterDenoiseUpdate.

Inductive biquadFilterType_e : Set := FILTER_LPF | FILTER_NOTCH.

(** What pid.c takes from code that is not in src, as parameters of the
    model: the fixed scale constants [PTERM_SCALE], [ITERM_SCALE] and
    [DTERM_SCALE] of flight/pid.h, which turn the raw P, I and D of the
    profile into the gains of the loop, and the functions of common/filter.c
    that pid.c calls (the biquad coefficients are trigonometric).  The
    controller is modelled, and every property proved, for all values of
    them. *)
Record platform : Type := {
  PTERM_SCALE : Q;
  ITERM_SCALE : Q;
  DTERM_SCALE : Q;
  filterGetNotchQ : Z -> Z -> Q;
  biquadFilterInit : filterState -> Z -> Z -> Q -> biquadFilterType_e -> filterState;
  biquadFilterInitLPF : filterState -> Z -> Z -> filterState;
  biquadFilterApplyImpl : filterState -> Q -> filterState * Q;
  pt1FilterInit : filterState -> Z -> Q -> filterState;
  pt1FilterApplyImpl : filterState -> Q -> filterState * Q;
  firFilterDenoiseInit : filterState -> Z -> Z -> filterState;
  firFilterDenoiseUpdateImpl : filterState -> Q -> filterState * Q
}.

(** Modelled from the spec: [nullFilterApply] of common/filter.c is not in
    src; it is the identity filter, which returns its input unchanged and has
    no state.  [filterApply] is a call through a [filterApplyFnPtr]. *)
Definition filterApply (lib : platform) (fn : filterApplyFn)
    (filter : filterState) (input : Q) : filterState * Q :=
  match fn with
  | nullFilterApply => (filter, input)
  | pt1FilterApply => pt1FilterApplyImpl lib filter input
  | biquadFilterApply => biquadFilterApplyImpl lib filter input
  | firFilterDenoiseUpdate => firFilterDenoiseUpdateImpl lib filter input
  end.

(** ** What a tick reads from the other modules *)

(** Modelled from the spec: the flags [ANGLE_MODE] and [HORIZON_MODE] of
    fc/runtime_config.h are not in src; they are two distinct bits of
    [flightModeFlags]. *)
Definition ANGLE_MODE : Z := 1.
Definition HORIZON_MODE : Z := 2.

Record inputs : Type := {
  getSetpointRate : axis -> Q;          (* fc/fc_rc.h *)
  getRcDeflection : axis -> Q;
  getRcDeflectionAbs : axis -> Q;
  getThrottlePIDAttenuation : Q;        (* fc/fc_core.h *)
  getMotorMixRange : Q;                 (* flight/mixer.h *)
  mixerIsOutputSaturated : axis -> Q -> bool;
  gyroADCf : axis -> Q;                 (* gyro.gyroADCf, deg/s *)
  gyroOverflowDetected : bool;
  attitude_raw : axis -> Z;             (* attitude.raw, decidegrees *)
  GPS_angle : axis -> Z;                (* io/gps.h; zero without USE_GPS *)
  sensors_SENSOR_ACC : bool;
  flightModeFlags : Z;
  ARMING_FLAG_ARMED : bool
}.

(** [FLIGHT_MODE(mask)] is [flightModeFlags & (mask)]. *)
Definition FLIGHT_MODE (inp : inputs) (mask : Z) : bool :=
  negb (Z.land (flightModeFlags inp) mask =? 0)%Z.

(** [attitude.values.roll] and [attitude.values.pitch] alias [attitude.raw]. *)
Definition attitude_roll (inp : inputs) : Z := attitude_raw inp FD_ROLL.
Definition attitude_pitch (inp : inputs) : Z := attitude_raw inp FD_PITCH.

(** [rollAndPitchTrims_t]: [angleTrim->raw[axis]]. *)
Definition rollAndPitchTrims_t : Type := axis -> Z.

(** ** The static variables of pid.c *)

(** The variables written by [pidInitConfig] (pid.c, lines 264-279). *)
Record derived : Type := {
  Kp : axis -> Q;
  Ki : axis -> Q;
  Kd : axis -> Q;
  maxVelocity : axis -> Q;
  relaxFactor : Q;
  dtermSetpointWeight : Q;
  levelGain : Q;
  horizonGain : Q;
  horizonTransition : Q;
  horizonCutoffDegrees : Q;
  horizonFactorRatio : Q;
  ITermWindupPointInv : Q;
  horizonTiltExpertMode : Z;
  crashTimeLimitUs : Z;
  crashTimeDelayUs : Z;
  crashRecoveryAngleDeciDegrees : Z;
  crashRecoveryRate : Q;
  crashDtermThreshold : Q;
  crashGyroThreshold : Q;
  crashSetpointThreshold : Q;
  crashLimitYaw : Q;
  itermLimit : Q
}.

(** The filter chain (pid.c, lines 172-177), each pointer with the storage
    it points to. *)
Record filterChain : Type := {
  dtermNotchFilterApplyFn : filterApplyFn;
  dtermFilterNotch : axis -> filterState;
  dtermLpfApplyFn : filterApplyFn;
  dtermFilterLpf : axis -> filterState;
  ptermYawFilterApplyFn : filterApplyFn;
  ptermYawFilter : filterState
}.

Record pidState : Type := {
  targetPidLooptime : Z;
  dT : Q;
  pidStabilisationEnabled : bool;
  itermAccelerator : Q;
  inCrashRecoveryMode : bool;
  crashDetectedAtUs : Z;                (* static in pidController *)
  previousTimeUs : Z;                   (* static in pidController *)
  axisPID_P : axis -> Q;
  axisPID_I : axis -> Q;
  axisPID_D : axis -> Q;
  axisPIDSum : axis -> Q;
  previousSetpoint : axis -> Q;         (* static in accelerationLimit *)
  previousRateError : axis -> Q;        (* static in pidController *)
  beeper : bool;                        (* BEEP_ON / BEEP_OFF *)
  cfg : derived;
  filters : filterChain
}.

(** Assignment to one static variable. *)

Definition set_targetPidLooptime (v : Z) (st : pidState) : pidState :=
  {| targetPidLooptime := v; dT := dT st;
     pidStabilisationEnabled := pidStabilisationEnabled st;
     itermAccelerator := itermAccelerator st;
     inCrashRecoveryMode := inCrashRecoveryMode st;
     crashDetectedAtUs := crashDetectedAtUs st;
     previousTimeUs := previousTimeUs st; axisPID_P := axisPID_P st;
     axisPID_I := axisPID_I st; axisPID_D := axisPID_D st;
     axisPIDSum := axisPIDSum st; previousSetpoint := previousSetpoint st;
     previousRateError := previousRateError st; beeper := beeper st;
     cfg := cfg st; filters := filters st |}.

Definition set_dT (v : Q) (st : pidState) : pidState :=
  {| targetPidLooptime := targetPidLooptime st; dT := v;
     pidStabilisationEnabled := pidStabilisationEnabled st;
     itermAccelerator := itermAccelerator st;
     inCrashRecoveryMode := inCrashRecoveryMode st;
     crashDetectedAtUs := crashDetectedAtUs st;
     previousTimeUs := previousTimeUs st; axisPID_P := axisPID_P st;
     axisPID_I := axisPID_I st; axisPID_D := axisPID_D st;
     axisPIDSum := axisPIDSum st; previousSetpoint := previousSetpoint st;
     previousRateError := previousRateError st; beeper := beeper st;
     cfg := cfg st; filters := filters st |}.

Definition set_pidStabilisationEnabled (v : bool) (st : pidState) : pidState :=
  {| targetPidLooptime := targetPidLooptime st; dT := dT st;
     pidStabilisationEnabled := v; itermAccelerator := itermAccelerator st;
     inCrashRecoveryMode := inCrashRecoveryMode st;
     crashDetectedAtUs := crashDetectedAtUs st;
     previousTimeUs := previousTimeUs st; axisPID_P := axisPID_P st;
     axisPID_I := axisPID_I st; axisPID_D := axisPID_D st;
     axisPIDSum := axisPIDSum st; previousSetpoint := previousSetpoint st;
     previousRateError := previousRateError st; beeper := beeper st;
     cfg := cfg st; filters := filters st |}.

Definition set_itermAccelerator (v : Q) (st : pidState) : pidState :=
  {| targetPidLooptime := targetPidLooptime st; dT := dT st;
     pidStabilisationEnabled := pidStabilisationEnabled st;
     itermAccelerator := v; inCrashRecoveryMode := inCrashRecoveryMode st;
     crashDetectedAtUs := crashDetectedAtUs st;
     previousTimeUs := previousTimeUs st; axisPID_P := axisPID_P st;
     axisPID_I := axisPID_I st; axisPID_D := axisPID_D st;
     axisPIDSum := axisPIDSum st; previousSetpoint := previousSetpoint st;
     previousRateError := previousRateError st; beeper := beeper st;
     cfg := cfg st; filters := filters st |}.

Definition set_inCrashRecoveryMode (v : bool) (st : pidState) : pidState :=
  {| targetPidLooptime := targetPidLooptime st; dT := dT st;
     pidStabilisationEnabled := pidStabilisationEnabled st;
     itermAccelerator := itermAccelerator st; inCrashRecoveryMode := v;
     crashDetectedAtUs := crashDetectedAtUs st;
     previousTimeUs := previousTimeUs st; axisPID_P := axisPID_P st;
     axisPID_I := axisPID_I st; axisPID_D := axisPID_D st;
     axisPIDSum := axisPIDSum st; previousSetpoint := previousSetpoint st;
     previousRateError := previousRateError st; beeper := beeper st;
     cfg := cfg st; filters := filters st |}.

Definition set_crashDetectedAtUs (v : Z) (st : pidState) : pidState :=
  {| targetPidLooptime := targetPidLooptime st; dT := dT st;
     pidStabilisationEnabled := pidStabilisationEnabled st;
     itermAccelerator := itermAccelerator st;
     inCrashRecoveryMode := inCrashRecoveryMode st; crashDetectedAtUs := v;
     previousTimeUs := previousTimeUs st; axisPID_P := axisPID_P st;
     axisPID_I := axisPID_I st; axisPID_D := axisPID_D st;
     axisPIDSum := axisPIDSum st; previousSetpoint := previousSetpoint st;
     previousRateError := previousRateError st; beeper := beeper st;
     cfg := cfg st; filters := filters st |}.

Definition set_previousTimeUs (v : Z) (st : pidState) : pidState :=
  {| targetPidLooptime := targetPidLooptime st; dT := dT st;
     pidStabilisationEnabled := pidStabilisationEnabled st;
     itermAccelerator := itermAccelerator st;
     inCrashRecoveryMode := inCrashRecoveryMode st;
     crashDetectedAtUs := crashDetectedAtUs st; previousTimeUs := v;
     axisPID_P := axisPID_P st; axisPID_I := axisPID_I st;
     axisPID_D := axisPID_D st; axisPIDSum := axisPIDSum st;
     previousSetpoint := previousSetpoint st;
     previousRateError := previousRateError st; beeper := beeper st;
     cfg := cfg st; filters := filters st |}.

Definition set_axisPID_P (v : axis -> Q) (st : pidState) : pidState :=
  {| targetPidLooptime := targetPidLooptime st; dT := dT st;
     pidStabilisationEnabled := pidStabilisationEnabled st;
     itermAccelerator := itermAccelerator st;
     inCrashRecoveryMode := inCrashRecoveryMode st;
     crashDetectedAtUs := crashDetectedAtUs st;
     previousTimeUs := previousTimeUs st; axisPID_P := v;
     axisPID_I := axisPID_I st; axisPID_D := axisPID_D st;
     axisPIDSum := axisPIDSum st; previousSetpoint := previousSetpoint st;
     previousRateError := previousRateError st; beeper := beeper st;
     cfg := cfg st; filters := filters st |}.

Definition set_axisPID_I (v : axis -> Q) (st : pidState) : pidState :=
  {| targetPidLooptime := targetPidLooptime st; dT := dT st;
     pidStabilisationEnabled := pidStabilisationEnabled st;
     itermAccelerator := itermAccelerator st;
     inCrashRecoveryMode := inCrashRecoveryMode st;
     crashDetectedAtUs := crashDetectedAtUs st;
     previousTimeUs := previousTimeUs st; axisPID_P := axisPID_P st;
     axisPID_I := v; axisPID_D := axisPID_D st; axisPIDSum := axisPIDSum st;
     previousSetpoint := previousSetpoint st;
     previousRateError := previousRateError st; beeper := beeper st;
     cfg := cfg st; filters := filters st |}.

Definition set_axisPID_D (v : axis -> Q) (st : pidState) : pidState :=
  {| targetPidLooptime := targetPidLooptime st; dT := dT st;
     pidStabilisationEnabled := pidStabilisationEnabled st;
     itermAccelerator := itermAccelerator st;
     inCrashRecoveryMode := inCrashRecoveryMode st;
     crashDetectedAtUs := crashDetectedAtUs st;
     previousTimeUs := previousTimeUs st; axisPID_P := axisPID_P st;
     axisPID_I := axisPID_I st; axisPID_D := v; axisPIDSum := axisPIDSum st;
     previousSetpoint := previousSetpoint st;
     previousRateError := previousRateError st; beeper := beeper st;
     cfg := cfg st; filters := filters st |}.

Definition set_axisPIDSum (v : axis -> Q) (st : pidState) : pidState :=
  {| targetPidLooptime := targetPidLooptime st; dT := dT st;
     pidStabilisationEnabled := pidStabilisationEnabled st;
     itermAccelerator := itermAccelerator st;
     inCrashRecoveryMode := inCrashRecoveryMode st;
     crashDetectedAtUs := crashDetectedAtUs st;
     previousTimeUs := previousTimeUs st; axisPID_P := axisPID_P st;
     axisPID_I := axisPID_I st; axisPID_D := axisPID_D st; axisPIDSum := v;
     previousSetpoint := previousSetpoint st;
     previousRateError := previousRateError st; beeper := beeper st;
     cfg := cfg st; filters := filters st |}.

Definition set_previousSetpoint (v : axis -> Q) (st : pidState) : pidState :=
  {| targetPidLooptime := targetPidLooptime st; dT := dT st;
     pidStabilisationEnabled := pidStabilisationEnabled st;
     itermAccelerator := itermAccelerator st;
     inCrashRecoveryMode := inCrashRecoveryMode st;
     crashDetectedAtUs := crashDetectedAtUs st;
     previousTimeUs := previousTimeUs st; axisPID_P := axisPID_P st;
     axisPID_I := axisPID_I st; axisPID_D := axisPID_D st;
     axisPIDSum := axisPIDSum st; previousSetpoint := v;
     previousRateError := previousRateError st; beeper := beeper st;
     cfg := cfg st; filters := filters st |}.

Definition set_previousRateError (v : axis -> Q) (st : pidState) : pidState :=
  {| targetPidLooptime := targetPidLooptime st; dT := dT st;
     pidStabilisationEnabled := pidStabilisationEnabled st;
     itermAccelerator := itermAccelerator st;
     inCrashRecoveryMode := inCrashRecoveryMode st;
     crashDetectedAtUs := crashDetectedAtUs st;
     previousTimeUs := previousTimeUs st; axisPID_P := axisPID_P st;
     axisPID_I := axisPID_I st; axisPID_D := axisPID_D st;
     axisPIDSum := axisPIDSum st; previousSetpoint := previousSetpoint st;
     previousRateError := v; beeper := beeper st; cfg := cfg st;
     filters := filters st |}.

Definition set_beeper (v : bool) (st : pidState) : pidState :=
  {| targetPidLooptime := targetPidLooptime st; dT := dT st;
     pidStabilisationEnabled := pidStabilisationEnabled st;
     itermAccelerator := itermAccelerator st;
     inCrashRecoveryMode := inCrashRecoveryMode st;
     crashDetectedAtUs := crashDetectedAtUs st;
     previousTimeUs := previousTimeUs st; axisPID_P := axisPID_P st;
     axisPID_I := axisPID_I st; axisPID_D := axisPID_D st;
     axisPIDSum := axisPIDSum st; previousSetpoint := previousSetpoint st;
     previousRateError := previousRateError st; beeper := v; cfg := cfg st;
     filters := filters st |}.

Definition set_cfg (v : derived) (st : pidState) : pidState :=
  {| targetPidLooptime := targetPidLooptime st; dT := dT st;
     pidStabilisationEnabled := pidStabilisationEnabled st;
     itermAccelerator := itermAccelerator st;
     inCrashRecoveryMode := inCrashRecoveryMode st;
     crashDetectedAtUs := crashDetectedAtUs st;
     previousTimeUs := previousTimeUs st; axisPID_P := axisPID_P st;
     axisPID_I := axisPID_I st; axisPID_D := axisPID_D st;
     axisPIDSum := axisPIDSum st; previousSetpoint := previousSetpoint st;
     previousRateError := previousRateError st; beeper := beeper st;
     cfg := v; filters := filters st |}.

Definition set_filters (v : filterChain) (st : pidState) : pidState :=
  {| targetPidLooptime := targetPidLooptime st; dT := dT st;
     pidStabilisationEnabled := pidStabilisationEnabled st;
     itermAccelerator := itermAccelerator st;
     inCrashRecoveryMode := inCrashRecoveryMode st;
     crashDetectedAtUs := crashDetectedAtUs st;
     previousTimeUs := previousTimeUs st; axisPID_P := axisPID_P st;
     axisPID_I := axisPID_I st; axisPID_D := axisPID_D st;
     axisPIDSum := axisPIDSum st; previousSetpoint := previousSetpoint st;
     previousRateError := previousRateError st; beeper := beeper st;
     cfg := cfg st; filters := v |}.

Definition set_dtermNotchFilterApplyFn (v : filterApplyFn) (st : pidState) : pidState :=
  set_filters
    {| dtermNotchFilterApplyFn := v;
       dtermFilterNotch := dtermFilterNotch (filters st);
       dtermLpfApplyFn := dtermLpfApplyFn (filters st);
       dtermFilterLpf := dtermFilterLpf (filters st);
       ptermYawFilterApplyFn := ptermYawFilterApplyFn (filters st);
       ptermYawFilter := ptermYawFilter (filters st) |} st.

Definition set_dtermFilterNotch (v : axis -> filterState) (st : pidState) : pidState :=
  set_filters
    {| dtermNotchFilterApplyFn := dtermNotchFilterApplyFn (filters st);
       dtermFilterNotch := v;
       dtermLpfApplyFn := dtermLpfApplyFn (filters st);
       dtermFilterLpf := dtermFilterLpf (filters st);
       ptermYawFilterApplyFn := ptermYawFilterApplyFn (filters st);
       ptermYawFilter := ptermYawFilter (filters st) |} st.

Definition set_dtermLpfApplyFn (v : filterApplyFn) (st : pidState) : pidState :=
  set_filters
    {| dtermNotchFilterApplyFn := dtermNotchFilterApplyFn (filters st);
       dtermFilterNotch := dtermFilterNotch (filters st);
       dtermLpfApplyFn := v; dtermFilterLpf := dtermFilterLpf (filters st);
       ptermYawFilterApplyFn := ptermYawFilterApplyFn (filters st);
       ptermYawFilter := ptermYawFilter (filters st) |} st.

Definition set_dtermFilterLpf (v : axis -> filterState) (st : pidState) : pidState :=
  set_filters
    {| dtermNotchFilterApplyFn := dtermNotchFilterApplyFn (filters st);
       dtermFilterNotch := dtermFilterNotch (filters st);
       dtermLpfApplyFn := dtermLpfApplyFn (filters st); dtermFilterLpf := v;
       ptermYawFilterApplyFn := ptermYawFilterApplyFn (filters st);
       ptermYawFilter := ptermYawFilter (filters st) |} st.

Definition set_ptermYawFilterApplyFn (v : filterApplyFn) (st : pidState) : pidState :=
  set_filters
    {| dtermNotchFilterApplyFn := dtermNotchFilterApplyFn (filters st);
       dtermFilterNotch := dtermFilterNotch (filters st);
       dtermLpfApplyFn := dtermLpfApplyFn (filters st);
       dtermFilterLpf := dtermFilterLpf (filters st);
       ptermYawFilterApplyFn := v;
       ptermYawFilter := ptermYawFilter (filters st) |} st.

Definition set_ptermYawFilter (v : filterState) (st : pidState) : pidState :=
  set_filters
    {| dtermNotchFilterApplyFn := dtermNotchFilterApplyFn (filters st);
       dtermFilterNotch := dtermFilterNotch (filters st);
       dtermLpfApplyFn := dtermLpfApplyFn (filters st);
       dtermFilterLpf := dtermFilterLpf (filters st);
       ptermYawFilterApplyFn := ptermYawFilterApplyFn (filters st);
       ptermYawFilter := v |} st.

(** The state at program start: every static is zero-initialised, except
    [itermAccelerator], initialised to [1.0f] (pid.c, line 158).  The three
    function pointers are then NULL in C, and pidController calls them
    without a test: a tick before the first pidInitFilters is outside the
    model, which starts them at [nullFilterApply], the value pidInitFilters
    gives them when no looptime is set. *)
Definition initialState : pidState :=
  {| targetPidLooptime := 0; dT := 0; pidStabilisationEnabled := false;
     itermAccelerator := 1; inCrashRecoveryMode := false;
     crashDetectedAtUs := 0; previousTimeUs := 0;
     axisPID_P := fun _ => 0; axisPID_I := fun _ => 0;
     axisPID_D := fun _ => 0; axisPIDSum := fun _ => 0;
     previousSetpoint := fun _ => 0; previousRateError := fun _ => 0;
     beeper := false;
     cfg := {| Kp := fun _ => 0; Ki := fun _ => 0; Kd := fun _ => 0;
               maxVelocity := fun _ => 0; relaxFactor := 0;
               dtermSetpointWeight := 0; levelGain := 0; horizonGain := 0;
               horizonTransition := 0; horizonCutoffDegrees := 0;
               horizonFactorRatio := 0; ITermWindupPointInv := 0;
               horizonTiltExpertMode := 0; crashTimeLimitUs := 0;
               crashTimeDelayUs := 0; crashRecoveryAngleDeciDegrees := 0;
               crashRecoveryRate := 0; crashDtermThreshold := 0;
               crashGyroThreshold := 0; crashSetpointThreshold := 0;
               crashLimitYaw := 0; itermLimit := 0 |};
     filters := {| dtermNotchFilterApplyFn := nullFilterApply;
                   dtermFilterNotch := fun _ => [];
                   dtermLpfApplyFn := nullFilterApply;
                   dtermFilterLpf := fun _ => [];
                   ptermYawFilterApplyFn := nullFilterApply;
                   ptermYawFilter := [] |} |}.

(** ** Set-up functions (pid.c, lines 145-316) *)

(** [pidSetTargetLooptime]: [dT = (float)targetPidLooptime * 0.000001f]. *)
Definition pidSetTargetLooptime (pidLooptime : Z) (st : pidState) : pidState :=
  let st := set_targetPidLooptime pidLooptime st in
  set_dT (inject_Z (targetPidLooptime st) * (1 # 1000000)) st.

(** [pidResetITerm]: the loop over the three axes, each set to [0.0f]. *)
Definition pidResetITerm (st : pidState) : pidState :=
  fold_left (fun s ax => set_axisPID_I (upd (axisPID_I s) ax 0) s) allAxes st.

Definition pidSetItermAccelerator (newItermAccelerator : Q) (st : pidState)
  : pidState :=
  set_itermAccelerator newItermAccelerator st.

(** Modelled from the spec: [pidStabilisationState_e] of flight/pid.h is not
    in src. *)
Definition PID_STABILISATION_OFF : Z := 0.
Definition PID_STABILISATION_ON : Z := 1.

Definition pidStabilisationState (pidControllerState : Z) (st : pidState)
  : pidState :=
  set_pidStabilisationEnabled
    (if (pidControllerState =? PID_STABILISATION_ON)%Z then true else false) st.

(** The binary32 value of [dT].  [dT] is assigned at line 148 only,
    together with [targetPidLooptime], so in every state of the program it
    is [(float)targetPidLooptime * 0.000001f]: the conversion of the
    [uint32_t], the literal and the product each rounded to binary32.  (The
    field [dT] of the model holds the exact product.) *)
Definition dT_binary32 (st : pidState) : Q :=
  round32 (round32 (inject_Z (targetPidLooptime st)) * round32 (1 # 1000000)).

(** [pidFrequencyNyquist = (1.0f / dT) / 2], two binary32 divisions,
    converted to [uint32_t]. *)
Definition pidFrequencyNyquist (st : pidState) : Z :=
  Qtrunc (round32 (round32 (1 / dT_binary32 st) / 2)).

(** The centre frequency chosen for the D-term notch (pid.c, lines 199-208);
    the variable is a [uint16_t], so the assignment of the 32-bit Nyquist
    frequency keeps its low 16 bits. *)
Definition dTermNotchHz (pidProfile : Profile.t) (nyquist : Z) : Z :=
  if (Profile.dterm_notch_hz pidProfile <=? nyquist)%Z then
    Profile.dterm_notch_hz pidProfile
  else if (Profile.dterm_notch_cutoff pidProfile <? nyquist)%Z then
    (nyquist mod 2 ^ 16)%Z
  else 0%Z.

(** [for (int axis = FD_ROLL; axis <= FD_PITCH; axis++) arr[axis] = init(arr[axis])] *)
Definition initRollPitch (init : filterState -> filterState)
    (arr : axis -> filterState) : axis -> filterState :=
  fold_left (fun a ax => upd a ax (init (a ax))) [FD_ROLL; FD_PITCH] arr.

Definition pidInitFilters (lib : platform) (pidProfile : Profile.t)
    (st : pidState) : pidState :=
  if (targetPidLooptime st =? 0)%Z then
    (* no looptime set, so set all the filters to null *)
    let st := set_dtermNotchFilterApplyFn nullFilterApply st in
    let st := set_dtermLpfApplyFn nullFilterApply st in
    set_ptermYawFilterApplyFn nullFilterApply st
  else
    let nyquist := pidFrequencyNyquist st in
    let notchHz := dTermNotchHz pidProfile nyquist in
    (* D-term notch *)
    let st :=
      if negb (notchHz =? 0)%Z
         && negb (Profile.dterm_notch_cutoff pidProfile =? 0)%Z then
        let st := set_dtermNotchFilterApplyFn biquadFilterApply st in
        let notchQ :=
          filterGetNotchQ lib notchHz (Profile.dterm_notch_cutoff pidProfile) in
        set_dtermFilterNotch
          (initRollPitch
             (fun f => biquadFilterInit lib f notchHz (targetPidLooptime st)
                         notchQ FILTER_NOTCH)
             (dtermFilterNotch (filters st))) st
      else set_dtermNotchFilterApplyFn nullFilterApply st in
    (* D-term low-pass *)
    let st :=
      if (Profile.dterm_lpf_hz pidProfile =? 0)%Z
         || (Profile.dterm_lpf_hz pidProfile >? nyquist)%Z then
        set_dtermLpfApplyFn nullFilterApply st
      else if (Profile.dterm_filter_type pidProfile =? FILTER_PT1)%Z then
        let st := set_dtermLpfApplyFn pt1FilterApply st in
        set_dtermFilterLpf
          (initRollPitch
             (fun f => pt1FilterInit lib f (Profile.dterm_lpf_hz pidProfile)
                         (dT st))
             (dtermFilterLpf (filters st))) st
      else if (Profile.dterm_filter_type pidProfile =? FILTER_BIQUAD)%Z then
        let st := set_dtermLpfApplyFn biquadFilterApply st in
        set_dtermFilterLpf
          (initRollPitch
             (fun f => biquadFilterInitLPF lib f
                         (Profile.dterm_lpf_hz pidProfile)
                         (targetPidLooptime st))
             (dtermFilterLpf (filters st))) st
      else if (Profile.dterm_filter_type pidProfile =? FILTER_FIR)%Z then
        let st := set_dtermLpfApplyFn firFilterDenoiseUpdate st in
        set_dtermFilterLpf
          (initRollPitch
             (fun f => firFilterDenoiseInit lib f
                         (Profile.dterm_lpf_hz pidProfile)
                         (targetPidLooptime st))
             (dtermFilterLpf (filters st))) st
      else set_dtermLpfApplyFn nullFilterApply st in
    (* yaw P-term low-pass *)
    if (Profile.yaw_lpf_hz pidProfile =? 0)%Z
       || (Profile.yaw_lpf_hz pidProfile >? nyquist)%Z then
      set_ptermYawFilterApplyFn nullFilterApply st
    else
      let st := set_ptermYawFilterApplyFn pt1FilterApply st in
      set_ptermYawFilter
        (pt1FilterInit lib (ptermYawFilter (filters st))
           (Profile.yaw_lpf_hz pidProfile) (dT st)) st.

(** [pidInitConfig].  With [setpointRelaxRatio = 0] line 289 gives
    [relaxFactor = +inf] and with [itermWindupPointPercent = 100] line 299
    gives [ITermWindupPointInv = +inf]; the model has [0] in both places and
    does not cover what a tick computes from them. *)
Definition pidInitConfig (lib : platform) (pidProfile : Profile.t)
    (st : pidState) : pidState :=
  let ITermWindupPoint :=
    inject_Z (Profile.itermWindupPointPercent pidProfile) / 100 in
  let rollPitchVelocity :=
    inject_Z (Profile.rateAccelLimit pidProfile * 100) * dT st in
  let yawVelocity :=
    inject_Z (Profile.yawRateAccelLimit pidProfile * 100) * dT st in
  set_cfg
    {| Kp := fun ax =>
         PTERM_SCALE lib * inject_Z (Profile.P (Profile.pid pidProfile ax));
       Ki := fun ax =>
         ITERM_SCALE lib * inject_Z (Profile.I (Profile.pid pidProfile ax));
       Kd := fun ax =>
         DTERM_SCALE lib * inject_Z (Profile.D (Profile.pid pidProfile ax));
       dtermSetpointWeight :=
         inject_Z (Profile.dtermSetpointWeight pidProfile) / 127;
       relaxFactor :=
         1 / (inject_Z (Profile.setpointRelaxRatio pidProfile) / 100);
       levelGain := inject_Z (Profile.P (Profile.pid_LEVEL pidProfile)) / 10;
       horizonGain := inject_Z (Profile.I (Profile.pid_LEVEL pidProfile)) / 10;
       horizonTransition := inject_Z (Profile.D (Profile.pid_LEVEL pidProfile));
       horizonTiltExpertMode := Profile.horizon_tilt_expert_mode pidProfile;
       horizonCutoffDegrees :=
         inject_Z (175 - Profile.horizon_tilt_effect pidProfile) * (18 # 10);
       horizonFactorRatio :=
         inject_Z (100 - Profile.horizon_tilt_effect pidProfile) * (1 # 100);
       maxVelocity :=
         upd (upd (upd (maxVelocity (cfg st)) FD_PITCH rollPitchVelocity)
                FD_ROLL rollPitchVelocity) FD_YAW yawVelocity;
       ITermWindupPointInv := 1 / (1 - ITermWindupPoint);
       crashTimeLimitUs := (Profile.crash_time pidProfile * 1000)%Z;
       crashTimeDelayUs := (Profile.crash_delay pidProfile * 1000)%Z;
       crashRecoveryAngleDeciDegrees :=
         (Profile.crash_recovery_angle pidProfile * 10)%Z;
       crashRecoveryRate := inject_Z (Profile.crash_recovery_rate pidProfile);
       crashGyroThreshold := inject_Z (Profile.crash_gthreshold pidProfile);
       crashDtermThreshold := inject_Z (Profile.crash_dthreshold pidProfile);
       crashSetpointThreshold :=
         inject_Z (Profile.crash_setpoint_threshold pidProfile);
       crashLimitYaw := inject_Z (Profile.crash_limit_yaw pidProfile);
       itermLimit := inject_Z (Profile.itermLimit pidProfile) |} st.

(** [pidInit]: the looptime is [gyro.targetLooptime * pid_process_denom], a
    32-bit unsigned product. *)
Definition pidInit (lib : platform) (gyroTargetLooptime pid_process_denom : Z)
    (pidProfile : Profile.t) (st : pidState) : pidState :=
  let st := pidSetTargetLooptime (u32 (gyroTargetLooptime * pid_process_denom)) st in
  let st := pidInitFilters lib pidProfile st in
  pidInitConfig lib pidProfile st.

(** ** Leveling (pid.c, lines 329-402) *)

(** [MAX(ABS(attitude.values.roll), ABS(attitude.values.pitch)) / 10.0f]:
    0 at level, 90 at vertical, 180 at inverted (degrees). *)
Definition inclinationDegrees (inp : inputs) : Q :=
  inject_Z (MAXi (ABSi (attitude_roll inp)) (ABSi (attitude_pitch inp))) / 10.

Definition calcHorizonLevelStrength (inp : inputs) (c : derived) : Q :=
  let currentInclination := inclinationDegrees inp in
  let horizonLevelStrength :=
    if negb (horizonTiltExpertMode c =? 0)%Z then
      if Qgtb (horizonTransition c) 0 && Qgtb (horizonCutoffDegrees c) 0 then
        let inclinationLevelRatio :=
          constrainf ((horizonCutoffDegrees c - currentInclination)
                      / horizonCutoffDegrees c) 0 1 in
        inclinationLevelRatio
      else 0
    else
      if Qgtb (horizonCutoffDegrees c) 0 then
        let inclinationLevelRatio :=
          constrainf (((horizonCutoffDegrees c - currentInclination) * 2)
                      / horizonCutoffDegrees c) 0 1 in
        inclinationLevelRatio
      else 0 in
  constrainf horizonLevelStrength 0 1.

(** The error angle of [pidLevel] (pid.c, lines 375-380). *)
Definition levelErrorAngle (inp : inputs) (ax : axis) (pidProfile : Profile.t)
    (angleTrim : rollAndPitchTrims_t) : Q :=
  let angle :=
    inject_Z (Profile.levelAngleLimit pidProfile) * getRcDeflection inp ax in
  let angle := angle + inject_Z (GPS_angle inp ax) in
  let angle :=
    constrainf angle (inject_Z (- Profile.levelAngleLimit pidProfile))
      (inject_Z (Profile.levelAngleLimit pidProfile)) in
  angle - inject_Z (attitude_raw inp ax - angleTrim ax) / 10.

Definition pidLevel (inp : inputs) (c : derived) (ax : axis)
    (pidProfile : Profile.t) (angleTrim : rollAndPitchTrims_t)
    (currentPidSetpoint : Q) : Q :=
  let errorAngle := levelErrorAngle inp ax pidProfile angleTrim in
  if FLIGHT_MODE inp ANGLE_MODE then
    errorAngle * levelGain c
  else
    let horizonLevelStrength := calcHorizonLevelStrength inp c in
    let racemodeInclination := inclinationDegrees inp in
    if negb (horizonTiltExpertMode c =? 0)%Z then
      currentPidSetpoint + errorAngle * horizonGain c * horizonLevelStrength
    else if Qltb racemodeInclination
              (inject_Z (Profile.levelAngleLimit pidProfile)) then
      errorAngle * horizonGain c
    else
      currentPidSetpoint + errorAngle * horizonGain c * horizonLevelStrength.

(** ** Acceleration limiter (pid.c, lines 404-415) *)

Definition accelerationLimit (ax : axis) (currentPidSetpoint : Q)
    (st : pidState) : pidState * Q :=
  let currentVelocity := currentPidSetpoint - previousSetpoint st ax in
  let currentPidSetpoint :=
    if Qgtb (ABS currentVelocity) (maxVelocity (cfg st) ax) then
      if Qgtb currentVelocity 0 then
        previousSetpoint st ax + maxVelocity (cfg st) ax
      else previousSetpoint st ax - maxVelocity (cfg st) ax
    else currentPidSetpoint in
  (set_previousSetpoint (upd (previousSetpoint st) ax currentPidSetpoint) st,
   currentPidSetpoint).

(** ** The controller (pid.c, lines 419-561) *)

(** The values computed once per tick, before the loop over the axes. *)
Record tick : Type := {
  currentTimeUs : Z;
  tpaFactor : Q;
  motorMixRange : Q;
  deltaT : Q;
  dynCi : Q;
  dynCd : Q
}.

Section Axis.

Variable lib : platform.
Variable inp : inputs.
Variable pidProfile : Profile.t.
Variable angleTrim : rollAndPitchTrims_t.
Variable tk : tick.

(** Lines 441-444: the setpoint, acceleration-limited when the axis has a
    non-zero [maxVelocity]. *)
Definition limitedSetpoint (ax : axis) (st : pidState) : pidState * Q :=
  let currentPidSetpoint := getSetpointRate inp ax in
  if Qnonzero (maxVelocity (cfg st) ax) then
    accelerationLimit ax currentPidSetpoint st
  else (st, currentPidSetpoint).

(** Lines 445-452: the leveling of the setpoint in horizon and in angle
    mode. *)
Definition leveledSetpoint (c : derived) (ax : axis)
    (currentPidSetpoint : Q) : Q :=
  let currentPidSetpoint :=
    if FLIGHT_MODE inp HORIZON_MODE
       && (negb (axis_eqb ax YAW) && negb (axis_eqb ax PITCH)) then
      pidLevel inp c ax pidProfile angleTrim currentPidSetpoint
    else currentPidSetpoint in
  if FLIGHT_MODE inp ANGLE_MODE && negb (axis_eqb ax YAW) then
    pidLevel inp c ax pidProfile angleTrim currentPidSetpoint
  else currentPidSetpoint.

(** The guard of line 458. *)
Definition recoveryActive (st : pidState) : bool :=
  inCrashRecoveryMode st
  && (cmpTimeUs (currentTimeUs tk) (crashDetectedAtUs st)
      >? crashTimeDelayUs (cfg st))%Z.

(** The exit condition of lines 476-480. *)
Definition recoveryDone (st : pidState) : bool :=
  (cmpTimeUs (currentTimeUs tk) (crashDetectedAtUs st)
   >? crashTimeLimitUs (cfg st))%Z
  || (Qltb (motorMixRange tk) 1
      && Qltb (ABS (gyroADCf inp FD_ROLL)) (crashRecoveryRate (cfg st))
      && Qltb (ABS (gyroADCf inp FD_PITCH)) (crashRecoveryRate (cfg st))
      && Qltb (ABS (gyroADCf inp FD_YAW)) (crashRecoveryRate (cfg st))).

(** The level check of lines 483-484. *)
Definition nearlyLevel (st : pidState) : bool :=
  (ABSi (attitude_raw inp FD_ROLL - angleTrim FD_ROLL)
   <? crashRecoveryAngleDeciDegrees (cfg st))%Z
  && (ABSi (attitude_raw inp FD_PITCH - angleTrim FD_PITCH)
      <? crashRecoveryAngleDeciDegrees (cfg st))%Z.

(** [inCrashRecoveryMode = false; BEEP_OFF;] *)
Definition leaveRecovery (st : pidState) : pidState :=
  set_beeper false (set_inCrashRecoveryMode false st).

(** Lines 458-493: the override of setpoint and rate error while
    recovering; returns the state, [currentPidSetpoint] and [errorRate]. *)
Definition crashRecovery (ax : axis) (currentPidSetpoint errorRate : Q)
    (st : pidState) : pidState * (Q * Q) :=
  let gyroRate := gyroADCf inp ax in
  if recoveryActive st then
    let st :=
      if (Profile.crash_recovery pidProfile =? PID_CRASH_RECOVERY_BEEP)%Z
      then set_beeper true st else st in
    let sp_err :=
      if axis_eqb ax FD_YAW then
        (currentPidSetpoint,
         constrainf errorRate (- crashLimitYaw (cfg st)) (crashLimitYaw (cfg st)))
      else if sensors_SENSOR_ACC inp then
        let errorAngle :=
          inject_Z (- (attitude_raw inp ax - angleTrim ax)) / 10 in
        let currentPidSetpoint := errorAngle * levelGain (cfg st) in
        (currentPidSetpoint, currentPidSetpoint - gyroRate)
      else (currentPidSetpoint, errorRate) in
    let st := set_axisPID_I (upd (axisPID_I st) ax 0) st in
    let st :=
      if recoveryDone st then
        if sensors_SENSOR_ACC inp then
          if nearlyLevel st then leaveRecovery st else st
        else leaveRecovery st
      else st in
    (st, sp_err)
  else (st, (currentPidSetpoint, errorRate)).

(** Lines 500-503: the P component; on yaw it goes through its filter. *)
Definition pTerm (ax : axis) (errorRate : Q) (st : pidState) : pidState :=
  let st :=
    set_axisPID_P (upd (axisPID_P st) ax (Kp (cfg st) ax * errorRate * tpaFactor tk)) st in
  if axis_eqb ax FD_YAW then
    let r := filterApply lib (ptermYawFilterApplyFn (filters st))
               (ptermYawFilter (filters st)) (axisPID_P st ax) in
    let st := set_ptermYawFilter (fst r) st in
    set_axisPID_P (upd (axisPID_P st) ax (snd r)) st
  else st.

(** Line 507: the candidate for the integral. *)
Definition ITermNew (ax : axis) (errorRate : Q) (st : pidState) : Q :=
  constrainf (axisPID_I st ax + Ki (cfg st) ax * errorRate * dynCi tk)
    (- itermLimit (cfg st)) (itermLimit (cfg st)).

(** Lines 506-512: the I component. *)
Definition iTerm (ax : axis) (errorRate : Q) (st : pidState) : pidState :=
  let ITerm := axisPID_I st ax in
  let ITermNew := ITermNew ax errorRate st in
  let outputSaturated := mixerIsOutputSaturated inp ax errorRate in
  if Bool.eqb outputSaturated false || Qltb (ABS ITermNew) (ABS ITerm) then
    (* Only increase ITerm if output is not saturated *)
    set_axisPID_I (upd (axisPID_I st) ax ITermNew) st
  else st.

(** The entry condition of lines 530-533. *)
Definition crashDetected (ax : axis) (delta errorRate : Q) (st : pidState)
  : bool :=
  Qgeb (motorMixRange tk) 1 && negb (inCrashRecoveryMode st)
  && Qgtb (ABS delta) (crashDtermThreshold (cfg st))
  && Qgtb (ABS errorRate) (crashGyroThreshold (cfg st))
  && Qltb (ABS (getSetpointRate inp ax)) (crashSetpointThreshold (cfg st)).

(** The early-abort condition of lines 537-538. *)
Definition crashAborted (ax : axis) (errorRate : Q) (st : pidState) : bool :=
  inCrashRecoveryMode st
  && (cmpTimeUs (currentTimeUs tk) (crashDetectedAtUs st)
      <? crashTimeDelayUs (cfg st))%Z
  && (Qltb (ABS errorRate) (crashGyroThreshold (cfg st))
      || Qgtb (ABS (getSetpointRate inp ax)) (crashSetpointThreshold (cfg st))).

(** Lines 526-546: crash detection, run on roll and pitch. *)
Definition crashCheck (ax : axis) (delta errorRate : Q) (st : pidState)
  : pidState :=
  if negb (Profile.crash_recovery pidProfile =? 0)%Z
     && negb (gyroOverflowDetected inp) then
    if ARMING_FLAG_ARMED inp then
      let st :=
        if crashDetected ax delta errorRate st then
          set_crashDetectedAtUs (currentTimeUs tk)
            (set_inCrashRecoveryMode true st)
        else st in
      if crashAborted ax errorRate st then leaveRecovery st else st
    else if inCrashRecoveryMode st then leaveRecovery st
    else st
  else st.

(** Lines 517-520: [rD], from the gyro rate filtered through the notch and
    then the low-pass, as a function of the state that enters the D stage. *)
Definition dtermRD (ax : axis) (currentPidSetpoint : Q) (st : pidState) : Q :=
  let gyroRate := gyroADCf inp ax in
  let r1 := filterApply lib (dtermNotchFilterApplyFn (filters st))
              (dtermFilterNotch (filters st) ax) gyroRate in
  let r2 := filterApply lib (dtermLpfApplyFn (filters st))
              (dtermFilterLpf (filters st) ax) (snd r1) in
  dynCd tk * MIN (getRcDeflectionAbs inp ax * relaxFactor (cfg st)) 1
    * currentPidSetpoint - snd r2.

(** Line 522: the derivative [delta].  With [deltaT = 0] it is infinite or
    NaN in C and [0] here: the model covers it for a non-zero [deltaT]. *)
Definition dtermDelta (ax : axis) (currentPidSetpoint : Q) (st : pidState)
  : Q :=
  (dtermRD ax currentPidSetpoint st - previousRateError st ax) / deltaT tk.

(** Lines 514-551: the D component and the sum.  [rD] and [delta] are the
    values [dtermRD] and [dtermDelta] name. *)
Definition dTerm (ax : axis) (currentPidSetpoint errorRate : Q)
    (st : pidState) : pidState :=
  if negb (axis_eqb ax FD_YAW) then
    let gyroRate := gyroADCf inp ax in
    (* apply filters *)
    let r1 := filterApply lib (dtermNotchFilterApplyFn (filters st))
                (dtermFilterNotch (filters st) ax) gyroRate in
    let st := set_dtermFilterNotch (upd (dtermFilterNotch (filters st)) ax (fst r1)) st in
    let r2 := filterApply lib (dtermLpfApplyFn (filters st))
                (dtermFilterLpf (filters st) ax) (snd r1) in
    let st := set_dtermFilterLpf (upd (dtermFilterLpf (filters st)) ax (fst r2)) st in
    let gyroRateFiltered := snd r2 in
    let rD :=
      dynCd tk * MIN (getRcDeflectionAbs inp ax * relaxFactor (cfg st)) 1
        * currentPidSetpoint - gyroRateFiltered in
    (* Divide rate change by deltaT to get differential (ie dr/dt) *)
    let delta := (rD - previousRateError st ax) / deltaT tk in
    let st := set_previousRateError (upd (previousRateError st) ax rD) st in
    let st := crashCheck ax delta errorRate st in
    let st :=
      set_axisPID_D (upd (axisPID_D st) ax (Kd (cfg st) ax * delta * tpaFactor tk)) st in
    set_axisPIDSum
      (upd (axisPIDSum st) ax
         (axisPID_P st ax + axisPID_I st ax + axisPID_D st ax)) st
  else
    set_axisPIDSum
      (upd (axisPIDSum st) ax (axisPID_P st ax + axisPID_I st ax)) st.

(** Lines 553-559: no PID control at zero throttle or on gyro overflow. *)
Definition disableOutputs (ax : axis) (st : pidState) : pidState :=
  if negb (pidStabilisationEnabled st) || gyroOverflowDetected inp then
    let st := set_axisPID_P (upd (axisPID_P st) ax 0) st in
    let st := set_axisPID_I (upd (axisPID_I st) ax 0) st in
    let st := set_axisPID_D (upd (axisPID_D st) ax 0) st in
    set_axisPIDSum (upd (axisPIDSum st) ax 0) st
  else st.

(** The setpoint that enters the rate-error calculation of line 456. *)
Definition axisSetpoint (ax : axis) (st : pidState) : Q :=
  leveledSetpoint (cfg st) ax (snd (limitedSetpoint ax st)).

(** The rate error that the P, I and D components use, after the override
    of crash recovery. *)
Definition axisErrorRate (ax : axis) (st : pidState) : Q :=
  let currentPidSetpoint := axisSetpoint ax st in
  let errorRate := currentPidSetpoint - gyroADCf inp ax in
  snd (snd (crashRecovery ax currentPidSetpoint errorRate
              (fst (limitedSetpoint ax st)))).

(** One iteration of the loop of lines 440-560. *)
Definition pidControllerAxis (st : pidState) (ax : axis) : pidState :=
  let r := limitedSetpoint ax st in
  let st := fst r in
  let currentPidSetpoint := leveledSetpoint (cfg st) ax (snd r) in
  (* -----calculate error rate *)
  let gyroRate := gyroADCf inp ax in
  let errorRate := currentPidSetpoint - gyroRate in
  let r := crashRecovery ax currentPidSetpoint errorRate st in
  let st := fst r in
  let currentPidSetpoint := fst (snd r) in
  let errorRate := snd (snd r) in
  let st := pTerm ax errorRate st in
  let st := iTerm ax errorRate st in
  let st := dTerm ax currentPidSetpoint errorRate st in
  disableOutputs ax st.

End Axis.

(** The values of lines 422-437, from the state before the tick. *)
Definition tickValues (inp : inputs) (now : Z) (st : pidState) : tick :=
  {| currentTimeUs := now;
     tpaFactor := getThrottlePIDAttenuation inp;
     motorMixRange := getMotorMixRange inp;
     deltaT := inject_Z (u32 (now - previousTimeUs st)) * (1 # 1000000);
     dynCi :=
       MIN ((1 - getMotorMixRange inp) * ITermWindupPointInv (cfg st)) 1
       * dT st * itermAccelerator st;
     dynCd :=
       if negb (flightModeFlags inp =? 0)%Z then 0
       else dtermSetpointWeight (cfg st) |}.

Definition pidController (lib : platform) (inp : inputs)
    (pidProfile : Profile.t) (angleTrim : rollAndPitchTrims_t) (now : Z)
    (st : pidState) : pidState :=
  let tk := tickValues inp now st in
  let st := set_previousTimeUs now st in
  fold_left (pidControllerAxis lib inp pidProfile angleTrim tk) allAxes st.

Definition crashRecoveryModeActive (st : pidState) : bool :=
  inCrashRecoveryMode st.

(** ** The leveling strength as the specification words it *)

(** From the specification (section 4.4): strength is
    [clamp((cutoff - inclination)/cutoff, 0, 1)] in the expert sub-mode and
    [clamp(2 x (cutoff - inclination)/cutoff, 0, 1)] in the limited sub-mode;
    if [cutoff <= 0] the strength is 0. *)
Definition specHorizonLevelStrength (expert : bool) (cutoff inclination : Q)
  : Q :=
  if Qle_bool cutoff 0 then 0
  else if expert then constrainf ((cutoff - inclination) / cutoff) 0 1
  else constrainf (2 * (cutoff - inclination) / cutoff) 0 1.

(** The same inputs with other flight-mode flags. *)
Definition withFlightModeFlags (flags : Z) (inp : inputs) : inputs :=
  {| getSetpointRate := getSetpointRate inp;
     getRcDeflection := getRcDeflection inp;
     getRcDeflectionAbs := getRcDeflectionAbs inp;
     getThrottlePIDAttenuation := getThrottlePIDAttenuation inp;
     getMotorMixRange := getMotorMixRange inp;
     mixerIsOutputSaturated := mixerIsOutputSaturated inp;
     gyroADCf := gyroADCf inp;
     gyroOverflowDetected := gyroOverflowDetected inp;
     attitude_raw := attitude_raw inp;
     GPS_angle := GPS_angle inp;
     sensors_SENSOR_ACC := sensors_SENSOR_ACC inp;
     flightModeFlags := flags;
     ARMING_FLAG_ARMED := ARMING_FLAG_ARMED inp |}.

(** ** Predicates on states used by the proofs *)

(** [frame ax st st']: from [st] to [st'] the configuration is unchanged and,
    of the per-axis arrays, only the entries of [ax] may differ. *)
Record frame (ax : axis) (st st' : pidState) : Prop := {
  fr_cfg : cfg st' = cfg st;
  fr_stab : pidStabilisationEnabled st' = pidStabilisationEnabled st;
  fr_dT : dT st' = dT st;
  fr_looptime : targetPidLooptime st' = targetPidLooptime st;
  fr_accel : itermAccelerator st' = itermAccelerator st;
  fr_time : previousTimeUs st' = previousTimeUs st;
  fr_P : forall a, a <> ax -> axisPID_P st' a = axisPID_P st a;
  fr_I : forall a, a <> ax -> axisPID_I st' a = axisPID_I st a;
  fr_D : forall a, a <> ax -> axisPID_D st' a = axisPID_D st a;
  fr_Sum : forall a, a <> ax -> axisPIDSum st' a = axisPIDSum st a;
  fr_setpoint : forall a, a <> ax -> previousSetpoint st' a = previousSetpoint st a;
  fr_rateError : forall a, a <> ax -> previousRateError st' a = previousRateError st a
}.

(** [setup st s]: [s] has the configuration and the switches of [st]. *)
Definition setup (st s : pidState) : Prop :=
  cfg s = cfg st
  /\ pidStabilisationEnabled s = pidStabilisationEnabled st
  /\ dT s = dT st
  /\ targetPidLooptime s = targetPidLooptime st
  /\ itermAccelerator s = itermAccelerator st.

(** The entries of axis [a] in the per-axis arrays. *)
Definition sameAxis (a : axis) (st s : pidState) : Prop :=
  axisPID_P s a = axisPID_P st a
  /\ axisPID_I s a = axisPID_I st a
  /\ axisPID_D s a = axisPID_D st a
  /\ axisPIDSum s a = axisPIDSum st a
  /\ previousSetpoint s a = previousSetpoint st a
  /\ previousRateError s a = previousRateError st a.

(** The public functions of pid.c, called in any order from the state at
    program start; a profile has every field within its C type. *)
Inductive reachable (lib : platform) : pidState -> Prop :=
| reach_start : reachable lib initialState
| reach_pidInit st gyroTargetLooptime pid_process_denom pidProfile :
    reachable lib st -> Profile.ok pidProfile = true ->
    reachable lib (pidInit lib gyroTargetLooptime pid_process_denom pidProfile st)
| reach_pidInitFilters st pidProfile :
    reachable lib st -> Profile.ok pidProfile = true ->
    reachable lib (pidInitFilters lib pidProfile st)
| reach_pidInitConfig st pidProfile :
    reachable lib st -> Profile.ok pidProfile = true ->
    reachable lib (pidInitConfig lib pidProfile st)
| reach_pidResetITerm st :
    reachable lib st -> reachable lib (pidResetITerm st)
| reach_pidSetItermAccelerator st newItermAccelerator :
    reachable lib st ->
    reachable lib (pidSetItermAccelerator newItermAccelerator st)
| reach_pidStabilisationState st pidControllerState :
    reachable lib st ->
    reachable lib (pidStabilisationState pidControllerState st)
| reach_pidController st inp pidProfile angleTrim now :
    reachable lib st -> Profile.ok pidProfile = true ->
    reachable lib (pidController lib inp pidProfile angleTrim now st).

(** The derived limits are never negative. *)
Definition limitsNonneg (st : pidState) : Prop :=
  0 <= dT st
  /\ 0 <= itermLimit (cfg st)
  /\ forall a, 0 <= maxVelocity (cfg st) a.

(** All four outputs of an axis are zero. *)
Definition outputsZero (st : pidState) (a : axis) : Prop :=
  axisPID_P st a = 0 /\ axisPID_I st a = 0
  /\ axisPID_D st a = 0 /\ axisPIDSum st a = 0.

(** [crashSame st s]: [s] has the crash state of [st]. *)
Definition crashSame (st s : pidState) : Prop :=
  inCrashRecoveryMode s = inCrashRecoveryMode st
  /\ crashDetectedAtUs s = crashDetectedAtUs st.

(** ** Concrete values for the worked examples *)

(** The scale constants of Betaflight and a filter library in exact
    arithmetic: every active filter averages its input with its previous
    output, kept as its one-element state. *)
Definition averagingApply (f : filterState) (x : Q) : filterState * Q :=
  let y := (hd 0 f + x) / 2 in ([y], y).

Definition exampleLib : platform :=
  {| PTERM_SCALE := 32029 # 1000000;
     ITERM_SCALE := 244381 # 1000000;
     DTERM_SCALE := 529 # 1000000;
     filterGetNotchQ := fun centre cutoff =>
       inject_Z (centre * cutoff) / inject_Z (centre * centre - cutoff * cutoff);
     biquadFilterInit := fun _ _ _ _ _ => [0];
     biquadFilterInitLPF := fun _ _ _ => [0];
     biquadFilterApplyImpl := averagingApply;
     pt1FilterInit := fun f _ _ => f;
     pt1FilterApplyImpl := averagingApply;
     firFilterDenoiseInit := fun _ _ _ => [0];
     firFilterDenoiseUpdateImpl := averagingApply |}.

(** A tick in rate mode: armed, level, no rotation, 100 deg/s commanded on
    roll, the mixer not saturated. *)
Definition exampleInputs : inputs :=
  {| getSetpointRate := fun a => match a with FD_ROLL => 100 | _ => 0 end;
     getRcDeflection := fun a => match a with FD_ROLL => 1 # 5 | _ => 0 end;
     getRcDeflectionAbs := fun a => match a with FD_ROLL => 1 # 5 | _ => 0 end;
     getThrottlePIDAttenuation := 1;
     getMotorMixRange := 0;
     mixerIsOutputSaturated := fun _ _ => false;
     gyroADCf := fun _ => 0;
     gyroOverflowDetected := false;
     attitude_raw := fun _ => 0%Z;
     GPS_angle := fun _ => 0%Z;
     sensors_SENSOR_ACC := true;
     flightModeFlags := 0;
     ARMING_FLAG_ARMED := true |}.

Definition exampleTrim : rollAndPitchTrims_t := fun _ => 0%Z.

(** The default profile at a 1 kHz loop (gyro at 125 us, denominator 8),
    stabilisation on. *)
Definition exampleState : pidState :=
  pidStabilisationState PID_STABILISATION_ON
    (pidInit exampleLib 125 8 resetPidProfile initialState).

(** The default profile with another level PID, D-term notch frequency,
    D-term low-pass cutoff, crash-recovery setting and horizon sub-mode. *)
Definition exampleProfile (level : Profile.pid8_t)
    (notch_hz lpf_hz crash_recovery expert_mode : Z) : Profile.t :=
  {| Profile.pid_ROLL := Profile.pid_ROLL resetPidProfile;
     Profile.pid_PITCH := Profile.pid_PITCH resetPidProfile;
     Profile.pid_YAW := Profile.pid_YAW resetPidProfile;
     Profile.pid_LEVEL := level;
     Profile.yaw_lpf_hz := 0;
     Profile.dterm_lpf_hz := lpf_hz;
     Profile.dterm_notch_hz := notch_hz;
     Profile.dterm_notch_cutoff := 160;
     Profile.dterm_filter_type := FILTER_BIQUAD;
     Profile.itermWindupPointPercent := 50;
     Profile.levelAngleLimit := 65;
     Profile.setpointRelaxRatio := 100;
     Profile.dtermSetpointWeight := 0;
     Profile.yawRateAccelLimit := 100;
     Profile.rateAccelLimit := 0;
     Profile.crash_time := 500;
     Profile.crash_delay := 0;
     Profile.crash_recovery_angle := 10;
     Profile.crash_recovery_rate := 100;
     Profile.crash_dthreshold := 50;
     Profile.crash_gthreshold := 400;
     Profile.crash_setpoint_threshold := 350;
     Profile.crash_recovery := crash_recovery;
     Profile.horizon_tilt_effect := 130;
     Profile.horizon_tilt_expert_mode := expert_mode;
     Profile.crash_limit_yaw := 200;
     Profile.itermLimit := 150 |}.

(** Crash recovery switched on and the D-term filters switched off (both
    stages are then the identity, whatever the filter library). *)
Definition crashProfile : Profile.t :=
  exampleProfile (Profile.pid_LEVEL resetPidProfile) 0 0
    PID_CRASH_RECOVERY_ON 0.

Definition crashReadyState : pidState :=
  pidStabilisationState PID_STABILISATION_ON
    (pidInit exampleLib 125 8 crashProfile initialState).

(** A crash: armed, sticks centred, the mixer fully saturated and the roll
    gyro at 500 deg/s. *)
Definition crashInputs : inputs :=
  {| getSetpointRate := fun _ => 0;
     getRcDeflection := fun _ => 0;
     getRcDeflectionAbs := fun _ => 0;
     getThrottlePIDAttenuation := 1;
     getMotorMixRange := 1;
     mixerIsOutputSaturated := fun _ _ => true;
     gyroADCf := fun a => match a with FD_ROLL => 500 | _ => 0 end;
     gyroOverflowDetected := false;
     attitude_raw := fun _ => 0%Z;
     GPS_angle := fun _ => 0%Z;
     sensors_SENSOR_ACC := true;
     flightModeFlags := 0;
     ARMING_FLAG_ARMED := true |}.

(** The state one tick after the crash. *)
Definition recoveringState : pidState :=
  pidController exampleLib crashInputs crashProfile exampleTrim 1000
    crashReadyState.

(** The next tick: the pilot has disarmed and the gyro has overflowed. *)
Definition disarmedOverflowInputs : inputs :=
  {| getSetpointRate := fun _ => 0;
     getRcDeflection := fun _ => 0;
     getRcDeflectionAbs := fun _ => 0;
     getThrottlePIDAttenuation := 1;
     getMotorMixRange := 1;
     mixerIsOutputSaturated := fun _ _ => true;
     gyroADCf := fun a => match a with FD_ROLL => 2000 | _ => 0 end;
     gyroOverflowDetected := true;
     attitude_raw := fun _ => 0%Z;
     GPS_angle := fun _ => 0%Z;
     sensors_SENSOR_ACC := true;
     flightModeFlags := 0;
     ARMING_FLAG_ARMED := false |}.

(** The same tick without the overflow. *)
Definition disarmedInputs : inputs :=
  {| getSetpointRate := fun _ => 0;
     getRcDeflection := fun _ => 0;
     getRcDeflectionAbs := fun _ => 0;
     getThrottlePIDAttenuation := 1;
     getMotorMixRange := 1;
     mixerIsOutputSaturated := fun _ _ => true;
     gyroADCf := fun a => match a with FD_ROLL => 2000 | _ => 0 end;
     gyroOverflowDetected := false;
     attitude_raw := fun _ => 0%Z;
     GPS_angle := fun _ => 0%Z;
     sensors_SENSOR_ACC := true;
     flightModeFlags := 0;
     ARMING_FLAG_ARMED := false |}.

(** Horizon mode, level, a fifth of the roll stick. *)
Definition horizonInputs : inputs :=
  withFlightModeFlags HORIZON_MODE exampleInputs.

(** A level PID whose I (horizon strength) differs from its P (angle
    strength), and the parameters derived from it. *)
Definition gainProfile : Profile.t :=
  exampleProfile {| Profile.P := 50; Profile.I := 30; Profile.D := 75 |}
    260 100 PID_CRASH_RECOVERY_OFF 0.

Definition gainState : pidState :=
  pidInit exampleLib 125 8 gainProfile initialState.

(** The expert sub-mode with a zero D in the level PID. *)
Definition expertProfile : Profile.t :=
  exampleProfile {| Profile.P := 50; Profile.I := 50; Profile.D := 0 |}
    260 100 PID_CRASH_RECOVERY_OFF 1.

Definition expertState : pidState :=
  pidInit exampleLib 125 8 expertProfile initialState.

(** A D-term low-pass cutoff of 32 Hz, for a loop of 64 Hz: the gyro at
    125 us and a denominator of 125 give a tick of 15625 us, which binary32
    holds exactly (2^-6 s). *)
Definition nyquistProfile : Profile.t :=
  exampleProfile (Profile.pid_LEVEL resetPidProfile) 260 32
    PID_CRASH_RECOVERY_OFF 0.

Definition nyquistState : pidState :=
  pidSetTargetLooptime (u32 (125 * 125)) initialState.

(** A yaw acceleration limit: the default profile at 1 kHz gives
    [maxVelocity[FD_YAW] = 100 * 100 * 0.001 = 10]. *)
Definition yawStepInputs : inputs :=
  {| getSetpointRate := fun a => match a with FD_YAW => 300 | _ => 0 end;
     getRcDeflection := fun _ => 0;
     getRcDeflectionAbs := fun _ => 0;
     getThrottlePIDAttenuation := 1;
     getMotorMixRange := 0;
     mixerIsOutputSaturated := fun _ _ => false;
     gyroADCf := fun _ => 0;
     gyroOverflowDetected := false;
     attitude_raw := fun _ => 0%Z;
     GPS_angle := fun _ => 0%Z;
     sensors_SENSOR_ACC := true;
     flightModeFlags := 0;
     ARMING_FLAG_ARMED := true |}.

(** ** Drivers and predicates for the further properties *)

(** [n] consecutive calls of the limiter with the same requested setpoint. *)
Fixpoint accelerationLimitRepeat (n : nat) (ax : axis) (requested : Q)
    (st : pidState) : pidState :=
  match n with
  | O => st
  | S n' =>
      accelerationLimitRepeat n' ax requested
        (fst (accelerationLimit ax requested st))
  end.

(** The three function pointers of the filter chain. *)
Definition filterFns (st : pidState)
  : filterApplyFn * filterApplyFn * filterApplyFn :=
  (dtermNotchFilterApplyFn (filters st), dtermLpfApplyFn (filters st),
   ptermYawFilterApplyFn (filters st)).

(** The condition of line 554. *)
Definition outputsDisabled (inp : inputs) (st : pidState) : bool :=
  negb (pidStabilisationEnabled st) || gyroOverflowDetected inp.

(** The crash state of a tick in which recovery was not active at the start:
    Normal, or Recovering since this very tick. *)
Definition notYetActive (tk : tick) (st : pidState) : Prop :=
  inCrashRecoveryMode st = false \/ crashDetectedAtUs st = currentTimeUs tk.

(** The derived parameters as seen from one axis: every variable of
    [derived], the arrays at [a]. *)
Definition derivedAt (c : derived) (a : axis) :=
  (Kp c a, Ki c a, Kd c a, maxVelocity c a,
   (relaxFactor c, dtermSetpointWeight c, levelGain c, horizonGain c,
    horizonTransition c, horizonCutoffDegrees c, horizonFactorRatio c,
    ITermWindupPointInv c),
   (horizonTiltExpertMode c, crashTimeLimitUs c, crashTimeDelayUs c,
    crashRecoveryAngleDeciDegrees c),
   (crashRecoveryRate c, crashDtermThreshold c, crashGyroThreshold c,
    crashSetpointThreshold c, crashLimitYaw c, itermLimit c)).

(** ** Profile storage (pid.c, lines 319-326) *)

(** [arr[n] = v] on an array held as a list; nothing happens out of range
    (pid.c never writes there). *)
Fixpoint setNth {A : Type} (n : nat) (v : A) (arr : list A) : list A :=
  match arr, n with
  | [], _ => []
  | _ :: t, O => v :: t
  | h :: t, S n' => h :: setNth n' v t
  end.

(** [pidCopyProfile]: the profiles are the array [pidProfiles] of
    [MAX_PROFILE_COUNT] elements; the constant is not in src and is a
    parameter, and so is the type of a profile, which [memcpy] copies whole.
    The indices are [uint8_t]. *)
Definition pidCopyProfile {A : Type} (MAX_PROFILE_COUNT : Z)
    (dstPidProfileIndex srcPidProfileIndex : Z) (pidProfiles : list A)
  : list A :=
  if ((dstPidProfileIndex <? MAX_PROFILE_COUNT - 1)%Z
      && (srcPidProfileIndex <? MAX_PROFILE_COUNT - 1)%Z)
     && negb (dstPidProfileIndex =? srcPidProfileIndex)%Z then
    match nth_error pidProfiles (Z.to_nat srcPidProfileIndex) with
    | Some src => setNth (Z.to_nat dstPidProfileIndex) src pidProfiles
    | None => pidProfiles
    end
  else pidProfiles.

(** ** More concrete values for the worked examples *)

(** Crash recovery with the beeper. *)
Definition beepProfile : Profile.t :=
  exampleProfile (Profile.pid_LEVEL resetPidProfile) 0 0
    PID_CRASH_RECOVERY_BEEP 0.

(** A profile with another horizon_tilt_effect. *)
Definition withTiltEffect (effect : Z) (p : Profile.t) : Profile.t :=
  {| Profile.pid_ROLL := Profile.pid_ROLL p;
     Profile.pid_PITCH := Profile.pid_PITCH p;
     Profile.pid_YAW := Profile.pid_YAW p;
     Profile.pid_LEVEL := Profile.pid_LEVEL p;
     Profile.yaw_lpf_hz := Profile.yaw_lpf_hz p;
     Profile.dterm_lpf_hz := Profile.dterm_lpf_hz p;
     Profile.dterm_notch_hz := Profile.dterm_notch_hz p;
     Profile.dterm_notch_cutoff := Profile.dterm_notch_cutoff p;
     Profile.dterm_filter_type := Profile.dterm_filter_type p;
     Profile.itermWindupPointPercent := Profile.itermWindupPointPercent p;
     Profile.levelAngleLimit := Profile.levelAngleLimit p;
     Profile.setpointRelaxRatio := Profile.setpointRelaxRatio p;
     Profile.dtermSetpointWeight := Profile.dtermSetpointWeight p;
     Profile.yawRateAccelLimit := Profile.yawRateAccelLimit p;
     Profile.rateAccelLimit := Profile.rateAccelLimit p;
     Profile.crash_time := Profile.crash_time p;
     Profile.crash_delay := Profile.crash_delay p;
     Profile.crash_recovery_angle := Profile.crash_recovery_angle p;
     Profile.crash_recovery_rate := Profile.crash_recovery_rate p;
     Profile.crash_dthreshold := Profile.crash_dthreshold p;
     Profile.crash_gthreshold := Profile.crash_gthreshold p;
     Profile.crash_setpoint_threshold := Profile.crash_setpoint_threshold p;
     Profile.crash_recovery := Profile.crash_recovery p;
     Profile.horizon_tilt_effect := effect;
     Profile.horizon_tilt_expert_mode := Profile.horizon_tilt_expert_mode p;
     Profile.crash_limit_yaw := Profile.crash_limit_yaw p;
     Profile.itermLimit := Profile.itermLimit p |}.

(** The expert sub-mode with a tilt effect of 200. *)
Definition tiltOffProfile : Profile.t := withTiltEffect 200 expertProfile.

(** Angle mode, level, a fifth of the roll stick. *)
Definition angleInputs : inputs :=
  withFlightModeFlags ANGLE_MODE exampleInputs.

(** Pitched 90 degrees nose down, in horizon mode. *)
Definition tiltedInputs : inputs :=
  {| getSetpointRate := getSetpointRate horizonInputs;
     getRcDeflection := getRcDeflection horizonInputs;
     getRcDeflectionAbs := getRcDeflectionAbs horizonInputs;
     getThrottlePIDAttenuation := 1;
     getMotorMixRange := 0;
     mixerIsOutputSaturated := fun _ _ => false;
     gyroADCf := fun _ => 0;
     gyroOverflowDetected := false;
     attitude_raw := fun a => match a with FD_PITCH => (-900)%Z | _ => 0%Z end;
     GPS_angle := fun _ => 0%Z;
     sensors_SENSOR_ACC := true;
     flightModeFlags := HORIZON_MODE;
     ARMING_FLAG_ARMED := true |}.

(** A profile with another crash delay. *)
Definition withCrashDelay (delay : Z) (p : Profile.t) : Profile.t :=
  {| Profile.pid_ROLL := Profile.pid_ROLL p;
     Profile.pid_PITCH := Profile.pid_PITCH p;
     Profile.pid_YAW := Profile.pid_YAW p;
     Profile.pid_LEVEL := Profile.pid_LEVEL p;
     Profile.yaw_lpf_hz := Profile.yaw_lpf_hz p;
     Profile.dterm_lpf_hz := Profile.dterm_lpf_hz p;
     Profile.dterm_notch_hz := Profile.dterm_notch_hz p;
     Profile.dterm_notch_cutoff := Profile.dterm_notch_cutoff p;
     Profile.dterm_filter_type := Profile.dterm_filter_type p;
     Profile.itermWindupPointPercent := Profile.itermWindupPointPercent p;
     Profile.levelAngleLimit := Profile.levelAngleLimit p;
     Profile.setpointRelaxRatio := Profile.setpointRelaxRatio p;
     Profile.dtermSetpointWeight := Profile.dtermSetpointWeight p;
     Profile.yawRateAccelLimit := Profile.yawRateAccelLimit p;
     Profile.rateAccelLimit := Profile.rateAccelLimit p;
     Profile.crash_time := Profile.crash_time p;
     Profile.crash_delay := delay;
     Profile.crash_recovery_angle := Profile.crash_recovery_angle p;
     Profile.crash_recovery_rate := Profile.crash_recovery_rate p;
     Profile.crash_dthreshold := Profile.crash_dthreshold p;
     Profile.crash_gthreshold := Profile.crash_gthreshold p;
     Profile.crash_setpoint_threshold := Profile.crash_setpoint_threshold p;
     Profile.crash_recovery := Profile.crash_recovery p;
     Profile.horizon_tilt_effect := Profile.horizon_tilt_effect p;
     Profile.horizon_tilt_expert_mode := Profile.horizon_tilt_expert_mode p;
     Profile.crash_limit_yaw := Profile.crash_limit_yaw p;
     Profile.itermLimit := Profile.itermLimit p |}.

(** Crash recovery with an early-abort window of 30 ms. *)
Definition crashDelayProfile : Profile.t := withCrashDelay 30 crashProfile.

Definition crashDelayState : pidState :=
  pidStabilisationState PID_STABILISATION_ON
    (pidInit exampleLib 125 8 crashDelayProfile initialState).

(** The tick of [exampleInputs] with the gyro at 2000 deg/s on roll and its
    overflow flag set. *)
Definition overflowInputs : inputs :=
  {| getSetpointRate := getSetpointRate exampleInputs;
     getRcDeflection := getRcDeflection exampleInputs;
     getRcDeflectionAbs := getRcDeflectionAbs exampleInputs;
     getThrottlePIDAttenuation := 1;
     getMotorMixRange := 0;
     mixerIsOutputSaturated := fun _ _ => false;
     gyroADCf := fun a => match a with FD_ROLL => 2000 | _ => 0 end;
     gyroOverflowDetected := true;
     attitude_raw := fun _ => 0%Z;
     GPS_angle := fun _ => 0%Z;
     sensors_SENSOR_ACC := true;
     flightModeFlags := 0;
     ARMING_FLAG_ARMED := true |}.

(** Horizon mode, pitched 10 degrees, a fifth of the pitch stick:
    100 deg/s commanded on pitch. *)
Definition horizonPitchInputs : inputs :=
  {| getSetpointRate := fun a => match a with FD_PITCH => 100 | _ => 0 end;
     getRcDeflection := fun a => match a with FD_PITCH => 1 # 5 | _ => 0 end;
     getRcDeflectionAbs := fun a => match a with FD_PITCH => 1 # 5 | _ => 0 end;
     getThrottlePIDAttenuation := 1;
     getMotorMixRange := 0;
     mixerIsOutputSaturated := fun _ _ => false;
     gyroADCf := fun _ => 0;
     gyroOverflowDetected := false;
     attitude_raw := fun a => match a with FD_PITCH => 100%Z | _ => 0%Z end;
     GPS_angle := fun _ => 0%Z;
     sensors_SENSOR_ACC := true;
     flightModeFlags := HORIZON_MODE;
     ARMING_FLAG_ARMED := true |}.

(** The same attitude and stick in angle mode. *)
Definition anglePitchInputs : inputs :=
  withFlightModeFlags ANGLE_MODE horizonPitchInputs.

(** The configuration of [gainProfile] with stabilisation on. *)
Definition gainOnState : pidState :=
  pidStabilisationState PID_STABILISATION_ON gainState.

(** A state whose previous tick was 100 us before the wrap of the clock. *)
Definition nearWrapState : pidState :=
  set_previousTimeUs (2 ^ 32 - 100) exampleState.

(** * Properties *)

(** ** Comparisons, magnitudes and clamps *)

Lemma Qltb_lt (x y : Q) : Qltb x y = true <-> x < y.
Proof.
  unfold Qltb. rewrite negb_true_iff. split; intro H.
  - apply Qnot_le_lt. intro Hle. apply Qle_bool_iff in Hle. congruence.
  - destruct (Qle_bool y x) eqn:E; [|reflexivity].
    apply Qle_bool_iff in E. exfalso. exact (Qlt_not_le _ _ H E).
Qed.

Lemma Qltb_ge (x y : Q) : Qltb x y = false <-> y <= x.
Proof.
  unfold Qltb. rewrite negb_false_iff. apply Qle_bool_iff.
Qed.

Lemma Qgtb_gt (x y : Q) : Qgtb x y = true <-> y < x.
Proof. apply Qltb_lt. Qed.

Lemma Qgtb_le (x y : Q) : Qgtb x y = false <-> x <= y.
Proof. apply Qltb_ge. Qed.

Lemma Qgeb_ge (x y : Q) : Qgeb x y = true <-> y <= x.
Proof. apply Qle_bool_iff. Qed.

Lemma Qnonzero_neq (x : Q) : Qnonzero x = true <-> ~ x == 0.
Proof.
  unfold Qnonzero. rewrite negb_true_iff. split; intro H.
  - intro E. apply Qeq_bool_iff in E. congruence.
  - destruct (Qeq_bool x 0) eqn:E; [|reflexivity].
    apply Qeq_bool_iff in E. contradiction.
Qed.

(** Case analysis on a comparison, with the order fact in the context. *)
Ltac qcase b :=
  let E := fresh "E" in
  destruct b eqn:E;
  [ first [ apply Qltb_lt in E | apply Qgtb_gt in E | apply Qgeb_ge in E ]
  | first [ apply Qltb_ge in E | apply Qgtb_le in E
          | (apply not_true_iff_false in E; rewrite Qgeb_ge in E) ] ].

Lemma ABS_Qabs (x : Q) : ABS x == Qabs x.
Proof.
  unfold ABS. qcase (Qgtb x 0).
  - symmetry. apply Qabs_pos. lra.
  - symmetry. apply Qabs_neg. lra.
Qed.

Lemma ABS_le (x y : Q) : ABS x <= y <-> - y <= x <= y.
Proof. unfold ABS. qcase (Qgtb x 0); split; intros; lra. Qed.

Lemma constrainf_range (amt low high : Q) :
  low <= high -> low <= constrainf amt low high <= high.
Proof.
  intro H. unfold constrainf.
  qcase (Qltb amt low); [lra|]. qcase (Qgtb amt high); lra.
Qed.

Lemma constrainf_inside (amt low high : Q) :
  low <= amt <= high -> constrainf amt low high = amt.
Proof.
  intro H. unfold constrainf.
  qcase (Qltb amt low); [lra|]. qcase (Qgtb amt high); [lra|reflexivity].
Qed.

Lemma constrainf_idem (amt low high : Q) :
  low <= high ->
  constrainf (constrainf amt low high) low high = constrainf amt low high.
Proof. intro H. apply constrainf_inside, constrainf_range, H. Qed.

Lemma constrainf_Qeq (x y low high : Q) :
  x == y -> constrainf x low high == constrainf y low high.
Proof.
  intro H. unfold constrainf.
  qcase (Qltb x low); qcase (Qltb y low); try lra;
    qcase (Qgtb x high); qcase (Qgtb y high); lra.
Qed.

(** ** Arrays *)

Lemma axis_eqb_eq (a b : axis) : axis_eqb a b = true <-> a = b.
Proof. destruct a, b; simpl; split; congruence. Qed.

Lemma axis_eqb_refl (a : axis) : axis_eqb a a = true.
Proof. destruct a; reflexivity. Qed.

Lemma axis_eqb_neq (a b : axis) : a <> b -> axis_eqb a b = false.
Proof. destruct a, b; simpl; congruence. Qed.

Lemma upd_same {A : Type} (arr : axis -> A) (a : axis) (v : A) :
  upd arr a v a = v.
Proof. unfold upd. now rewrite axis_eqb_refl. Qed.

Lemma upd_other {A : Type} (arr : axis -> A) (a b : axis) (v : A) :
  b <> a -> upd arr a v b = arr b.
Proof. intro H. unfold upd. now rewrite (axis_eqb_neq b a H). Qed.

(** ** What one iteration of the loop leaves alone *)

Lemma frame_refl (ax : axis) (st : pidState) : frame ax st st.
Proof. constructor; reflexivity. Qed.

Lemma frame_trans (ax : axis) (st1 st2 st3 : pidState) :
  frame ax st1 st2 -> frame ax st2 st3 -> frame ax st1 st3.
Proof.
  intros [] []. constructor; try congruence;
    intros a Ha;
    repeat match goal with
           | H : forall a, a <> ax -> _ |- _ => specialize (H a Ha)
           end; congruence.
Qed.

(** Splits on every condition of a stage and closes each branch. *)
Ltac frame_stage :=
  repeat match goal with
         | |- context [if ?b then _ else _] => destruct b
         end;
  constructor; simpl; intros; try reflexivity;
  try (rewrite !upd_other by assumption; reflexivity).

Section AxisFrames.

Variable lib : platform.
Variable inp : inputs.
Variable pidProfile : Profile.t.
Variable angleTrim : rollAndPitchTrims_t.
Variable tk : tick.

Lemma accelerationLimit_frame ax sp st :
  frame ax st (fst (accelerationLimit ax sp st)).
Proof. unfold accelerationLimit. simpl. frame_stage. Qed.

Lemma limitedSetpoint_frame ax st :
  frame ax st (fst (limitedSetpoint inp ax st)).
Proof.
  unfold limitedSetpoint.
  destruct (Qnonzero _); [apply accelerationLimit_frame | apply frame_refl].
Qed.

Lemma crashRecovery_frame ax sp err st :
  frame ax st (fst (crashRecovery inp pidProfile angleTrim tk ax sp err st)).
Proof.
  unfold crashRecovery, leaveRecovery.
  destruct (recoveryActive tk st); [|apply frame_refl].
  simpl. frame_stage.
Qed.

Lemma pTerm_frame ax err st : frame ax st (pTerm lib tk ax err st).
Proof. unfold pTerm. frame_stage. Qed.

Lemma iTerm_frame ax err st : frame ax st (iTerm inp tk ax err st).
Proof. unfold iTerm. frame_stage. Qed.

Lemma crashCheck_frame ax delta err st :
  frame ax st (crashCheck inp pidProfile tk ax delta err st).
Proof. unfold crashCheck, leaveRecovery. frame_stage. Qed.

Lemma dTerm_frame ax sp err st :
  frame ax st (dTerm lib inp pidProfile tk ax sp err st).
Proof.
  unfold dTerm. destruct (negb (axis_eqb ax FD_YAW)).
  - cbv zeta.
    match goal with
    | |- context [crashCheck _ _ _ _ ?d ?e ?s] =>
        pose proof (crashCheck_frame ax d e s) as Hc;
        set (s1 := crashCheck inp pidProfile tk ax d e s) in *
    end.
    destruct Hc. constructor; simpl; try assumption; intros a Ha;
      rewrite ?upd_other by assumption;
      repeat match goal with
             | H : forall a, a <> ax -> _ |- _ => specialize (H a Ha)
             end;
      try (etransitivity; [eassumption|]); simpl;
      rewrite ?upd_other by assumption; reflexivity.
  - frame_stage.
Qed.

Lemma disableOutputs_frame ax st : frame ax st (disableOutputs inp ax st).
Proof. unfold disableOutputs. frame_stage. Qed.

Lemma pidControllerAxis_frame ax st :
  frame ax st (pidControllerAxis lib inp pidProfile angleTrim tk st ax).
Proof.
  unfold pidControllerAxis. cbv zeta.
  eapply frame_trans; [|apply disableOutputs_frame].
  eapply frame_trans; [|apply dTerm_frame].
  eapply frame_trans; [|apply iTerm_frame].
  eapply frame_trans; [|apply pTerm_frame].
  eapply frame_trans; [|apply crashRecovery_frame].
  apply limitedSetpoint_frame.
Qed.

End AxisFrames.

(** ** The tick as three iterations *)

Lemma frame_setup (ax : axis) (st s s' : pidState) :
  setup st s -> frame ax s s' -> setup st s'.
Proof.
  intros (H1 & H2 & H3 & H4 & H5) []. unfold setup. repeat split; congruence.
Qed.

Lemma frame_sameAxis (ax a : axis) (st s s' : pidState) :
  a <> ax -> sameAxis a st s -> frame ax s s' -> sameAxis a st s'.
Proof.
  intros Ha (H1 & H2 & H3 & H4 & H5 & H6) [].
  unfold sameAxis.
  rewrite fr_P0, fr_I0, fr_D0, fr_Sum0, fr_setpoint0, fr_rateError0 by assumption.
  repeat split; assumption.
Qed.

Lemma sameAxis_refl (a : axis) (st : pidState) : sameAxis a st st.
Proof. unfold sameAxis. repeat split. Qed.

Section Tick.

Variable lib : platform.
Variable inp : inputs.
Variable pidProfile : Profile.t.
Variable angleTrim : rollAndPitchTrims_t.
Variable now : Z.

Let step (st : pidState) := pidControllerAxis lib inp pidProfile angleTrim
                              (tickValues inp now st).

(** For each axis [a], the tick runs the iteration of [a] once, from a
    state [s] that has the configuration of the start of the tick and the
    entries of [a] untouched, and the later iterations keep what it wrote
    to the entries of [a]. *)
Lemma pidController_iteration (st : pidState) (a : axis) :
  exists s,
    setup st s /\ sameAxis a st s
    /\ sameAxis a (step st s a)
         (pidController lib inp pidProfile angleTrim now st)
    /\ setup st (pidController lib inp pidProfile angleTrim now st).
Proof.
  unfold pidController. cbv zeta. simpl fold_left. fold (step st).
  set (s0 := set_previousTimeUs now st).
  assert (S0 : setup st s0) by (unfold setup; repeat split).
  assert (A0 : forall b, sameAxis b st s0) by (intro; unfold sameAxis; repeat split).
  pose proof (pidControllerAxis_frame lib inp pidProfile angleTrim
                (tickValues inp now st) FD_ROLL s0) as F1.
  fold (step st) in F1. set (s1 := step st s0 FD_ROLL) in *.
  pose proof (pidControllerAxis_frame lib inp pidProfile angleTrim
                (tickValues inp now st) FD_PITCH s1) as F2.
  fold (step st) in F2. set (s2 := step st s1 FD_PITCH) in *.
  pose proof (pidControllerAxis_frame lib inp pidProfile angleTrim
                (tickValues inp now st) FD_YAW s2) as F3.
  fold (step st) in F3. set (s3 := step st s2 FD_YAW) in *.
  assert (S1 : setup st s1) by (eapply frame_setup; eauto).
  assert (S2 : setup st s2) by (eapply frame_setup; eauto).
  assert (S3 : setup st s3) by (eapply frame_setup; eauto).
  destruct a.
  - exists s0. repeat split; try apply S0; try apply S3; try apply A0.
    all: try (eapply frame_sameAxis; [| |exact F3]; [discriminate|];
              eapply frame_sameAxis; [| |exact F2]; [discriminate|];
              apply sameAxis_refl).
  - exists s1. repeat split; try apply S1; try apply S3.
    all: try (eapply frame_sameAxis; [| |exact F1]; [discriminate|]; apply A0).
    all: try (eapply frame_sameAxis; [| |exact F3]; [discriminate|];
              apply sameAxis_refl).
  - exists s2. repeat split; try apply S2; try apply S3.
    all: try (eapply frame_sameAxis; [| |exact F2]; [discriminate|];
              eapply frame_sameAxis; [| |exact F1]; [discriminate|]; apply A0).
    all: try apply sameAxis_refl.
Qed.

End Tick.

(** ** The states the program reaches *)

Lemma inject_Z_nonneg (z : Z) : (0 <= z)%Z -> 0 <= inject_Z z.
Proof. intro H. change 0 with (inject_Z 0). now rewrite <- Zle_Qle. Qed.

Lemma pidInitFilters_setup lib p st : setup st (pidInitFilters lib p st).
Proof.
  unfold pidInitFilters, setup.
  repeat match goal with
         | |- context [if ?b then _ else _] => destruct b
         end; repeat split.
Qed.

Lemma Profile_ok_itermLimit p : Profile.ok p = true -> (0 <= Profile.itermLimit p)%Z.
Proof.
  unfold Profile.ok. rewrite !andb_true_iff. unfold Profile.u16.
  rewrite !andb_true_iff. intuition lia.
Qed.

Lemma Profile_ok_accelLimits p :
  Profile.ok p = true ->
  (0 <= Profile.rateAccelLimit p /\ 0 <= Profile.yawRateAccelLimit p)%Z.
Proof.
  unfold Profile.ok. rewrite !andb_true_iff. unfold Profile.u16.
  rewrite !andb_true_iff. intuition lia.
Qed.

Lemma pidInitConfig_limitsNonneg lib p st :
  Profile.ok p = true -> 0 <= dT st -> limitsNonneg (pidInitConfig lib p st).
Proof.
  intros Hp Hd. unfold limitsNonneg, pidInitConfig. simpl. split; [exact Hd|].
  split.
  - apply inject_Z_nonneg, Profile_ok_itermLimit, Hp.
  - destruct (Profile_ok_accelLimits p Hp) as [H1 H2].
    intros []; unfold upd; simpl; apply Qmult_le_0_compat; try assumption;
      apply inject_Z_nonneg; lia.
Qed.

Lemma setup_limitsNonneg st s : setup st s -> limitsNonneg st -> limitsNonneg s.
Proof.
  intros (H1 & _ & H3 & _) (A & B & C). unfold limitsNonneg.
  rewrite H1, H3. auto.
Qed.

Lemma pidSetTargetLooptime_dT looptime st :
  (0 <= looptime)%Z -> 0 <= dT (pidSetTargetLooptime looptime st).
Proof.
  intro H. unfold pidSetTargetLooptime. simpl.
  apply Qmult_le_0_compat; [apply inject_Z_nonneg, H | discriminate].
Qed.

Lemma pidResetITerm_setup st : setup st (pidResetITerm st).
Proof. unfold setup. repeat split. Qed.

Lemma reachable_limitsNonneg lib st : reachable lib st -> limitsNonneg st.
Proof.
  induction 1.
  - unfold limitsNonneg. simpl. repeat split; intros; discriminate.
  - unfold pidInit. cbv zeta. apply pidInitConfig_limitsNonneg; [assumption|].
    destruct (pidInitFilters_setup lib pidProfile
                (pidSetTargetLooptime (u32 (gyroTargetLooptime * pid_process_denom)) st))
      as (_ & _ & -> & _).
    apply pidSetTargetLooptime_dT. unfold u32. apply Z.mod_pos_bound. lia.
  - eapply setup_limitsNonneg; [apply pidInitFilters_setup | assumption].
  - apply pidInitConfig_limitsNonneg; [assumption | apply IHreachable].
  - eapply setup_limitsNonneg; [apply pidResetITerm_setup | assumption].
  - exact IHreachable.
  - exact IHreachable.
  - destruct (pidController_iteration lib inp pidProfile angleTrim now st FD_ROLL)
      as (s & _ & _ & _ & S).
    eapply setup_limitsNonneg; [exact S | assumption].
Qed.

(** ** The integral accumulator *)

Section Integral.

Variable lib : platform.
Variable inp : inputs.
Variable pidProfile : Profile.t.
Variable angleTrim : rollAndPitchTrims_t.
Variable tk : tick.



Lemma crashCheck_I ax delta err st :
  axisPID_I (crashCheck inp pidProfile tk ax delta err st) = axisPID_I st.
Proof.
  unfold crashCheck, leaveRecovery.
  repeat match goal with
         | |- context [if ?b then _ else _] => destruct b
         end; reflexivity.
Qed.

Lemma dTerm_I ax sp err st :
  axisPID_I (dTerm lib inp pidProfile tk ax sp err st) = axisPID_I st.
Proof.
  unfold dTerm. destruct (negb (axis_eqb ax FD_YAW)); [|reflexivity].
  cbv zeta. simpl. rewrite crashCheck_I. reflexivity.
Qed.

Lemma disableOutputs_I ax st :
  axisPID_I (disableOutputs inp ax st) ax = 0
  \/ axisPID_I (disableOutputs inp ax st) ax = axisPID_I st ax.
Proof.
  unfold disableOutputs.
  destruct (negb (pidStabilisationEnabled st) || gyroOverflowDetected inp).
  - left. simpl. apply upd_same.
  - right. reflexivity.
Qed.


End Integral.



(** ** Disabled stabilisation and gyro overflow *)

Section Disabled.

Variable lib : platform.
Variable inp : inputs.
Variable pidProfile : Profile.t.
Variable angleTrim : rollAndPitchTrims_t.

Lemma disableOutputs_zero ax st :
  pidStabilisationEnabled st = false \/ gyroOverflowDetected inp = true ->
  outputsZero (disableOutputs inp ax st) ax.
Proof.
  intro H. unfold disableOutputs.
  replace (negb (pidStabilisationEnabled st) || gyroOverflowDetected inp)
    with true
    by (destruct H as [-> | ->]; [reflexivity | symmetry; apply orb_true_r]).
  unfold outputsZero. simpl. rewrite !upd_same. repeat split.
Qed.

Lemma pidControllerAxis_zero tk ax st :
  pidStabilisationEnabled st = false \/ gyroOverflowDetected inp = true ->
  outputsZero (pidControllerAxis lib inp pidProfile angleTrim tk st ax) ax.
Proof.
  intro H. unfold pidControllerAxis. cbv zeta.
  apply disableOutputs_zero.
  destruct H as [H | H]; [left | right; exact H].
  rewrite <- H.
  etransitivity; [apply (fr_stab _ _ _ (dTerm_frame _ _ _ _ _ _ _ _))|].
  etransitivity; [apply (fr_stab _ _ _ (iTerm_frame _ _ _ _ _))|].
  etransitivity; [apply (fr_stab _ _ _ (pTerm_frame _ _ _ _ _))|].
  etransitivity; [apply (fr_stab _ _ _ (crashRecovery_frame _ _ _ _ _ _ _ _))|].
  apply (fr_stab _ _ _ (limitedSetpoint_frame _ _ _)).
Qed.

End Disabled.

(** C4. If stabilisation is disabled or the gyro-overflow fault is active
    during a tick, then after pidController returns P, I, D and Sum are zero
    on all three axes, from every state and for every other input. *)
Theorem C4_disabled_outputs_zero lib inp pidProfile angleTrim now st :
  pidStabilisationEnabled st = false \/ gyroOverflowDetected inp = true ->
  forall a,
    axisPID_P (pidController lib inp pidProfile angleTrim now st) a = 0
    /\ axisPID_I (pidController lib inp pidProfile angleTrim now st) a = 0
    /\ axisPID_D (pidController lib inp pidProfile angleTrim now st) a = 0
    /\ axisPIDSum (pidController lib inp pidProfile angleTrim now st) a = 0.
Proof.
  intros H a.
  destruct (pidController_iteration lib inp pidProfile angleTrim now st a)
    as (s & (_ & Hs & _) & _ & (HP & HI & HD & HS & _) & _).
  rewrite HP, HI, HD, HS.
  apply pidControllerAxis_zero.
  destruct H as [H | H]; [left; congruence | right; exact H].
Qed.

(** ** The acceleration limiter *)

(** Splits on every condition of a stage; each branch is closed by
    computation. *)
Ltac stage_field :=
  repeat match goal with
         | |- context [if ?b then _ else _] => destruct b
         end; reflexivity.

Section Limiter.

Variable lib : platform.
Variable inp : inputs.
Variable pidProfile : Profile.t.
Variable angleTrim : rollAndPitchTrims_t.
Variable tk : tick.

Lemma crashRecovery_previousSetpoint ax sp err st :
  previousSetpoint (fst (crashRecovery inp pidProfile angleTrim tk ax sp err st))
  = previousSetpoint st.
Proof. unfold crashRecovery, leaveRecovery. cbv zeta. stage_field. Qed.

Lemma pTerm_previousSetpoint ax err st :
  previousSetpoint (pTerm lib tk ax err st) = previousSetpoint st.
Proof. unfold pTerm. stage_field. Qed.

Lemma iTerm_previousSetpoint ax err st :
  previousSetpoint (iTerm inp tk ax err st) = previousSetpoint st.
Proof. unfold iTerm. stage_field. Qed.

Lemma crashCheck_previousSetpoint ax delta err st :
  previousSetpoint (crashCheck inp pidProfile tk ax delta err st)
  = previousSetpoint st.
Proof. unfold crashCheck, leaveRecovery. stage_field. Qed.

Lemma dTerm_previousSetpoint ax sp err st :
  previousSetpoint (dTerm lib inp pidProfile tk ax sp err st)
  = previousSetpoint st.
Proof.
  unfold dTerm. destruct (negb (axis_eqb ax FD_YAW)); [|reflexivity].
  cbv zeta. simpl. rewrite crashCheck_previousSetpoint. reflexivity.
Qed.

Lemma disableOutputs_previousSetpoint ax st :
  previousSetpoint (disableOutputs inp ax st) = previousSetpoint st.
Proof. unfold disableOutputs. stage_field. Qed.

(** After an iteration the stored setpoint of its axis is the one the
    limiter stage produced. *)
Lemma pidControllerAxis_previousSetpoint ax st :
  previousSetpoint (pidControllerAxis lib inp pidProfile angleTrim tk st ax)
  = previousSetpoint (fst (limitedSetpoint inp ax st)).
Proof.
  unfold pidControllerAxis. cbv zeta.
  rewrite disableOutputs_previousSetpoint, dTerm_previousSetpoint,
    iTerm_previousSetpoint, pTerm_previousSetpoint,
    crashRecovery_previousSetpoint.
  reflexivity.
Qed.

End Limiter.

(** One call of the limiter: the accepted setpoint is within [maxVelocity]
    of the previous one and is stored. *)
Lemma accelerationLimit_step ax sp st :
  0 <= maxVelocity (cfg st) ax ->
  Qabs (snd (accelerationLimit ax sp st) - previousSetpoint st ax)
  <= maxVelocity (cfg st) ax
  /\ previousSetpoint (fst (accelerationLimit ax sp st)) ax
     = snd (accelerationLimit ax sp st).
Proof.
  intro H. unfold accelerationLimit, set_previousSetpoint. cbv zeta.
  cbn [fst snd previousSetpoint]. rewrite upd_same.
  split; [|reflexivity].
  apply Qabs_Qle_condition.
  qcase (Qgtb (ABS (sp - previousSetpoint st ax)) (maxVelocity (cfg st) ax)).
  - qcase (Qgtb (sp - previousSetpoint st ax) 0); lra.
  - apply ABS_le in E. exact E.
Qed.

(** C2. On an axis whose configured maxVelocity is not zero, in every state
    the program reaches: whatever setpoint is requested, the setpoint that
    accelerationLimit accepts differs from the previously accepted one by at
    most maxVelocity[axis] and is stored as the new previous setpoint; and
    over a tick of pidController the stored setpoint of that axis moves by at
    most maxVelocity[axis], whatever the inputs of the tick. *)
Theorem C2_acceleration_limited lib st ax :
  reachable lib st ->
  ~ maxVelocity (cfg st) ax == 0 ->
  (forall requested,
     Qabs (snd (accelerationLimit ax requested st) - previousSetpoint st ax)
     <= maxVelocity (cfg st) ax
     /\ previousSetpoint (fst (accelerationLimit ax requested st)) ax
        = snd (accelerationLimit ax requested st))
  /\ (forall inp pidProfile angleTrim now,
        Qabs (previousSetpoint
                (pidController lib inp pidProfile angleTrim now st) ax
              - previousSetpoint st ax)
        <= maxVelocity (cfg st) ax).
Proof.
  intros R Hnz.
  destruct (reachable_limitsNonneg lib st R) as (_ & _ & HV).
  split.
  - intro requested. apply accelerationLimit_step, HV.
  - intros inp pidProfile angleTrim now.
    destruct (pidController_iteration lib inp pidProfile angleTrim now st ax)
      as (s & (Hc & _) & (_ & _ & _ & _ & Hs & _) & (_ & _ & _ & _ & Hp & _) & _).
    rewrite Hp, pidControllerAxis_previousSetpoint.
    unfold limitedSetpoint. rewrite Hc.
    apply Qnonzero_neq in Hnz. rewrite Hnz.
    destruct (accelerationLimit_step ax (getSetpointRate inp ax) s) as [Hb He].
    { rewrite Hc. apply HV. }
    rewrite He, <- Hs, <- Hc. exact Hb.
Qed.

(** ** The crash state machine *)

Section Crash.

Variable lib : platform.
Variable inp : inputs.
Variable pidProfile : Profile.t.
Variable angleTrim : rollAndPitchTrims_t.
Variable tk : tick.

Lemma crashSame_trans st1 st2 st3 :
  crashSame st1 st2 -> crashSame st2 st3 -> crashSame st1 st3.
Proof. unfold crashSame. intuition congruence. Qed.

(** The limiter stage writes [previousSetpoint] and nothing else. *)
Lemma limitedSetpoint_shape ax st :
  exists v, fst (limitedSetpoint inp ax st) = set_previousSetpoint v st.
Proof.
  unfold limitedSetpoint. destruct (Qnonzero _).
  - eexists. reflexivity.
  - exists (previousSetpoint st). destruct st. reflexivity.
Qed.

Lemma limitedSetpoint_crashSame ax st :
  crashSame st (fst (limitedSetpoint inp ax st)).
Proof.
  destruct (limitedSetpoint_shape ax st) as [v ->]. split; reflexivity.
Qed.

Lemma pTerm_crashSame ax err st : crashSame st (pTerm lib tk ax err st).
Proof. unfold pTerm. destruct (axis_eqb ax FD_YAW); split; reflexivity. Qed.

Lemma iTerm_crashSame ax err st : crashSame st (iTerm inp tk ax err st).
Proof.
  unfold iTerm. cbv zeta.
  destruct (_ || _); split; reflexivity.
Qed.

Lemma disableOutputs_crashSame ax st :
  crashSame st (disableOutputs inp ax st).
Proof.
  unfold disableOutputs. destruct (_ || _); split; reflexivity.
Qed.

(** While not recovering, the override of lines 458-493 does nothing. *)
Lemma crashRecovery_normal ax sp err st :
  inCrashRecoveryMode st = false ->
  crashRecovery inp pidProfile angleTrim tk ax sp err st = (st, (sp, err)).
Proof.
  intro H. unfold crashRecovery, recoveryActive. rewrite H. reflexivity.
Qed.

(** The override never enters recovery. *)
Lemma crashRecovery_stays_normal ax sp err st :
  inCrashRecoveryMode st = false ->
  inCrashRecoveryMode
    (fst (crashRecovery inp pidProfile angleTrim tk ax sp err st)) = false.
Proof. intro H. rewrite crashRecovery_normal by exact H. exact H. Qed.

(** On yaw the D stage has no crash detection. *)
Lemma dTerm_yaw_crashSame sp err st :
  crashSame st (dTerm lib inp pidProfile tk FD_YAW sp err st).
Proof. split; reflexivity. Qed.

(** On roll and pitch the crash state after the D stage is the one crash
    detection leaves, run on the state with the crash state, the
    configuration and the derivative of the start of the stage. *)
Lemma dTerm_crashCheck ax sp err st :
  ax <> FD_YAW ->
  exists s,
    crashSame st s /\ cfg s = cfg st
    /\ crashSame (crashCheck inp pidProfile tk ax
                    (dtermDelta lib inp tk ax sp st) err s)
         (dTerm lib inp pidProfile tk ax sp err st).
Proof.
  intro Hax. unfold dTerm.
  replace (negb (axis_eqb ax FD_YAW)) with true
    by (destruct ax; [reflexivity | reflexivity | contradiction]).
  cbv zeta.
  match goal with
  | |- context [crashCheck inp pidProfile tk ax _ err ?s] => exists s
  end.
  repeat split.
Qed.

(** What the entry condition of lines 530-533 says. *)
Lemma crashDetected_iff ax delta err st :
  crashDetected inp tk ax delta err st = true <->
  1 <= motorMixRange tk
  /\ inCrashRecoveryMode st = false
  /\ crashDtermThreshold (cfg st) < Qabs delta
  /\ crashGyroThreshold (cfg st) < Qabs err
  /\ Qabs (getSetpointRate inp ax) < crashSetpointThreshold (cfg st).
Proof.
  unfold crashDetected. rewrite !andb_true_iff, negb_true_iff.
  rewrite Qgeb_ge, !Qgtb_gt, Qltb_lt, !ABS_Qabs. tauto.
Qed.

(** Crash detection from Normal: it enters recovery exactly when the
    feature is on, the gyro has not overflowed, the motors are armed and the
    entry condition holds; it then records the time of the tick. *)
Lemma crashCheck_enter ax delta err st :
  inCrashRecoveryMode st = false ->
  (inCrashRecoveryMode (crashCheck inp pidProfile tk ax delta err st) = true
   <-> (Profile.crash_recovery pidProfile <> 0%Z
        /\ gyroOverflowDetected inp = false
        /\ ARMING_FLAG_ARMED inp = true
        /\ crashDetected inp tk ax delta err st = true))
  /\ (inCrashRecoveryMode (crashCheck inp pidProfile tk ax delta err st) = true
      -> crashDetectedAtUs (crashCheck inp pidProfile tk ax delta err st)
         = currentTimeUs tk).
Proof.
  intro Hn.
  assert (No : forall s, inCrashRecoveryMode s = false ->
                 forall (A : Prop) (t : Z), (A -> False) ->
                 (inCrashRecoveryMode s = true <-> A)
                 /\ (inCrashRecoveryMode s = true -> crashDetectedAtUs s = t)).
  { intros s Hs A t HA. rewrite Hs. split; [split|]; intros; try discriminate.
    exfalso; auto. }
  unfold crashCheck.
  destruct (Z.eqb_spec (Profile.crash_recovery pidProfile) 0) as [Hz | Hz];
    cbn [negb andb].
  { apply No; tauto. }
  destruct (gyroOverflowDetected inp); cbn [negb].
  { apply No; [assumption | intros (_ & ? & _); discriminate]. }
  destruct (ARMING_FLAG_ARMED inp).
  2:{ rewrite Hn. apply No; [assumption | intros (_ & _ & ? & _); discriminate]. }
  destruct (crashDetected inp tk ax delta err st) eqn:Hd.
  - assert (Ha : crashAborted inp tk ax err
                   (set_crashDetectedAtUs (currentTimeUs tk)
                      (set_inCrashRecoveryMode true st)) = false).
    { apply crashDetected_iff in Hd. destruct Hd as (_ & _ & _ & Hg & Hs).
      unfold crashAborted. cbn [inCrashRecoveryMode crashDetectedAtUs cfg
        set_crashDetectedAtUs set_inCrashRecoveryMode andb].
      rewrite <- ABS_Qabs in Hg, Hs.
      replace (Qltb (ABS err) (crashGyroThreshold (cfg st))) with false
        by (symmetry; apply Qltb_ge; lra).
      replace (Qgtb (ABS (getSetpointRate inp ax)) (crashSetpointThreshold (cfg st)))
        with false by (symmetry; apply Qgtb_le; lra).
      apply andb_false_r. }
    rewrite Ha. cbn. split; [split; [intros _; repeat split; assumption | reflexivity]
                            | reflexivity].
  - unfold crashAborted. rewrite Hn. cbn [andb].
    apply No; [assumption | intros (_ & _ & _ & ?); discriminate].
Qed.

(** Crash detection with the motors disarmed never ends in recovery when
    the feature is on and the gyro has not overflowed. *)
Lemma crashCheck_disarmed ax delta err st :
  ARMING_FLAG_ARMED inp = false ->
  Profile.crash_recovery pidProfile <> 0%Z ->
  gyroOverflowDetected inp = false ->
  inCrashRecoveryMode (crashCheck inp pidProfile tk ax delta err st) = false.
Proof.
  intros Ha Hc Hg. unfold crashCheck. rewrite Ha, Hg.
  apply Z.eqb_neq in Hc. rewrite Hc. cbn [negb andb].
  destruct (inCrashRecoveryMode st) eqn:E; [reflexivity | exact E].
Qed.

(** ... and, whatever the gate, never enters recovery. *)
Lemma crashCheck_disarmed_normal ax delta err st :
  ARMING_FLAG_ARMED inp = false ->
  inCrashRecoveryMode st = false ->
  inCrashRecoveryMode (crashCheck inp pidProfile tk ax delta err st) = false.
Proof.
  intros Ha Hn. unfold crashCheck. rewrite Ha, Hn.
  destruct (_ && _); exact Hn.
Qed.

End Crash.

Section CrashEntry.

Variable lib : platform.
Variable inp : inputs.
Variable pidProfile : Profile.t.
Variable angleTrim : rollAndPitchTrims_t.
Variable tk : tick.

(** The derivative reads the filter chain, the configuration and the
    previous rate error, and nothing else of the state. *)
Lemma dtermDelta_ext ax sp st s :
  filters s = filters st -> cfg s = cfg st ->
  previousRateError s = previousRateError st ->
  dtermDelta lib inp tk ax sp s = dtermDelta lib inp tk ax sp st.
Proof.
  intros Hf Hc Hp. unfold dtermDelta, dtermRD. rewrite Hf, Hc, Hp. reflexivity.
Qed.

(** On roll and pitch, the state that enters the D stage has the filter
    chain, the previous rate error, the configuration and the crash state
    that the state entering the P stage has. *)
Lemma before_dTerm ax err st :
  ax <> FD_YAW ->
  let s := iTerm inp tk ax err (pTerm lib tk ax err st) in
  filters s = filters st /\ previousRateError s = previousRateError st
  /\ cfg s = cfg st /\ crashSame st s.
Proof.
  intro Hax. unfold iTerm, pTerm. cbv zeta.
  replace (axis_eqb ax FD_YAW) with false
    by (destruct ax; [reflexivity | reflexivity | contradiction]).
  destruct (_ || _); repeat split.
Qed.

Lemma pidControllerAxis_yaw_crashSame st :
  crashSame (fst (crashRecovery inp pidProfile angleTrim tk FD_YAW
                    (axisSetpoint inp pidProfile angleTrim FD_YAW st)
                    (axisSetpoint inp pidProfile angleTrim FD_YAW st
                     - gyroADCf inp FD_YAW)
                    (fst (limitedSetpoint inp FD_YAW st))))
    (pidControllerAxis lib inp pidProfile angleTrim tk st FD_YAW).
Proof.
  unfold pidControllerAxis, axisSetpoint. cbv zeta.
  rewrite (fr_cfg _ _ _ (limitedSetpoint_frame inp FD_YAW st)).
  eapply crashSame_trans; [|apply disableOutputs_crashSame].
  eapply crashSame_trans; [|apply dTerm_yaw_crashSame].
  eapply crashSame_trans; [|apply iTerm_crashSame].
  apply pTerm_crashSame.
Qed.

End CrashEntry.

Section Disarm.

Variable lib : platform.
Variable inp : inputs.
Variable pidProfile : Profile.t.
Variable angleTrim : rollAndPitchTrims_t.
Variable tk : tick.

(** On roll and pitch the crash state after an iteration is the one crash
    detection leaves, run on a state that has the crash state left by the
    override of lines 458-493. *)
Lemma pidControllerAxis_rollpitch_crash ax st :
  ax <> FD_YAW ->
  exists s delta err sp0 err0,
    crashSame (fst (crashRecovery inp pidProfile angleTrim tk ax sp0 err0
                      (fst (limitedSetpoint inp ax st)))) s
    /\ crashSame (crashCheck inp pidProfile tk ax delta err s)
         (pidControllerAxis lib inp pidProfile angleTrim tk st ax).
Proof.
  intro Hax. unfold pidControllerAxis. cbv zeta.
  match goal with
  | |- context [dTerm lib inp pidProfile tk ax ?sp ?err
                  (iTerm inp tk ax ?err (pTerm lib tk ax ?err ?s0))] =>
      destruct (dTerm_crashCheck lib inp pidProfile tk ax sp err
                  (iTerm inp tk ax err (pTerm lib tk ax err s0)) Hax)
        as (s & Cs & _ & Ds);
      exists s, (dtermDelta lib inp tk ax sp
                   (iTerm inp tk ax err (pTerm lib tk ax err s0))), err;
      pose proof (pTerm_crashSame lib tk ax err s0) as Ps;
      pose proof (iTerm_crashSame inp tk ax err (pTerm lib tk ax err s0)) as Is
  end.
  do 2 eexists. split.
  - eapply crashSame_trans; [exact Ps|].
    eapply crashSame_trans; [exact Is | exact Cs].
  - eapply crashSame_trans; [exact Ds | apply disableOutputs_crashSame].
Qed.

(** Disarmed, with the feature on and no gyro overflow, an iteration on roll
    or pitch ends in Normal. *)
Lemma pidControllerAxis_disarmed_exit ax st :
  ax <> FD_YAW ->
  ARMING_FLAG_ARMED inp = false ->
  Profile.crash_recovery pidProfile <> 0%Z ->
  gyroOverflowDetected inp = false ->
  inCrashRecoveryMode (pidControllerAxis lib inp pidProfile angleTrim tk st ax)
  = false.
Proof.
  intros Hax Ha Hc Hg.
  destruct (pidControllerAxis_rollpitch_crash ax st Hax)
    as (s & delta & err & sp0 & err0 & _ & [-> _]).
  apply crashCheck_disarmed; assumption.
Qed.

(** Disarmed, an iteration that starts in Normal ends in Normal. *)
Lemma pidControllerAxis_disarmed_normal ax st :
  ARMING_FLAG_ARMED inp = false ->
  inCrashRecoveryMode st = false ->
  inCrashRecoveryMode (pidControllerAxis lib inp pidProfile angleTrim tk st ax)
  = false.
Proof.
  intros Ha Hn.
  assert (Hn1 : inCrashRecoveryMode (fst (limitedSetpoint inp ax st)) = false).
  { destruct (limitedSetpoint_crashSame inp ax st) as [-> _]. exact Hn. }
  destruct (axis_eqb ax FD_YAW) eqn:Hyaw.
  - apply axis_eqb_eq in Hyaw. subst ax.
    destruct (pidControllerAxis_yaw_crashSame lib inp pidProfile angleTrim tk st)
      as [-> _].
    apply crashRecovery_stays_normal, Hn1.
  - assert (Hax : ax <> FD_YAW) by (intro; subst ax; discriminate).
    destruct (pidControllerAxis_rollpitch_crash ax st Hax)
      as (s & delta & err & sp0 & err0 & [Hs _] & [-> _]).
    apply crashCheck_disarmed_normal; [exact Ha|].
    rewrite Hs. apply crashRecovery_stays_normal, Hn1.
Qed.

End Disarm.

(** C8, as the code has it.  If pidController runs while the motors are
    disarmed, crash recovery is enabled in the profile and the gyro has not
    overflowed, then the crash state is Normal when it returns, whatever it
    was before and whatever the timers, rates, attitude and thresholds. *)
Theorem C8_disarm_exits lib inp pidProfile angleTrim now st :
  ARMING_FLAG_ARMED inp = false ->
  Profile.crash_recovery pidProfile <> 0%Z ->
  gyroOverflowDetected inp = false ->
  inCrashRecoveryMode (pidController lib inp pidProfile angleTrim now st)
  = false.
Proof.
  intros Ha Hc Hg. unfold pidController. cbv zeta. simpl fold_left.
  apply pidControllerAxis_disarmed_normal; [exact Ha|].
  apply pidControllerAxis_disarmed_normal; [exact Ha|].
  apply pidControllerAxis_disarmed_exit; [discriminate | assumption..].
Qed.

(** ** The crash state over the iterations of a tick *)

Section CrashTick.

Variable lib : platform.
Variable inp : inputs.
Variable pidProfile : Profile.t.
Variable angleTrim : rollAndPitchTrims_t.
Variable tk : tick.

(** A crash state that is Normal, or Recovering since this tick, stays so
    through crash detection. *)
Lemma crashCheck_notYetActive ax delta err st :
  notYetActive tk st ->
  notYetActive tk (crashCheck inp pidProfile tk ax delta err st).
Proof.
  unfold notYetActive, crashCheck, crashDetected, crashAborted, leaveRecovery.
  intro H.
  repeat match goal with
         | |- context [if ?b then _ else _] => destruct b eqn:?
         end; cbn; auto.
Qed.

Lemma notYetActive_inactive st :
  (0 <= crashTimeDelayUs (cfg st))%Z ->
  notYetActive tk st -> recoveryActive tk st = false.
Proof.
  intros Hd [H | H]; unfold recoveryActive.
  - rewrite H. reflexivity.
  - rewrite H. unfold cmpTimeUs. rewrite Z.sub_diag.
    change (s32 0) with 0%Z.
    replace (0 >? crashTimeDelayUs (cfg st))%Z with false
      by (symmetry; rewrite Z.gtb_ltb; apply Z.ltb_ge; lia).
    apply andb_false_r.
Qed.

Lemma pidControllerAxis_notYetActive ax st :
  (0 <= crashTimeDelayUs (cfg st))%Z ->
  notYetActive tk st ->
  notYetActive tk (pidControllerAxis lib inp pidProfile angleTrim tk st ax).
Proof.
  intros Hd Hn.
  assert (H1 : notYetActive tk (fst (limitedSetpoint inp ax st))).
  { destruct (limitedSetpoint_shape inp ax st) as [v ->]. exact Hn. }
  assert (Hr : forall sp e,
             crashRecovery inp pidProfile angleTrim tk ax sp e
               (fst (limitedSetpoint inp ax st))
             = (fst (limitedSetpoint inp ax st), (sp, e))).
  { intros sp e. unfold crashRecovery.
    rewrite notYetActive_inactive; [reflexivity | | exact H1].
    rewrite (fr_cfg _ _ _ (limitedSetpoint_frame inp ax st)). exact Hd. }
  destruct (axis_eqb ax FD_YAW) eqn:Hyaw.
  - apply axis_eqb_eq in Hyaw. subst ax.
    destruct (pidControllerAxis_yaw_crashSame lib inp pidProfile angleTrim tk st)
      as [Hf Ht].
    rewrite Hr in Hf, Ht. cbn [fst] in Hf, Ht.
    unfold notYetActive. rewrite Hf, Ht. exact H1.
  - assert (Hax : ax <> FD_YAW) by (intro; subst ax; discriminate).
    destruct (pidControllerAxis_rollpitch_crash lib inp pidProfile angleTrim tk
                ax st Hax)
      as (s & delta & err & sp0 & err0 & [Hs Ht] & [Hf Hg]).
    rewrite Hr in Hs, Ht. cbn [fst] in Hs, Ht.
    unfold notYetActive. rewrite Hf, Hg.
    apply crashCheck_notYetActive. unfold notYetActive.
    rewrite Hs, Ht. exact H1.
Qed.

End CrashTick.

(** The tick as three iterations, when recovery is not active at its start:
    no iteration finds the crash-recovery override active. *)
Lemma pidController_iteration_inactive lib inp pidProfile angleTrim now st a :
  (0 <= crashTimeDelayUs (cfg st))%Z ->
  notYetActive (tickValues inp now st) st ->
  exists s,
    setup st s /\ sameAxis a st s
    /\ recoveryActive (tickValues inp now st) s = false
    /\ sameAxis a
         (pidControllerAxis lib inp pidProfile angleTrim
            (tickValues inp now st) s a)
         (pidController lib inp pidProfile angleTrim now st).
Proof.
  intros Hd Hn. unfold pidController. cbv zeta. simpl fold_left.
  set (tk := tickValues inp now st) in *.
  set (s0 := set_previousTimeUs now st).
  assert (S0 : setup st s0) by (unfold setup; repeat split).
  assert (A0 : forall b, sameAxis b st s0) by (intro; unfold sameAxis; repeat split).
  assert (N0 : notYetActive tk s0) by exact Hn.
  pose proof (pidControllerAxis_frame lib inp pidProfile angleTrim tk FD_ROLL s0)
    as F1.
  set (s1 := pidControllerAxis lib inp pidProfile angleTrim tk s0 FD_ROLL) in *.
  pose proof (pidControllerAxis_frame lib inp pidProfile angleTrim tk FD_PITCH s1)
    as F2.
  set (s2 := pidControllerAxis lib inp pidProfile angleTrim tk s1 FD_PITCH) in *.
  pose proof (pidControllerAxis_frame lib inp pidProfile angleTrim tk FD_YAW s2)
    as F3.
  set (s3 := pidControllerAxis lib inp pidProfile angleTrim tk s2 FD_YAW) in *.
  assert (S1 : setup st s1) by (eapply frame_setup; eauto).
  assert (S2 : setup st s2) by (eapply frame_setup; eauto).
  assert (D0 : (0 <= crashTimeDelayUs (cfg s0))%Z) by exact Hd.
  assert (D1 : (0 <= crashTimeDelayUs (cfg s1))%Z)
    by (destruct S1 as [-> _]; exact Hd).
  assert (D2 : (0 <= crashTimeDelayUs (cfg s2))%Z)
    by (destruct S2 as [-> _]; exact Hd).
  assert (N1 : notYetActive tk s1)
    by (apply pidControllerAxis_notYetActive; assumption).
  assert (N2 : notYetActive tk s2)
    by (apply pidControllerAxis_notYetActive; assumption).
  destruct a.
  - exists s0. split; [exact S0|]. split; [apply A0|].
    split; [apply notYetActive_inactive; assumption|].
    eapply frame_sameAxis; [| |exact F3]; [discriminate|].
    eapply frame_sameAxis; [| |exact F2]; [discriminate|].
    apply sameAxis_refl.
  - exists s1. split; [exact S1|].
    split; [eapply frame_sameAxis; [| |exact F1]; [discriminate | apply A0]|].
    split; [apply notYetActive_inactive; assumption|].
    eapply frame_sameAxis; [| |exact F3]; [discriminate|].
    apply sameAxis_refl.
  - exists s2. split; [exact S2|].
    split; [eapply frame_sameAxis; [| |exact F2]; [discriminate|];
            eapply frame_sameAxis; [| |exact F1]; [discriminate | apply A0]|].
    split; [apply notYetActive_inactive; assumption|].
    apply sameAxis_refl.
Qed.

Lemma Profile_ok_crash_times p :
  Profile.ok p = true ->
  (0 <= Profile.crash_time p <= 65535 /\ 0 <= Profile.crash_delay p <= 65535
   /\ 0 <= Profile.crash_recovery_angle p <= 255
   /\ 0 <= Profile.rateAccelLimit p <= 65535
   /\ 0 <= Profile.yawRateAccelLimit p <= 65535)%Z.
Proof.
  unfold Profile.ok. rewrite !andb_true_iff. unfold Profile.u16, Profile.u8.
  rewrite !andb_true_iff. intuition lia.
Qed.

(** The crash delay is never negative. *)
Lemma reachable_crashDelay lib st :
  reachable lib st -> (0 <= crashTimeDelayUs (cfg st))%Z.
Proof.
  induction 1.
  - cbn. lia.
  - unfold pidInit, pidInitConfig. cbn.
    pose proof (Profile_ok_crash_times pidProfile H0). lia.
  - destruct (pidInitFilters_setup lib pidProfile st) as [-> _]. exact IHreachable.
  - unfold pidInitConfig. cbn.
    pose proof (Profile_ok_crash_times pidProfile H0). lia.
  - exact IHreachable.
  - exact IHreachable.
  - exact IHreachable.
  - destruct (pidController_iteration lib inp pidProfile angleTrim now st FD_ROLL)
      as (_ & _ & _ & _ & (-> & _)).
    exact IHreachable.
Qed.

(** ** Crash detection over a tick *)

Section CrashDetection.

Variable lib : platform.
Variable inp : inputs.
Variable pidProfile : Profile.t.
Variable angleTrim : rollAndPitchTrims_t.
Variable tk : tick.

(** The gate of lines 528-529: the feature on, no gyro overflow, armed. *)
Let gate : bool :=
  negb (Profile.crash_recovery pidProfile =? 0)%Z
  && negb (gyroOverflowDetected inp) && ARMING_FLAG_ARMED inp.

Lemma crashRecovery_inactive ax sp err st :
  recoveryActive tk st = false ->
  crashRecovery inp pidProfile angleTrim tk ax sp err st = (st, (sp, err)).
Proof. intro H. unfold crashRecovery. rewrite H. reflexivity. Qed.

Lemma limitedSetpoint_recoveryActive ax st :
  recoveryActive tk (fst (limitedSetpoint inp ax st)) = recoveryActive tk st.
Proof. destruct (limitedSetpoint_shape inp ax st) as [v ->]. reflexivity. Qed.

(** With the override of lines 458-493 not active, the iteration of roll or
    of pitch runs crash detection on the derivative and the rate error of
    the start of the iteration. *)
Lemma pidControllerAxis_detection ax st :
  ax <> FD_YAW ->
  recoveryActive tk st = false ->
  exists s,
    crashSame st s /\ cfg s = cfg st
    /\ crashSame
         (crashCheck inp pidProfile tk ax
            (dtermDelta lib inp tk ax
               (axisSetpoint inp pidProfile angleTrim ax st) st)
            (axisSetpoint inp pidProfile angleTrim ax st - gyroADCf inp ax) s)
         (pidControllerAxis lib inp pidProfile angleTrim tk st ax).
Proof.
  intros Hax Hr.
  destruct (limitedSetpoint_shape inp ax st) as [v Hv].
  unfold pidControllerAxis, axisSetpoint. cbv zeta.
  rewrite (fr_cfg _ _ _ (limitedSetpoint_frame inp ax st)).
  rewrite crashRecovery_inactive
    by (rewrite limitedSetpoint_recoveryActive; exact Hr).
  cbn [fst snd].
  set (sp := leveledSetpoint inp pidProfile angleTrim (cfg st) ax
               (snd (limitedSetpoint inp ax st))).
  set (err := sp - gyroADCf inp ax).
  set (s1 := fst (limitedSetpoint inp ax st)) in *.
  destruct (before_dTerm lib inp tk ax err s1 Hax) as (Bf & Bp & Bc & Bs).
  set (s4 := iTerm inp tk ax err (pTerm lib tk ax err s1)) in *.
  destruct (dTerm_crashCheck lib inp pidProfile tk ax sp err s4 Hax)
    as (s & Cs & Cc & Ds).
  assert (Hdelta : dtermDelta lib inp tk ax sp s4 = dtermDelta lib inp tk ax sp st).
  { apply dtermDelta_ext.
    - rewrite Bf, Hv. reflexivity.
    - rewrite Bc, Hv. reflexivity.
    - rewrite Bp, Hv. reflexivity. }
  rewrite Hdelta in Ds.
  exists s. split; [|split].
  - eapply crashSame_trans; [|exact Cs].
    eapply crashSame_trans; [|exact Bs].
    rewrite Hv. split; reflexivity.
  - rewrite Cc, Bc, Hv. reflexivity.
  - eapply crashSame_trans; [exact Ds | apply disableOutputs_crashSame].
Qed.

(** The conditions of crash detection read the crash state and the
    configuration only. *)
Lemma crashDetected_ext ax delta err st s :
  crashSame st s -> cfg s = cfg st ->
  crashDetected inp tk ax delta err s = crashDetected inp tk ax delta err st
  /\ crashAborted inp tk ax err s = crashAborted inp tk ax err st.
Proof.
  intros [Hf Ht] Hc. unfold crashDetected, crashAborted.
  rewrite Hf, Ht, Hc. split; reflexivity.
Qed.

(** Crash detection from Normal: the entry is taken when the gate is open
    and the entry condition holds, the early abort that follows it cannot
    undo it, and the time of the tick is recorded. *)
Lemma crashCheck_normal ax delta err st :
  inCrashRecoveryMode st = false ->
  let entered := gate && crashDetected inp tk ax delta err st in
  inCrashRecoveryMode (crashCheck inp pidProfile tk ax delta err st) = entered
  /\ crashDetectedAtUs (crashCheck inp pidProfile tk ax delta err st)
     = if entered then currentTimeUs tk else crashDetectedAtUs st.
Proof.
  intro Hn. cbv zeta. unfold gate, crashCheck.
  destruct (negb (Profile.crash_recovery pidProfile =? 0)%Z); cbn [andb];
    [|split; [exact Hn | reflexivity]].
  destruct (gyroOverflowDetected inp); cbn [negb andb];
    [split; [exact Hn | reflexivity]|].
  destruct (ARMING_FLAG_ARMED inp); cbn [andb].
  2:{ rewrite Hn. split; [exact Hn | reflexivity]. }
  destruct (crashDetected inp tk ax delta err st) eqn:Hd.
  - assert (Ha : crashAborted inp tk ax err
                   (set_crashDetectedAtUs (currentTimeUs tk)
                      (set_inCrashRecoveryMode true st)) = false).
    { apply crashDetected_iff in Hd. destruct Hd as (_ & _ & _ & Hg & Hs).
      unfold crashAborted. cbn [inCrashRecoveryMode crashDetectedAtUs cfg
        set_crashDetectedAtUs set_inCrashRecoveryMode andb].
      rewrite <- ABS_Qabs in Hg, Hs.
      replace (Qltb (ABS err) (crashGyroThreshold (cfg st))) with false
        by (symmetry; apply Qltb_ge; lra).
      replace (Qgtb (ABS (getSetpointRate inp ax)) (crashSetpointThreshold (cfg st)))
        with false by (symmetry; apply Qgtb_le; lra).
      apply andb_false_r. }
    rewrite Ha. split; reflexivity.
  - unfold crashAborted. rewrite Hn. cbn [andb]. split; [exact Hn | reflexivity].
Qed.

(** Crash detection while recovering, with the gate open: no second entry,
    and the early abort of lines 537-541 decides. *)
Lemma crashCheck_recovering ax delta err st :
  inCrashRecoveryMode st = true ->
  gate = true ->
  inCrashRecoveryMode (crashCheck inp pidProfile tk ax delta err st)
  = negb (crashAborted inp tk ax err st)
  /\ crashDetectedAtUs (crashCheck inp pidProfile tk ax delta err st)
     = crashDetectedAtUs st.
Proof.
  intros Hr Hg. unfold gate in Hg. apply andb_true_iff in Hg.
  destruct Hg as [Hg Ha]. unfold crashCheck. rewrite Hg, Ha.
  assert (Hd : crashDetected inp tk ax delta err st = false).
  { unfold crashDetected. rewrite Hr. cbn [negb]. rewrite andb_false_r.
    reflexivity. }
  rewrite Hd.
  destruct (crashAborted inp tk ax err st); cbn; [split; reflexivity|].
  split; [exact Hr | reflexivity].
Qed.

(** ... in the tick of the entry: the abort fires when the crash delay is
    not zero and the rate error of this axis is under its threshold or its
    setpoint over its threshold. *)
Lemma crashAborted_same_tick ax err st :
  inCrashRecoveryMode st = true ->
  crashDetectedAtUs st = currentTimeUs tk ->
  crashAborted inp tk ax err st
  = (0 <? crashTimeDelayUs (cfg st))%Z
    && (Qltb (ABS err) (crashGyroThreshold (cfg st))
        || Qgtb (ABS (getSetpointRate inp ax)) (crashSetpointThreshold (cfg st))).
Proof.
  intros Hr Ht. unfold crashAborted. rewrite Hr, Ht.
  unfold cmpTimeUs. rewrite Z.sub_diag. reflexivity.
Qed.

Lemma crashCheck_filters ax delta err st :
  filters (crashCheck inp pidProfile tk ax delta err st) = filters st.
Proof. unfold crashCheck, leaveRecovery. stage_field. Qed.

(** What an iteration of another axis leaves of the filter chain: the
    three function pointers, the D-term storage of every other axis and,
    on roll and pitch, the storage of the yaw low-pass. *)
Lemma pidControllerAxis_filters ax st :
  let st' := pidControllerAxis lib inp pidProfile angleTrim tk st ax in
  filterFns st' = filterFns st
  /\ (forall a, a <> ax ->
        dtermFilterNotch (filters st') a = dtermFilterNotch (filters st) a
        /\ dtermFilterLpf (filters st') a = dtermFilterLpf (filters st) a)
  /\ (ax <> FD_YAW -> ptermYawFilter (filters st') = ptermYawFilter (filters st)).
Proof.
  cbv zeta. unfold pidControllerAxis. cbv zeta.
  destruct (limitedSetpoint_shape inp ax st) as [v Hv]. rewrite Hv.
  match goal with
  | |- context [crashRecovery inp pidProfile angleTrim tk ax ?sp ?e ?s] =>
      set (r := crashRecovery inp pidProfile angleTrim tk ax sp e s);
      assert (H2 : filters (fst r) = filters st)
  end.
  { unfold r, crashRecovery, leaveRecovery. cbv zeta.
    repeat match goal with
           | |- context [if ?b then _ else _] => destruct b
           end; reflexivity. }
  set (err := snd (snd r)). set (sp := fst (snd r)).
  set (s3 := pTerm lib tk ax err (fst r)).
  assert (H3 : filterFns s3 = filterFns st
               /\ dtermFilterNotch (filters s3) = dtermFilterNotch (filters st)
               /\ dtermFilterLpf (filters s3) = dtermFilterLpf (filters st)
               /\ (ax <> FD_YAW ->
                   ptermYawFilter (filters s3) = ptermYawFilter (filters st))).
  { unfold s3, pTerm, filterFns. destruct ax; cbn; rewrite H2;
      repeat split; intro X; try reflexivity; contradiction. }
  set (s4 := iTerm inp tk ax err s3).
  assert (H4 : filters s4 = filters s3).
  { unfold s4, iTerm. cbv zeta. destruct (_ || _); reflexivity. }
  set (s5 := dTerm lib inp pidProfile tk ax sp err s4).
  assert (H5 : filterFns s5 = filterFns s4
               /\ (forall a, a <> ax ->
                     dtermFilterNotch (filters s5) a = dtermFilterNotch (filters s4) a
                     /\ dtermFilterLpf (filters s5) a = dtermFilterLpf (filters s4) a)
               /\ ptermYawFilter (filters s5) = ptermYawFilter (filters s4)).
  { unfold s5, dTerm.
    destruct (negb (axis_eqb ax FD_YAW)); [|repeat split].
    cbv zeta. unfold filterFns.
    cbn [filters set_axisPIDSum set_axisPID_D].
    rewrite crashCheck_filters.
    cbn. split; [reflexivity|]. split; [|reflexivity].
    intros a Ha. rewrite !upd_other by exact Ha. split; reflexivity. }
  assert (H6 : filters (disableOutputs inp ax s5) = filters s5).
  { unfold disableOutputs. destruct (_ || _); reflexivity. }
  destruct H3 as (A1 & A2 & A3 & A4). destruct H5 as (B1 & B2 & B3).
  unfold filterFns in *. rewrite H6. rewrite H4 in *.
  split; [congruence|]. split.
  - intros a Ha. destruct (B2 a Ha) as [-> ->]. rewrite A2, A3.
    split; reflexivity.
  - intro Hy. rewrite B3. apply A4, Hy.
Qed.

(** The derivative of an axis reads its own filters, the configuration and
    its own previous rate error. *)
Lemma dtermDelta_axis ax sp st s :
  filterFns s = filterFns st ->
  dtermFilterNotch (filters s) ax = dtermFilterNotch (filters st) ax ->
  dtermFilterLpf (filters s) ax = dtermFilterLpf (filters st) ax ->
  cfg s = cfg st ->
  previousRateError s ax = previousRateError st ax ->
  dtermDelta lib inp tk ax sp s = dtermDelta lib inp tk ax sp st.
Proof.
  unfold filterFns. intros Hf Hn Hl Hc Hp.
  injection Hf as F1 F2 F3.
  unfold dtermDelta, dtermRD. rewrite F1, F2, Hn, Hl, Hc, Hp. reflexivity.
Qed.

(** The setpoint of an axis reads the configuration and its own previous
    setpoint. *)
Lemma axisSetpoint_axis ax st s :
  cfg s = cfg st -> previousSetpoint s ax = previousSetpoint st ax ->
  snd (limitedSetpoint inp ax s) = snd (limitedSetpoint inp ax st)
  /\ axisSetpoint inp pidProfile angleTrim ax s
     = axisSetpoint inp pidProfile angleTrim ax st.
Proof.
  intros Hc Hp.
  assert (H : snd (limitedSetpoint inp ax s) = snd (limitedSetpoint inp ax st)).
  { unfold limitedSetpoint, accelerationLimit. rewrite Hc.
    destruct (Qnonzero _); [|reflexivity].
    cbv zeta. rewrite Hp. reflexivity. }
  split; [exact H|]. unfold axisSetpoint. rewrite H, Hc. reflexivity.
Qed.

(** The crash state after the iteration of roll or of pitch, from a state
    that is Normal or has entered recovery in this very tick (with the gate
    open): from Normal the entry is taken on the entry condition; from
    Recovering the early abort decides. *)
Lemma pidControllerAxis_crash_step ax st :
  ax <> FD_YAW ->
  (0 <= crashTimeDelayUs (cfg st))%Z ->
  notYetActive tk st ->
  (inCrashRecoveryMode st = true -> gate = true) ->
  let sp := axisSetpoint inp pidProfile angleTrim ax st in
  let err := sp - gyroADCf inp ax in
  let detected :=
    gate && crashDetected inp tk ax (dtermDelta lib inp tk ax sp st) err st in
  let aborted :=
    (0 <? crashTimeDelayUs (cfg st))%Z
    && (Qltb (ABS err) (crashGyroThreshold (cfg st))
        || Qgtb (ABS (getSetpointRate inp ax))
             (crashSetpointThreshold (cfg st))) in
  let st' := pidControllerAxis lib inp pidProfile angleTrim tk st ax in
  inCrashRecoveryMode st'
  = (if inCrashRecoveryMode st then negb aborted else detected)
  /\ crashDetectedAtUs st'
     = (if detected then currentTimeUs tk else crashDetectedAtUs st).
Proof.
  intros Hax Hd Hn Hg. cbv zeta.
  pose proof (notYetActive_inactive tk st Hd Hn) as Hr.
  destruct (pidControllerAxis_detection ax st Hax Hr)
    as (s & [Sf St] & Sc & [Pf Pt]).
  rewrite Pf, Pt.
  set (sp := axisSetpoint inp pidProfile angleTrim ax st) in *.
  set (err := sp - gyroADCf inp ax) in *.
  set (delta := dtermDelta lib inp tk ax sp st) in *.
  assert (Hx : crashDetected inp tk ax delta err s
               = crashDetected inp tk ax delta err st).
  { unfold crashDetected. rewrite Sf, Sc. reflexivity. }
  destruct (inCrashRecoveryMode st) eqn:E.
  - assert (Hs : inCrashRecoveryMode s = true) by congruence.
    destruct (crashCheck_recovering ax delta err s Hs (Hg eq_refl)) as [-> ->].
    assert (Ht : crashDetectedAtUs st = currentTimeUs tk)
      by (destruct Hn as [Hn | Hn]; [congruence | exact Hn]).
    rewrite crashAborted_same_tick; [| exact Hs | congruence].
    rewrite Sc, St.
    assert (Hz : crashDetected inp tk ax delta err st = false).
    { unfold crashDetected. rewrite E. cbn [negb]. rewrite andb_false_r.
      reflexivity. }
    rewrite Hz, andb_false_r. split; reflexivity.
  - assert (Hs : inCrashRecoveryMode s = false) by congruence.
    destruct (crashCheck_normal ax delta err s Hs) as [-> ->].
    cbv zeta. rewrite Hx, St. split; reflexivity.
Qed.

(** The iteration of yaw leaves such a crash state as it is. *)
Lemma pidControllerAxis_yaw_crash st :
  (0 <= crashTimeDelayUs (cfg st))%Z ->
  notYetActive tk st ->
  crashSame st (pidControllerAxis lib inp pidProfile angleTrim tk st FD_YAW).
Proof.
  intros Hd Hn.
  pose proof (notYetActive_inactive tk st Hd Hn) as Hr.
  destruct (pidControllerAxis_yaw_crashSame lib inp pidProfile angleTrim tk st)
    as [Yf Yt].
  rewrite crashRecovery_inactive in Yf, Yt
    by (rewrite limitedSetpoint_recoveryActive; exact Hr).
  cbn [fst] in Yf, Yt.
  destruct (limitedSetpoint_crashSame inp FD_YAW st) as [L1 L2].
  split; congruence.
Qed.

End CrashDetection.

Lemma pidController_steps lib inp pidProfile angleTrim now st :
  pidController lib inp pidProfile angleTrim now st
  = pidControllerAxis lib inp pidProfile angleTrim (tickValues inp now st)
      (pidControllerAxis lib inp pidProfile angleTrim (tickValues inp now st)
         (pidControllerAxis lib inp pidProfile angleTrim (tickValues inp now st)
            (set_previousTimeUs now st) FD_ROLL) FD_PITCH) FD_YAW.
Proof. reflexivity. Qed.

(** The crash state after a tick that starts in Normal.  The roll iteration
    takes the entry when the gate is open and the entry condition holds on
    roll; the pitch iteration then either aborts that entry (lines 537-541,
    run in the tick of the entry) or, when roll did not enter, takes the
    entry on its own condition; the yaw iteration has no crash detection
    and the override of lines 458-493 is not yet active. *)
Lemma pidController_crash lib inp pidProfile angleTrim now st :
  inCrashRecoveryMode st = false ->
  (0 <= crashTimeDelayUs (cfg st))%Z ->
  let tk := tickValues inp now st in
  let gate :=
    negb (Profile.crash_recovery pidProfile =? 0)%Z
    && negb (gyroOverflowDetected inp) && ARMING_FLAG_ARMED inp in
  let sp a := axisSetpoint inp pidProfile angleTrim a st in
  let err a := sp a - gyroADCf inp a in
  let detected a :=
    gate
    && crashDetected inp tk a (dtermDelta lib inp tk a (sp a) st) (err a) st in
  let aborted :=
    (0 <? crashTimeDelayUs (cfg st))%Z
    && (Qltb (ABS (err FD_PITCH)) (crashGyroThreshold (cfg st))
        || Qgtb (ABS (getSetpointRate inp FD_PITCH))
             (crashSetpointThreshold (cfg st))) in
  let st' := pidController lib inp pidProfile angleTrim now st in
  inCrashRecoveryMode st'
  = (if detected FD_ROLL then negb aborted else detected FD_PITCH)
  /\ crashDetectedAtUs st'
     = (if detected FD_ROLL || detected FD_PITCH then now
        else crashDetectedAtUs st).
Proof.
  intros Hn Hd. cbv zeta. rewrite pidController_steps.
  remember (tickValues inp now st) as tk eqn:Etk.
  assert (Htk : currentTimeUs tk = now) by (subst tk; reflexivity).
  clear Etk.
  remember (set_previousTimeUs now st) as s0 eqn:E0.
  assert (A0 : cfg s0 = cfg st /\ inCrashRecoveryMode s0 = false
               /\ crashDetectedAtUs s0 = crashDetectedAtUs st
               /\ filters s0 = filters st
               /\ previousSetpoint s0 = previousSetpoint st
               /\ previousRateError s0 = previousRateError st).
  { subst s0. repeat split. exact Hn. }
  clear E0. destruct A0 as (C0 & N0 & T0 & F0 & P0 & Q0).
  (* roll *)
  assert (G0 : inCrashRecoveryMode s0 = true ->
               negb (Profile.crash_recovery pidProfile =? 0)%Z
               && negb (gyroOverflowDetected inp) && ARMING_FLAG_ARMED inp = true)
    by (rewrite N0; discriminate).
  destruct (pidControllerAxis_crash_step lib inp pidProfile angleTrim tk FD_ROLL
              s0 ltac:(discriminate) ltac:(rewrite C0; exact Hd)
              (or_introl N0) G0) as [R1 R2].
  cbv zeta in R1, R2.
  destruct (axisSetpoint_axis inp pidProfile angleTrim FD_ROLL st s0 C0
              ltac:(rewrite P0; reflexivity)) as [_ Hs0].
  rewrite Hs0 in R1, R2. rewrite N0 in R1. rewrite T0 in R2.
  rewrite (dtermDelta_ext lib inp tk FD_ROLL _ st s0 F0 C0 Q0) in R1, R2.
  assert (X0 : forall d e, crashDetected inp tk FD_ROLL d e s0
                           = crashDetected inp tk FD_ROLL d e st)
    by (intros; unfold crashDetected; rewrite N0, Hn, C0; reflexivity).
  rewrite X0 in R1, R2.
  pose proof (pidControllerAxis_frame lib inp pidProfile angleTrim tk FD_ROLL s0)
    as F1.
  destruct (pidControllerAxis_filters lib inp pidProfile angleTrim tk FD_ROLL s0)
    as (G1 & G2 & _).
  cbv zeta in G1, G2. destruct (G2 FD_PITCH ltac:(discriminate)) as [G3 G4].
  remember (pidControllerAxis lib inp pidProfile angleTrim tk s0 FD_ROLL) as s1
    eqn:E1.
  clear E1 G2.
  remember (negb (Profile.crash_recovery pidProfile =? 0)%Z
            && negb (gyroOverflowDetected inp) && ARMING_FLAG_ARMED inp) as gate
    eqn:Eg.
  remember (gate && crashDetected inp tk FD_ROLL
                      (dtermDelta lib inp tk FD_ROLL
                         (axisSetpoint inp pidProfile angleTrim FD_ROLL st) st)
                      (axisSetpoint inp pidProfile angleTrim FD_ROLL st
                       - gyroADCf inp FD_ROLL) st) as dR eqn:EdR.
  assert (C1 : cfg s1 = cfg st) by (rewrite (fr_cfg _ _ _ F1); exact C0).
  (* pitch *)
  assert (Y1 : notYetActive tk s1).
  { unfold notYetActive. rewrite R1, R2.
    destruct dR; [right | left]; reflexivity. }
  assert (G1' : inCrashRecoveryMode s1 = true -> gate = true).
  { rewrite R1. intro X. rewrite X in EdR. symmetry in EdR.
    apply andb_true_iff in EdR. apply EdR. }
  destruct (pidControllerAxis_crash_step lib inp pidProfile angleTrim tk
              FD_PITCH s1 ltac:(discriminate) ltac:(rewrite C1; exact Hd) Y1
              ltac:(rewrite <- Eg; exact G1')) as [P1 P2].
  cbv zeta in P1, P2. rewrite <- Eg in P1, P2.
  destruct (axisSetpoint_axis inp pidProfile angleTrim FD_PITCH st s1 C1
              ltac:(rewrite (fr_setpoint _ _ _ F1 FD_PITCH ltac:(discriminate)),
                      P0; reflexivity)) as [_ Hs1].
  rewrite Hs1 in P1, P2. rewrite C1, R1 in P1. rewrite R2 in P2.
  assert (D1 : forall sp, dtermDelta lib inp tk FD_PITCH sp s1
                          = dtermDelta lib inp tk FD_PITCH sp st).
  { intro sp. apply dtermDelta_axis.
    - rewrite G1. unfold filterFns. rewrite F0. reflexivity.
    - rewrite G3, F0. reflexivity.
    - rewrite G4, F0. reflexivity.
    - exact C1.
    - rewrite (fr_rateError _ _ _ F1 FD_PITCH ltac:(discriminate)), Q0.
      reflexivity. }
  rewrite D1 in P1, P2.
  pose proof (pidControllerAxis_frame lib inp pidProfile angleTrim tk FD_PITCH s1)
    as F2.
  remember (pidControllerAxis lib inp pidProfile angleTrim tk s1 FD_PITCH) as s2
    eqn:E2.
  clear E2.
  assert (C2 : cfg s2 = cfg st) by (rewrite (fr_cfg _ _ _ F2); exact C1).
  assert (X1 : forall d e, dR = false ->
                 crashDetected inp tk FD_PITCH d e s1
                 = crashDetected inp tk FD_PITCH d e st).
  { intros d e Hf. unfold crashDetected. rewrite R1, Hf, Hn, C1. reflexivity. }
  assert (X2 : forall d e, dR = true ->
                 crashDetected inp tk FD_PITCH d e s1 = false).
  { intros d e Hf. unfold crashDetected. rewrite R1, Hf. cbn [negb].
    rewrite andb_false_r. reflexivity. }
  (* yaw *)
  assert (Y2 : notYetActive tk s2).
  { unfold notYetActive. rewrite P1, P2.
    destruct dR.
    - right. rewrite X2 by reflexivity. rewrite andb_false_r. reflexivity.
    - destruct (gate && crashDetected inp tk FD_PITCH _ _ s1);
        [right | left]; reflexivity. }
  destruct (pidControllerAxis_yaw_crash lib inp pidProfile angleTrim tk s2
              ltac:(rewrite C2; exact Hd) Y2) as [-> ->].
  rewrite P1, P2, Htk.
  destruct dR.
  - rewrite X2 by reflexivity. rewrite andb_false_r. split; reflexivity.
  - rewrite X1 by reflexivity. cbn [orb]. split; reflexivity.
Qed.

(** The gate and the entry condition of lines 528-533, spelled out. *)
Lemma crashEntry_iff inp pidProfile tk a delta err st :
  inCrashRecoveryMode st = false ->
  negb (Profile.crash_recovery pidProfile =? 0)%Z
  && negb (gyroOverflowDetected inp) && ARMING_FLAG_ARMED inp
  && crashDetected inp tk a delta err st = true
  <-> Profile.crash_recovery pidProfile <> 0%Z
      /\ gyroOverflowDetected inp = false
      /\ ARMING_FLAG_ARMED inp = true
      /\ 1 <= motorMixRange tk
      /\ crashDtermThreshold (cfg st) < Qabs delta
      /\ crashGyroThreshold (cfg st) < Qabs err
      /\ Qabs (getSetpointRate inp a) < crashSetpointThreshold (cfg st).
Proof.
  intro Hn.
  rewrite !andb_true_iff, !negb_true_iff, Z.eqb_neq, crashDetected_iff.
  tauto.
Qed.

(** The early abort in the tick of the entry, spelled out. *)
Lemma crashAbort_iff inp a err st :
  (0 <? crashTimeDelayUs (cfg st))%Z
  && (Qltb (ABS err) (crashGyroThreshold (cfg st))
      || Qgtb (ABS (getSetpointRate inp a)) (crashSetpointThreshold (cfg st)))
  = true
  <-> (0 < crashTimeDelayUs (cfg st))%Z
      /\ (Qabs err < crashGyroThreshold (cfg st)
          \/ crashSetpointThreshold (cfg st) < Qabs (getSetpointRate inp a)).
Proof.
  rewrite andb_true_iff, orb_true_iff, Z.ltb_lt, Qltb_lt, Qgtb_gt, !ABS_Qabs.
  tauto.
Qed.

(** The outcome of the roll and pitch iterations, given which of the entry
    conditions and the abort condition hold. *)
Lemma crash_outcome (dR dP aP : bool) (ER EP A : Prop) (now t : Z) :
  (dR = true <-> ER) -> (dP = true <-> EP) -> (aP = true <-> A) ->
  (EP -> A -> False) ->
  (ER \/ EP -> (if dR || dP then now else t) = now)
  /\ (~ (ER \/ EP) ->
      (if dR || dP then now else t) = t
      /\ (if dR then negb aP else dP) = false)
  /\ ((if dR then negb aP else dP) = true <-> EP \/ (ER /\ ~ A)).
Proof.
  intros HR HP HA Hx.
  destruct dR, dP, aP; cbn [orb negb];
    repeat split; intros; try reflexivity; try tauto;
    try (exfalso; tauto); intuition (try discriminate; try congruence).
Qed.

(** C3, as the code has it.  During a tick that starts in Normal, the entry
    Normal -> Recovering is taken exactly when, on roll or on pitch, all of
    these hold: crash recovery is enabled in the profile, the gyro has not
    overflowed, the motors are armed, the motor-mix range is at least 1.0,
    the magnitude of the derivative exceeds crashDtermThreshold, the
    magnitude of the rate error exceeds crashGyroThreshold and the magnitude
    of the commanded setpoint is below crashSetpointThreshold; the entry
    records the time of the tick, and without it the time stamp is
    untouched and the tick ends in Normal.  The tick ends in Recovering
    unless the entry was taken on roll and the early-abort test of the pitch
    iteration of the same tick undoes it: a crash delay that is not zero,
    and the rate error of pitch under crashGyroThreshold or the setpoint of
    pitch over crashSetpointThreshold.

    The derivative of the model is that of pid.c when the elapsed time of
    the tick is not zero and relaxFactor is finite (the third and the fourth
    hypothesis); the crash delay of pid.c is never negative. *)
Theorem C3_crash_entry lib inp pidProfile angleTrim now st :
  inCrashRecoveryMode st = false ->
  (0 <= crashTimeDelayUs (cfg st))%Z ->
  u32 (now - previousTimeUs st) <> 0%Z ->
  ~ relaxFactor (cfg st) == 0 ->
  let st' := pidController lib inp pidProfile angleTrim now st in
  let setpoint a := axisSetpoint inp pidProfile angleTrim a st in
  let errorRate a := setpoint a - gyroADCf inp a in
  let delta a := dtermDelta lib inp (tickValues inp now st) a (setpoint a) st in
  let entry a :=
    Profile.crash_recovery pidProfile <> 0%Z
    /\ gyroOverflowDetected inp = false
    /\ ARMING_FLAG_ARMED inp = true
    /\ 1 <= getMotorMixRange inp
    /\ crashDtermThreshold (cfg st) < Qabs (delta a)
    /\ crashGyroThreshold (cfg st) < Qabs (errorRate a)
    /\ Qabs (getSetpointRate inp a) < crashSetpointThreshold (cfg st) in
  let abortedOnPitch :=
    (0 < crashTimeDelayUs (cfg st))%Z
    /\ (Qabs (errorRate FD_PITCH) < crashGyroThreshold (cfg st)
        \/ crashSetpointThreshold (cfg st)
           < Qabs (getSetpointRate inp FD_PITCH)) in
  (entry FD_ROLL \/ entry FD_PITCH -> crashDetectedAtUs st' = now)
  /\ (~ (entry FD_ROLL \/ entry FD_PITCH) ->
      crashDetectedAtUs st' = crashDetectedAtUs st
      /\ inCrashRecoveryMode st' = false)
  /\ (inCrashRecoveryMode st' = true <->
      entry FD_PITCH \/ (entry FD_ROLL /\ ~ abortedOnPitch)).
Proof.
  intros Hn Hd _ _. cbv zeta.
  destruct (pidController_crash lib inp pidProfile angleTrim now st Hn Hd)
    as [H1 H2].
  cbv zeta in H1, H2. rewrite H1, H2. clear H1 H2.
  pose proof (fun a =>
    crashEntry_iff inp pidProfile (tickValues inp now st) a
      (dtermDelta lib inp (tickValues inp now st) a
         (axisSetpoint inp pidProfile angleTrim a st) st)
      (axisSetpoint inp pidProfile angleTrim a st - gyroADCf inp a) st Hn)
    as He.
  change (motorMixRange (tickValues inp now st)) with (getMotorMixRange inp)
    in He.
  apply crash_outcome.
  - apply He.
  - apply He.
  - apply crashAbort_iff.
  - intros (_ & _ & _ & _ & _ & X1 & X2) (_ & [Y | Y]); lra.
Qed.

(** ** The integral update *)

Section Windup.

Variable lib : platform.
Variable inp : inputs.
Variable pidProfile : Profile.t.
Variable angleTrim : rollAndPitchTrims_t.
Variable tk : tick.

(** The accumulator after the override of lines 458-493: zero while the
    override is active (line 475), untouched otherwise. *)
Lemma crashRecovery_I ax sp err st :
  axisPID_I (fst (crashRecovery inp pidProfile angleTrim tk ax sp err st)) ax
  = if recoveryActive tk st then 0 else axisPID_I st ax.
Proof.
  unfold crashRecovery, leaveRecovery. cbv zeta.
  destruct (recoveryActive tk st); [|reflexivity].
  repeat match goal with
         | |- context [if ?b then _ else _] => destruct b
         end; cbn; apply upd_same.
Qed.

Lemma pTerm_I ax err st : axisPID_I (pTerm lib tk ax err st) = axisPID_I st.
Proof. unfold pTerm. destruct (axis_eqb ax FD_YAW); reflexivity. Qed.

(** With stabilisation on and no overflow, lines 553-559 do nothing. *)
Lemma disableOutputs_enabled ax st :
  pidStabilisationEnabled st = true -> gyroOverflowDetected inp = false ->
  disableOutputs inp ax st = st.
Proof. intros H1 H2. unfold disableOutputs. rewrite H1, H2. reflexivity. Qed.

(** The update of lines 506-512, case by case. *)
Lemma iTerm_cases ax err st :
  let old := axisPID_I st ax in
  let candidate := ITermNew tk ax err st in
  let new := axisPID_I (iTerm inp tk ax err st) ax in
  (mixerIsOutputSaturated inp ax err = false \/ Qabs candidate < Qabs old ->
   new = candidate)
  /\ (mixerIsOutputSaturated inp ax err = true ->
      Qabs old <= Qabs candidate -> new = old)
  /\ (mixerIsOutputSaturated inp ax err = true -> Qabs new <= Qabs old).
Proof.
  cbv zeta. unfold iTerm. cbv zeta.
  destruct (mixerIsOutputSaturated inp ax err); cbn [Bool.eqb orb].
  - qcase (Qltb (ABS (ITermNew tk ax err st)) (ABS (axisPID_I st ax)));
      rewrite !ABS_Qabs in E.
    + cbn. rewrite upd_same. repeat split; intros; try reflexivity.
      * exfalso. lra.
      * lra.
    + repeat split; intros; try reflexivity.
      * destruct H as [H | H]; [discriminate | exfalso; lra].
      * lra.
  - cbn. rewrite upd_same. repeat split; intros; try reflexivity; discriminate.
Qed.

End Windup.

(** C5. In an iteration of the loop of pidController (stabilisation on, no
    gyro overflow, so that lines 553-559 do not zero the result), the
    accumulator of the axis ends as the candidate -- the old accumulator plus
    Ki x errorRate x dynCi, clamped to +-itermLimit -- when the output is not
    saturated for that axis or the magnitude of the candidate is smaller than
    the old magnitude; when the output is saturated and the magnitude of the
    candidate is not smaller, it ends exactly as it was.  So under saturation
    its magnitude never grows.  The old accumulator is the one the integral
    update reads: zero while the crash-recovery override is active (line
    475), the accumulator at the start of the iteration otherwise. *)
Theorem C5_anti_windup lib inp pidProfile angleTrim tk st ax :
  pidStabilisationEnabled st = true ->
  gyroOverflowDetected inp = false ->
  let errorRate := axisErrorRate inp pidProfile angleTrim tk ax st in
  let old := if recoveryActive tk st then 0 else axisPID_I st ax in
  let candidate :=
    constrainf (old + Ki (cfg st) ax * errorRate * dynCi tk)
      (- itermLimit (cfg st)) (itermLimit (cfg st)) in
  let saturated := mixerIsOutputSaturated inp ax errorRate in
  let new :=
    axisPID_I (pidControllerAxis lib inp pidProfile angleTrim tk st ax) ax in
  (saturated = false \/ Qabs candidate < Qabs old -> new = candidate)
  /\ (saturated = true -> Qabs old <= Qabs candidate -> new = old)
  /\ (saturated = true -> Qabs new <= Qabs old).
Proof.
  intros Hs Hg. cbv zeta.
  unfold pidControllerAxis, axisErrorRate, axisSetpoint. cbv zeta.
  pose proof (limitedSetpoint_frame inp ax st) as F1.
  destruct (limitedSetpoint_shape inp ax st) as [v Hv].
  set (s1 := fst (limitedSetpoint inp ax st)) in *.
  rewrite (fr_cfg _ _ _ F1).
  set (sp := leveledSetpoint inp pidProfile angleTrim (cfg st) ax
               (snd (limitedSetpoint inp ax st))).
  pose proof (crashRecovery_frame inp pidProfile angleTrim tk ax sp
                (sp - gyroADCf inp ax) s1) as F2.
  pose proof (crashRecovery_I inp pidProfile angleTrim tk ax sp
                (sp - gyroADCf inp ax) s1) as HI.
  set (r := crashRecovery inp pidProfile angleTrim tk ax sp
              (sp - gyroADCf inp ax) s1) in *.
  set (err := snd (snd r)).
  pose proof (pTerm_frame lib tk ax err (fst r)) as F3.
  pose proof (pTerm_I lib tk ax err (fst r)) as HP.
  set (s3 := pTerm lib tk ax err (fst r)) in *.
  pose proof (iTerm_frame inp tk ax err s3) as F4.
  pose proof (dTerm_frame lib inp pidProfile tk ax (fst (snd r)) err
                (iTerm inp tk ax err s3)) as F5.
  rewrite disableOutputs_enabled;
    [| rewrite (fr_stab _ _ _ F5), (fr_stab _ _ _ F4), (fr_stab _ _ _ F3),
         (fr_stab _ _ _ F2), (fr_stab _ _ _ F1); exact Hs
     | exact Hg].
  rewrite dTerm_I.
  assert (Hold : axisPID_I s3 ax
                 = if recoveryActive tk st then 0 else axisPID_I st ax).
  { rewrite HP, HI. rewrite Hv. reflexivity. }
  assert (Hcand : ITermNew tk ax err s3
                  = constrainf
                      ((if recoveryActive tk st then 0 else axisPID_I st ax)
                       + Ki (cfg st) ax * err * dynCi tk)
                      (- itermLimit (cfg st)) (itermLimit (cfg st))).
  { unfold ITermNew. rewrite Hold.
    rewrite (fr_cfg _ _ _ F3), (fr_cfg _ _ _ F2), (fr_cfg _ _ _ F1).
    reflexivity. }
  pose proof (iTerm_cases inp tk ax err s3) as HC. cbv zeta in HC.
  rewrite Hold, Hcand in HC. exact HC.
Qed.

(** ** The rate error that the loop uses *)

Section RateError.

Variable lib : platform.
Variable inp : inputs.
Variable pidProfile : Profile.t.
Variable angleTrim : rollAndPitchTrims_t.
Variable tk : tick.

Lemma iTerm_P ax err st : axisPID_P (iTerm inp tk ax err st) = axisPID_P st.
Proof. unfold iTerm. cbv zeta. destruct (_ || _); reflexivity. Qed.

Lemma crashCheck_P ax delta err st :
  axisPID_P (crashCheck inp pidProfile tk ax delta err st) = axisPID_P st.
Proof. unfold crashCheck, leaveRecovery. stage_field. Qed.

Lemma dTerm_P ax sp err st :
  axisPID_P (dTerm lib inp pidProfile tk ax sp err st) = axisPID_P st.
Proof.
  unfold dTerm. destruct (negb (axis_eqb ax FD_YAW)); [|reflexivity].
  cbv zeta. simpl. rewrite crashCheck_P. reflexivity.
Qed.

(** While not recovering, the rate error is the setpoint of the axis minus
    the gyro rate. *)
Lemma axisErrorRate_normal ax st :
  inCrashRecoveryMode st = false ->
  axisErrorRate inp pidProfile angleTrim tk ax st
  = axisSetpoint inp pidProfile angleTrim ax st - gyroADCf inp ax.
Proof.
  intro Hn. unfold axisErrorRate. cbv zeta.
  rewrite crashRecovery_normal; [reflexivity|].
  destruct (limitedSetpoint_crashSame inp ax st) as [-> _]. exact Hn.
Qed.

(** [axisErrorRate] is the rate error of the iteration: on roll and pitch,
    with stabilisation on and no gyro overflow, the P output is
    Kp x errorRate x tpaFactor. *)
Lemma pidControllerAxis_P ax st :
  ax <> FD_YAW ->
  pidStabilisationEnabled st = true ->
  gyroOverflowDetected inp = false ->
  axisPID_P (pidControllerAxis lib inp pidProfile angleTrim tk st ax) ax
  = Kp (cfg st) ax * axisErrorRate inp pidProfile angleTrim tk ax st
    * tpaFactor tk.
Proof.
  intros Hax Hs Hg.
  unfold pidControllerAxis, axisErrorRate, axisSetpoint. cbv zeta.
  pose proof (limitedSetpoint_frame inp ax st) as F1.
  set (s1 := fst (limitedSetpoint inp ax st)) in *.
  rewrite (fr_cfg _ _ _ F1).
  set (sp := leveledSetpoint inp pidProfile angleTrim (cfg st) ax
               (snd (limitedSetpoint inp ax st))).
  pose proof (crashRecovery_frame inp pidProfile angleTrim tk ax sp
                (sp - gyroADCf inp ax) s1) as F2.
  set (r := crashRecovery inp pidProfile angleTrim tk ax sp
              (sp - gyroADCf inp ax) s1) in *.
  set (err := snd (snd r)).
  pose proof (pTerm_frame lib tk ax err (fst r)) as F3.
  pose proof (iTerm_frame inp tk ax err (pTerm lib tk ax err (fst r))) as F4.
  pose proof (dTerm_frame lib inp pidProfile tk ax (fst (snd r)) err
                (iTerm inp tk ax err (pTerm lib tk ax err (fst r)))) as F5.
  rewrite disableOutputs_enabled;
    [| rewrite (fr_stab _ _ _ F5), (fr_stab _ _ _ F4), (fr_stab _ _ _ F3),
         (fr_stab _ _ _ F2), (fr_stab _ _ _ F1); exact Hs
     | exact Hg].
  rewrite dTerm_P, iTerm_P. unfold pTerm.
  replace (axis_eqb ax FD_YAW) with false
    by (destruct ax; [reflexivity | reflexivity | contradiction]).
  cbn. rewrite upd_same, (fr_cfg _ _ _ F2), (fr_cfg _ _ _ F1). reflexivity.
Qed.

End RateError.

(** ** Leveling *)

Lemma constrainf_unit_idem (x : Q) :
  constrainf (constrainf x 0 1) 0 1 = constrainf x 0 1.
Proof. apply constrainf_idem. discriminate. Qed.

(** C9, as the code has it.  calcHorizonLevelStrength computes, with
    currentInclination the maximum of the absolute roll and pitch attitude in
    degrees: in the limited sub-mode, clamp(2 x (cutoff - inclination) /
    cutoff, 0, 1); in the expert sub-mode, clamp((cutoff - inclination) /
    cutoff, 0, 1) provided horizonTransition (the D of the level PID) is
    positive, and 0 when it is not; in either sub-mode 0 when the cutoff is
    not positive. *)
Theorem C9_horizon_strength inp c :
  let expert := negb (horizonTiltExpertMode c =? 0)%Z in
  calcHorizonLevelStrength inp c
  == if expert && negb (Qgtb (horizonTransition c) 0) then 0
     else specHorizonLevelStrength expert (horizonCutoffDegrees c)
            (inclinationDegrees inp).
Proof.
  cbv zeta. unfold calcHorizonLevelStrength, specHorizonLevelStrength.
  cbv zeta.
  destruct (negb (horizonTiltExpertMode c =? 0)%Z); cbn [andb negb].
  - destruct (Qgtb (horizonTransition c) 0); cbn [andb negb];
      [|reflexivity].
    destruct (Qgtb (horizonCutoffDegrees c) 0) eqn:E.
    + replace (Qle_bool (horizonCutoffDegrees c) 0) with false.
      * rewrite constrainf_unit_idem. reflexivity.
      * unfold Qgtb, Qltb in E. apply negb_true_iff in E. now rewrite E.
    + replace (Qle_bool (horizonCutoffDegrees c) 0) with true.
      * reflexivity.
      * unfold Qgtb, Qltb in E. apply negb_false_iff in E. now rewrite E.
  - destruct (Qgtb (horizonCutoffDegrees c) 0) eqn:E.
    + replace (Qle_bool (horizonCutoffDegrees c) 0) with false.
      * rewrite constrainf_unit_idem. apply constrainf_Qeq.
        unfold Qdiv. ring.
      * unfold Qgtb, Qltb in E. apply negb_true_iff in E. now rewrite E.
    + replace (Qle_bool (horizonCutoffDegrees c) 0) with true.
      * reflexivity.
      * unfold Qgtb, Qltb in E. apply negb_false_iff in E. now rewrite E.
Qed.

Lemma levelErrorAngle_flags flags inp ax p trim :
  levelErrorAngle (withFlightModeFlags flags inp) ax p trim
  = levelErrorAngle inp ax p trim.
Proof. reflexivity. Qed.

(** C6, as the code has it.  In horizon mode with the expert sub-mode off:
    while the inclination is below levelAngleLimit, pidLevel returns
    errorAngle x horizonGain and ignores the raw stick-rate setpoint -- the
    value of angle mode, errorAngle x levelGain, for the same inputs when
    horizonGain equals levelGain; at or beyond the limit it returns
    rawSetpoint + errorAngle x horizonGain x strength. *)
Theorem C6_limited_horizon inp c ax pidProfile angleTrim rawSetpoint :
  FLIGHT_MODE inp ANGLE_MODE = false ->
  horizonTiltExpertMode c = 0%Z ->
  let errorAngle := levelErrorAngle inp ax pidProfile angleTrim in
  let limit := inject_Z (Profile.levelAngleLimit pidProfile) in
  (inclinationDegrees inp < limit ->
     pidLevel inp c ax pidProfile angleTrim rawSetpoint
     = errorAngle * horizonGain c
     /\ (horizonGain c == levelGain c ->
         pidLevel inp c ax pidProfile angleTrim rawSetpoint
         == pidLevel (withFlightModeFlags ANGLE_MODE inp) c ax pidProfile
              angleTrim rawSetpoint))
  /\ (limit <= inclinationDegrees inp ->
      pidLevel inp c ax pidProfile angleTrim rawSetpoint
      = rawSetpoint
        + errorAngle * horizonGain c * calcHorizonLevelStrength inp c).
Proof.
  intros Hm He. cbv zeta. unfold pidLevel. cbv zeta.
  rewrite Hm, He. cbn [Z.eqb negb]. split.
  - intro Hi. apply Qltb_lt in Hi. rewrite Hi. split; [reflexivity|].
    intro Hg. change (FLIGHT_MODE (withFlightModeFlags ANGLE_MODE inp) ANGLE_MODE)
      with true. cbv iota. rewrite levelErrorAngle_flags, Hg. reflexivity.
  - intro Hi. apply Qltb_ge in Hi. rewrite Hi. reflexivity.
Qed.

(** *** The setpoint that the P output shows *)

Section SetpointOutput.

Variable lib : platform.
Variable inp : inputs.
Variable pidProfile : Profile.t.
Variable angleTrim : rollAndPitchTrims_t.
Variable tk : tick.

(** With stabilisation on, no gyro overflow and the override of lines
    458-493 not active, the P output of an iteration is
    Kp x (setpoint - gyro rate) x tpaFactor for the setpoint of line 456,
    on yaw passed through its low-pass. *)
Lemma pidControllerAxis_P_setpoint ax st :
  recoveryActive tk st = false ->
  pidStabilisationEnabled st = true ->
  gyroOverflowDetected inp = false ->
  axisPID_P (pidControllerAxis lib inp pidProfile angleTrim tk st ax) ax
  = let p := Kp (cfg st) ax
             * (axisSetpoint inp pidProfile angleTrim ax st - gyroADCf inp ax)
             * tpaFactor tk in
    if axis_eqb ax FD_YAW then
      snd (filterApply lib (ptermYawFilterApplyFn (filters st))
             (ptermYawFilter (filters st)) p)
    else p.
Proof.
  intros Hr Hs Hg.
  unfold pidControllerAxis, axisSetpoint. cbv zeta.
  pose proof (limitedSetpoint_frame inp ax st) as F1.
  destruct (limitedSetpoint_shape inp ax st) as [v Hv].
  rewrite crashRecovery_inactive
    by (rewrite limitedSetpoint_recoveryActive; exact Hr).
  cbn [fst snd].
  set (s1 := fst (limitedSetpoint inp ax st)) in *.
  rewrite (fr_cfg _ _ _ F1).
  set (sp := leveledSetpoint inp pidProfile angleTrim (cfg st) ax
               (snd (limitedSetpoint inp ax st))).
  set (err := sp - gyroADCf inp ax).
  pose proof (pTerm_frame lib tk ax err s1) as F3.
  pose proof (iTerm_frame inp tk ax err (pTerm lib tk ax err s1)) as F4.
  pose proof (dTerm_frame lib inp pidProfile tk ax sp err
                (iTerm inp tk ax err (pTerm lib tk ax err s1))) as F5.
  rewrite disableOutputs_enabled;
    [| rewrite (fr_stab _ _ _ F5), (fr_stab _ _ _ F4), (fr_stab _ _ _ F3),
         (fr_stab _ _ _ F1); exact Hs
     | exact Hg].
  rewrite dTerm_P, iTerm_P. unfold pTerm.
  assert (Hc : cfg s1 = cfg st) by apply (fr_cfg _ _ _ F1).
  assert (Hf : filters s1 = filters st) by (rewrite Hv; reflexivity).
  destruct (axis_eqb ax FD_YAW); cbn; rewrite !upd_same, Hc, ?Hf; reflexivity.
Qed.

End SetpointOutput.

(** The same over a tick that starts in Normal: the iteration of each axis
    finds the configuration, the previous setpoint of its axis and the yaw
    low-pass as they were at the start of the tick. *)
Lemma pidController_P_setpoint lib inp pidProfile angleTrim now st a :
  inCrashRecoveryMode st = false ->
  (0 <= crashTimeDelayUs (cfg st))%Z ->
  pidStabilisationEnabled st = true ->
  gyroOverflowDetected inp = false ->
  axisPID_P (pidController lib inp pidProfile angleTrim now st) a
  = let p := Kp (cfg st) a
             * (axisSetpoint inp pidProfile angleTrim a st - gyroADCf inp a)
             * getThrottlePIDAttenuation inp in
    if axis_eqb a FD_YAW then
      snd (filterApply lib (ptermYawFilterApplyFn (filters st))
             (ptermYawFilter (filters st)) p)
    else p.
Proof.
  intros Hn Hd Hs Hg. rewrite pidController_steps.
  remember (tickValues inp now st) as tk eqn:Etk.
  assert (Htk : tpaFactor tk = getThrottlePIDAttenuation inp)
    by (subst tk; reflexivity).
  assert (N0 : notYetActive tk (set_previousTimeUs now st)) by (left; exact Hn).
  clear Etk.
  remember (set_previousTimeUs now st) as s0 eqn:E0.
  assert (A0 : cfg s0 = cfg st
               /\ pidStabilisationEnabled s0 = pidStabilisationEnabled st
               /\ filters s0 = filters st
               /\ previousSetpoint s0 = previousSetpoint st)
    by (subst s0; repeat split).
  clear E0. destruct A0 as (C0 & S0 & F0 & P0).
  pose proof (pidControllerAxis_frame lib inp pidProfile angleTrim tk FD_ROLL s0)
    as F1.
  destruct (pidControllerAxis_filters lib inp pidProfile angleTrim tk FD_ROLL s0)
    as (G1 & _ & G1y).
  cbv zeta in G1, G1y. specialize (G1y ltac:(discriminate)).
  assert (N1 : notYetActive tk
                 (pidControllerAxis lib inp pidProfile angleTrim tk s0 FD_ROLL))
    by (apply pidControllerAxis_notYetActive; [rewrite C0; exact Hd | exact N0]).
  remember (pidControllerAxis lib inp pidProfile angleTrim tk s0 FD_ROLL) as s1
    eqn:E1.
  assert (C1 : cfg s1 = cfg st) by (rewrite (fr_cfg _ _ _ F1); exact C0).
  pose proof (pidControllerAxis_frame lib inp pidProfile angleTrim tk FD_PITCH s1)
    as F2.
  destruct (pidControllerAxis_filters lib inp pidProfile angleTrim tk FD_PITCH s1)
    as (G2 & _ & G2y).
  cbv zeta in G2, G2y. specialize (G2y ltac:(discriminate)).
  assert (N2 : notYetActive tk
                 (pidControllerAxis lib inp pidProfile angleTrim tk s1 FD_PITCH))
    by (apply pidControllerAxis_notYetActive; [rewrite C1; exact Hd | exact N1]).
  remember (pidControllerAxis lib inp pidProfile angleTrim tk s1 FD_PITCH) as s2
    eqn:E2.
  assert (C2 : cfg s2 = cfg st) by (rewrite (fr_cfg _ _ _ F2); exact C1).
  pose proof (pidControllerAxis_frame lib inp pidProfile angleTrim tk FD_YAW s2)
    as F3.
  assert (S1 : pidStabilisationEnabled s1 = true)
    by (rewrite (fr_stab _ _ _ F1), S0; exact Hs).
  assert (S2 : pidStabilisationEnabled s2 = true)
    by (rewrite (fr_stab _ _ _ F2); exact S1).
  assert (S0' : pidStabilisationEnabled s0 = true) by (rewrite S0; exact Hs).
  assert (Hsp : forall s, cfg s = cfg st ->
                  previousSetpoint s a = previousSetpoint st a ->
                  axisSetpoint inp pidProfile angleTrim a s
                  = axisSetpoint inp pidProfile angleTrim a st).
  { intros s Hc Hp.
    apply (axisSetpoint_axis inp pidProfile angleTrim a st s Hc Hp). }
  cbv zeta.
  destruct a; cbn [axis_eqb].
  - (* roll: written by the first iteration *)
    rewrite (fr_P _ _ _ F3 FD_ROLL ltac:(discriminate)).
    rewrite (fr_P _ _ _ F2 FD_ROLL ltac:(discriminate)).
    subst s1.
    rewrite pidControllerAxis_P_setpoint;
      [| apply notYetActive_inactive; [rewrite C0; exact Hd | exact N0]
       | exact S0' | exact Hg].
    cbv zeta. cbn [axis_eqb].
    rewrite C0, Htk, Hsp by (try exact C0; rewrite P0; reflexivity).
    reflexivity.
  - (* pitch *)
    rewrite (fr_P _ _ _ F3 FD_PITCH ltac:(discriminate)).
    subst s2.
    rewrite pidControllerAxis_P_setpoint;
      [| apply notYetActive_inactive; [rewrite C1; exact Hd | exact N1]
       | exact S1 | exact Hg].
    cbv zeta. cbn [axis_eqb].
    rewrite C1, Htk, Hsp;
      [reflexivity | exact C1
       | rewrite (fr_setpoint _ _ _ F1 FD_PITCH ltac:(discriminate)), P0;
         reflexivity].
  - (* yaw *)
    rewrite pidControllerAxis_P_setpoint;
      [| apply notYetActive_inactive; [rewrite C2; exact Hd | exact N2]
       | exact S2 | exact Hg].
    cbv zeta. cbn [axis_eqb].
    assert (Hfn : ptermYawFilterApplyFn (filters s2)
                  = ptermYawFilterApplyFn (filters st)).
    { unfold filterFns in G1, G2. injection G1 as _ _ X1.
      injection G2 as _ _ X2. rewrite X2, X1, F0. reflexivity. }
    rewrite Hfn, G2y, G1y, F0, C2, Htk, Hsp;
      [reflexivity | exact C2
       | rewrite (fr_setpoint _ _ _ F2 FD_YAW ltac:(discriminate)),
                 (fr_setpoint _ _ _ F1 FD_YAW ltac:(discriminate)), P0;
         reflexivity].
Qed.

(** C10.  In horizon mode (the horizon flag set, the angle flag clear) the
    leveling of pidLevel is applied to roll only; in angle mode (the angle
    flag set, the horizon flag clear) to roll and pitch; never to yaw.  Over
    a tick of pidController that starts in Normal with stabilisation on and
    no gyro overflow, the P output of an axis -- Kp x (setpoint - gyro rate)
    x tpaFactor, on yaw passed through its low-pass -- is computed from the
    result of pidLevel on the axes that are leveled and from the
    (acceleration-limited) raw setpoint on every other axis. *)
Theorem C10_leveling_axes lib inp pidProfile angleTrim now st a :
  inCrashRecoveryMode st = false ->
  (0 <= crashTimeDelayUs (cfg st))%Z ->
  pidStabilisationEnabled st = true ->
  gyroOverflowDetected inp = false ->
  let st' := pidController lib inp pidProfile angleTrim now st in
  let raw := snd (limitedSetpoint inp a st) in
  let leveled := pidLevel inp (cfg st) a pidProfile angleTrim raw in
  let P setpoint :=
    Kp (cfg st) a * (setpoint - gyroADCf inp a)
    * getThrottlePIDAttenuation inp in
  let yawP setpoint :=
    snd (filterApply lib (ptermYawFilterApplyFn (filters st))
           (ptermYawFilter (filters st)) (P setpoint)) in
  (a = FD_YAW -> axisPID_P st' a = yawP raw)
  /\ (FLIGHT_MODE inp HORIZON_MODE = true ->
      FLIGHT_MODE inp ANGLE_MODE = false ->
      (a = FD_PITCH -> axisPID_P st' a = P raw)
      /\ (a = FD_ROLL -> axisPID_P st' a = P leveled))
  /\ (FLIGHT_MODE inp ANGLE_MODE = true ->
      FLIGHT_MODE inp HORIZON_MODE = false ->
      a <> FD_YAW -> axisPID_P st' a = P leveled)
  /\ (FLIGHT_MODE inp HORIZON_MODE = false ->
      FLIGHT_MODE inp ANGLE_MODE = false ->
      a <> FD_YAW -> axisPID_P st' a = P raw).
Proof.
  intros Hn Hd Hs Hg. cbv zeta.
  rewrite (pidController_P_setpoint lib inp pidProfile angleTrim now st a
             Hn Hd Hs Hg).
  cbv zeta. unfold axisSetpoint, leveledSetpoint. cbv zeta.
  split; [|split; [|split]].
  - intros ->. cbn [axis_eqb YAW negb andb]. rewrite !andb_false_r.
    reflexivity.
  - intros Hh Ha. rewrite Hh, Ha. split; intros ->; reflexivity.
  - intros Ha Hh Hax. rewrite Ha, Hh.
    destruct a; [reflexivity | reflexivity | contradiction].
  - intros Hh Ha Hax. rewrite Ha, Hh.
    destruct a; [reflexivity | reflexivity | contradiction].
Qed.

(** ** The filter chain *)

Lemma Qtrunc_floor (x : Q) : 0 <= x -> Qtrunc x = Qfloor x.
Proof.
  destruct x as [n d]. unfold Qle, Qtrunc, Qfloor. simpl. intro H.
  apply Z.quot_div_nonneg; lia.
Qed.

Lemma Qtrunc_le (x : Q) : 0 <= x -> inject_Z (Qtrunc x) <= x.
Proof. intro H. rewrite Qtrunc_floor by exact H. apply Qfloor_le. Qed.

Lemma Qtrunc_nonneg (x : Q) : 0 <= x -> (0 <= Qtrunc x)%Z.
Proof.
  intro H. rewrite Qtrunc_floor by exact H.
  change 0%Z with (Qfloor 0). apply Qfloor_resp_le, H.
Qed.

(** *** Binary32 rounding *)

Lemma Qpow2_pos (e : Z) : 0 < 2 ^ e.
Proof. apply Qpower_0_lt. reflexivity. Qed.

(** [2 ^ Qlog2 x <= x] *)
Lemma Qlog2_le (x : Q) : 0 < x -> 2 ^ Qlog2 x <= x.
Proof.
  intro Hx. unfold Qlog2. cbv zeta.
  destruct (Qle_bool (2 ^ (Z.log2 (Qnum x) - Z.log2 (Z.pos (Qden x)))) x) eqn:E.
  - apply Qle_bool_iff, E.
  - clear E. destruct x as [n d]. cbn [Qnum Qden].
    assert (Hn : (0 < n)%Z) by (unfold Qlt in Hx; simpl in Hx; lia).
    destruct (Z.log2_spec n Hn) as [Ha _].
    destruct (Z.log2_spec (Z.pos d) (Pos2Z.is_pos d)) as [_ Hb].
    pose proof (Z.log2_nonneg n) as Ha0.
    pose proof (Z.log2_nonneg (Z.pos d)) as Hb0.
    set (a := Z.log2 n) in *. set (b := Z.log2 (Z.pos d)) in *.
    replace (a - b - 1)%Z with (a - Z.succ b)%Z by lia.
    rewrite Qpower_minus by discriminate.
    change 2 with (inject_Z 2).
    rewrite <- !Zpower_Qpower by lia.
    assert (HB : (0 < 2 ^ Z.succ b)%Z) by (apply Z.pow_pos_nonneg; lia).
    apply Qle_shift_div_r.
    + change 0 with (inject_Z 0). rewrite <- Zlt_Qlt. exact HB.
    + unfold Qle, Qmult, inject_Z. cbn [Qnum Qden].
      rewrite Pos.mul_1_r, Z.mul_1_r. nia.
Qed.

Lemma Qrne_close (x : Q) :
  x - (1 # 2) <= inject_Z (Qrne x) <= x + (1 # 2).
Proof.
  pose proof (Qfloor_le x) as H1. pose proof (Qlt_floor x) as H2.
  rewrite inject_Z_plus in H2. change (inject_Z 1) with 1 in H2.
  unfold Qrne. cbv zeta.
  destruct (Qltb (x - inject_Z (Qfloor x)) (1 # 2)) eqn:E1.
  - apply Qltb_lt in E1. split; lra.
  - destruct (Qltb (1 # 2) (x - inject_Z (Qfloor x))) eqn:E2.
    + apply Qltb_lt in E2. rewrite inject_Z_plus. change (inject_Z 1) with 1.
      split; lra.
    + assert (H3 : ~ x - inject_Z (Qfloor x) < 1 # 2)
        by (rewrite <- Qltb_lt; congruence).
      assert (H4 : ~ (1 # 2) < x - inject_Z (Qfloor x))
        by (rewrite <- Qltb_lt; congruence).
      apply Qnot_lt_le in H3, H4.
      destruct (Z.even (Qfloor x)).
      * split; lra.
      * rewrite inject_Z_plus. change (inject_Z 1) with 1. split; lra.
Qed.

(** One rounding moves a positive value by at most a factor [1 +- 2^-24]. *)
Lemma round32_bounds (x : Q) :
  0 < x ->
  x * (1 - (1 # 16777216)) <= round32 x <= x * (1 + (1 # 16777216)).
Proof.
  intro Hx. unfold round32.
  destruct x as [n d]. cbn [Qnum].
  destruct n as [|p|p]; try (unfold Qlt in Hx; simpl in Hx; lia).
  cbv zeta.
  set (x := Z.pos p # d) in *.
  set (e := (Qlog2 x - 23)%Z).
  pose proof (Qpow2_pos e) as HP.
  pose proof (Qrne_close (x / 2 ^ e)) as [Hlo Hhi].
  assert (Hu : 2 ^ e * 8388608 <= x).
  { apply Qle_trans with (2 ^ Qlog2 x); [|apply Qlog2_le, Hx].
    replace (Qlog2 x) with (e + 23)%Z by (unfold e; lia).
    rewrite Qpower_plus by discriminate. apply Qle_refl. }
  assert (Hy : x / 2 ^ e * 2 ^ e == x).
  { field. intro H. rewrite H in HP. discriminate HP. }
  set (P := 2 ^ e) in *. set (y := x / P) in *.
  set (m := inject_Z (Qrne y)) in *.
  assert (A : (y - (1 # 2)) * P <= m * P)
    by (apply Qmult_le_compat_r; [exact Hlo | apply Qlt_le_weak, HP]).
  assert (B : m * P <= (y + (1 # 2)) * P)
    by (apply Qmult_le_compat_r; [exact Hhi | apply Qlt_le_weak, HP]).
  setoid_replace ((y - (1 # 2)) * P) with (y * P - (1 # 2) * P) in A by ring.
  setoid_replace ((y + (1 # 2)) * P) with (y * P + (1 # 2) * P) in B by ring.
  rewrite Hy in A, B.
  set (mP := m * P) in *.
  split; lra.
Qed.

Lemma round32_pos (x : Q) : 0 < x -> 0 < round32 x.
Proof.
  intro Hx. destruct (round32_bounds x Hx) as [H _].
  apply Qlt_le_trans with (2 := H).
  apply Qmult_lt_0_compat; [exact Hx | reflexivity].
Qed.

Lemma round32_le (x b : Q) :
  0 < x -> x <= b -> round32 x <= b * (1 + (1 # 16777216)).
Proof.
  intros Hx Hb. destruct (round32_bounds x Hx) as [_ H].
  apply Qle_trans with (1 := H).
  apply Qmult_le_compat_r; [exact Hb | discriminate].
Qed.

Lemma round32_ge (x b : Q) :
  0 < x -> b <= x -> b * (1 - (1 # 16777216)) <= round32 x.
Proof.
  intros Hx Hb. destruct (round32_bounds x Hx) as [H _].
  apply Qle_trans with (2 := H).
  apply Qmult_le_compat_r; [exact Hb | discriminate].
Qed.

Lemma Qinv_le (x y : Q) : 0 < x -> x <= y -> / y <= / x.
Proof.
  intros Hx Hy.
  assert (Hy0 : 0 < y) by (apply Qlt_le_trans with (1 := Hx); exact Hy).
  apply Qle_shift_inv_r; [exact Hy0|].
  setoid_replace (/ x * y) with (y / x) by (unfold Qdiv; ring).
  apply Qle_shift_div_l; [exact Hx | lra].
Qed.

(** *** The Nyquist frequency *)

(** The integer Nyquist frequency of pid.c is the Nyquist frequency of the
    loop time, [500000 / targetPidLooptime] Hz, rounded down, or one below
    it: the roundings of the three float operations cannot lift the value
    over the next integer, but they can leave it just below one. *)
Lemma pidFrequencyNyquist_bounds st :
  (0 < targetPidLooptime st)%Z ->
  (0 <= pidFrequencyNyquist st)%Z
  /\ (500000 / targetPidLooptime st - 1 <= pidFrequencyNyquist st)%Z
  /\ (pidFrequencyNyquist st <= 500000 / targetPidLooptime st)%Z.
Proof.
  intro HL. unfold pidFrequencyNyquist, dT_binary32.
  set (L := targetPidLooptime st) in *.
  set (a := inject_Z L).
  assert (Ha : 0 < a) by (unfold a; change 0 with (inject_Z 0); now rewrite <- Zlt_Qlt).
  set (hi := 1 + (1 # 16777216)). set (lo := 1 - (1 # 16777216)).
  set (c := round32 (1 # 1000000)).
  assert (Hc : (999999997 # 1000000000000000) <= c <= (1 # 1000000))
    by (unfold c; vm_compute; split; intro X; discriminate X).
  destruct Hc as [Hc1 Hc2].
  assert (Hc0 : 0 < c) by lra.
  (* the looptime as a float *)
  pose proof (round32_pos a Ha) as R0.
  pose proof (round32_le a a Ha (Qle_refl a)) as R1.
  pose proof (round32_ge a a Ha (Qle_refl a)) as R2.
  set (r := round32 a) in *. fold hi in R1. fold lo in R2.
  (* dT *)
  assert (P0 : 0 < r * c) by (apply Qmult_lt_0_compat; assumption).
  assert (P1 : r * c <= a * hi * (1 # 1000000)).
  { apply Qle_trans with (r * (1 # 1000000)).
    - apply Qmult_le_l; assumption.
    - apply Qmult_le_compat_r; [exact R1 | discriminate]. }
  assert (P2 : a * lo * (999999997 # 1000000000000000) <= r * c).
  { apply Qle_trans with (r * (999999997 # 1000000000000000)).
    - apply Qmult_le_compat_r; [exact R2 | discriminate].
    - apply Qmult_le_l; assumption. }
  pose proof (round32_pos _ P0) as D0.
  pose proof (round32_le _ _ P0 P1) as D1.
  pose proof (round32_ge _ _ P0 P2) as D2.
  set (dT := round32 (r * c)) in *. fold hi in D1. fold lo in D2.
  (* 1.0f / dT *)
  assert (I0 : 0 < 1 / dT).
  { unfold Qdiv. rewrite Qmult_1_l. apply Qinv_lt_0_compat, D0. }
  assert (K2 : 0 < a * lo * (999999997 # 1000000000000000) * lo).
  { repeat apply Qmult_lt_0_compat; try exact Ha; reflexivity. }
  assert (I1 : 1 / dT <= / (a * lo * (999999997 # 1000000000000000) * lo)).
  { unfold Qdiv. rewrite Qmult_1_l. apply Qinv_le; assumption. }
  assert (I2 : / (a * hi * (1 # 1000000) * hi) <= 1 / dT).
  { unfold Qdiv. rewrite Qmult_1_l. apply Qinv_le; assumption. }
  pose proof (round32_pos _ I0) as Y0.
  pose proof (round32_le _ _ I0 I1) as Y1.
  pose proof (round32_ge _ _ I0 I2) as Y2.
  set (y := round32 (1 / dT)) in *. fold hi in Y1. fold lo in Y2.
  (* ... / 2 *)
  assert (H0 : 0 < y / 2).
  { unfold Qdiv. apply Qmult_lt_0_compat; [exact Y0 | reflexivity]. }
  assert (H1 : y / 2
               <= / (a * lo * (999999997 # 1000000000000000) * lo) * hi / 2).
  { unfold Qdiv. apply Qmult_le_compat_r; [exact Y1 | discriminate]. }
  assert (H2 : / (a * hi * (1 # 1000000) * hi) * lo / 2 <= y / 2).
  { unfold Qdiv. apply Qmult_le_compat_r; [exact Y2 | discriminate]. }
  pose proof (round32_pos _ H0) as Z0.
  pose proof (round32_le _ _ H0 H1) as Z1.
  pose proof (round32_ge _ _ H0 H2) as Z2.
  set (z := round32 (y / 2)) in *. fold hi in Z1. fold lo in Z2.
  (* in terms of the looptime *)
  assert (Hane : ~ a == 0) by (intro X; rewrite X in Ha; discriminate Ha).
  assert (U : z * a <= 1000001 # 2).
  { apply Qle_trans with
      (/ (a * lo * (999999997 # 1000000000000000) * lo) * hi / 2 * hi * a).
    - apply Qmult_le_compat_r; [exact Z1 | apply Qlt_le_weak, Ha].
    - setoid_replace
        (/ (a * lo * (999999997 # 1000000000000000) * lo) * hi / 2 * hi * a)
        with (hi * hi / (2 * lo * lo * (999999997 # 1000000000000000)))
        by (unfold lo, hi; field; exact Hane).
      unfold lo, hi. vm_compute. intro X; discriminate X. }
  assert (V : 999999 # 2 <= z * a).
  { apply Qle_trans with
      (/ (a * hi * (1 # 1000000) * hi) * lo / 2 * lo * a).
    - setoid_replace
        (/ (a * hi * (1 # 1000000) * hi) * lo / 2 * lo * a)
        with (lo * lo / (2 * hi * hi * (1 # 1000000)))
        by (unfold lo, hi; field; exact Hane).
      unfold lo, hi. vm_compute. intro X; discriminate X.
    - apply Qmult_le_compat_r; [exact Z2 | apply Qlt_le_weak, Ha]. }
  (* the conversion to uint32_t *)
  rewrite Qtrunc_floor by (apply Qlt_le_weak, Z0).
  pose proof (Qfloor_le z) as F1. pose proof (Qlt_floor z) as F2.
  set (k := Qfloor z) in *.
  assert (F3 : inject_Z (k * L) <= 1000001 # 2).
  { rewrite inject_Z_mult. fold a.
    apply Qle_trans with (2 := U).
    apply Qmult_le_compat_r; [exact F1 | apply Qlt_le_weak, Ha]. }
  assert (F4 : 999999 # 2 < inject_Z ((k + 1) * L)).
  { rewrite inject_Z_mult. fold a.
    apply Qle_lt_trans with (1 := V).
    apply Qmult_lt_compat_r; [exact Ha | exact F2]. }
  unfold Qle in F3. unfold Qlt in F4. cbn in F3, F4.
  split; [|split].
  - change 0%Z with (Qfloor 0). apply Qfloor_resp_le, Qlt_le_weak, Z0.
  - assert (500000 / L <= k + 1)%Z; [|lia].
    apply Z.div_le_upper_bound; lia.
  - apply Z.div_le_lower_bound; lia.
Qed.

(** ... and so at most [0.5 / dT], the Nyquist frequency of the tick
    period. *)
Lemma pidFrequencyNyquist_le looptime st0 :
  (0 < looptime)%Z ->
  inject_Z (pidFrequencyNyquist (pidSetTargetLooptime looptime st0))
  <= (1 # 2) / dT (pidSetTargetLooptime looptime st0).
Proof.
  intro Hl.
  destruct (pidFrequencyNyquist_bounds (pidSetTargetLooptime looptime st0) Hl)
    as (_ & _ & Hk).
  set (k := pidFrequencyNyquist (pidSetTargetLooptime looptime st0)) in *.
  cbn [targetPidLooptime pidSetTargetLooptime set_targetPidLooptime set_dT dT]
    in *.
  assert (Hm : (k * looptime <= 500000)%Z).
  { pose proof (Z.mul_div_le 500000 looptime Hl). nia. }
  assert (Ha : 0 < inject_Z looptime)
    by (change 0 with (inject_Z 0); now rewrite <- Zlt_Qlt).
  apply Qle_shift_div_l.
  - apply Qmult_lt_0_compat; [exact Ha | reflexivity].
  - rewrite Qmult_assoc, <- inject_Z_mult.
    assert (Hq : inject_Z (k * looptime) <= 500000)
      by (change 500000 with (inject_Z 500000); now rewrite <- Zle_Qle).
    lra.
Qed.

Lemma dTermNotchHz_le p nyquist :
  (0 <= nyquist)%Z -> (dTermNotchHz p nyquist <= nyquist)%Z.
Proof.
  intro H. unfold dTermNotchHz.
  destruct (Z.leb_spec (Profile.dterm_notch_hz p) nyquist); [assumption|].
  destruct (Profile.dterm_notch_cutoff p <? nyquist)%Z; [|assumption].
  apply Z.mod_le; lia.
Qed.

(** *** Which stages pidInitFilters activates *)

Section FilterSelection.

Variable lib : platform.
Variable pidProfile : Profile.t.
Variable st : pidState.
Hypothesis looptime_set : targetPidLooptime st <> 0%Z.

Let nyquist := pidFrequencyNyquist st.

Lemma pidInitFilters_lpf_kind :
  dtermLpfApplyFn (filters (pidInitFilters lib pidProfile st))
  = if (Profile.dterm_lpf_hz pidProfile =? 0)%Z
       || (Profile.dterm_lpf_hz pidProfile >? nyquist)%Z then nullFilterApply
    else if (Profile.dterm_filter_type pidProfile =? FILTER_PT1)%Z
         then pt1FilterApply
    else if (Profile.dterm_filter_type pidProfile =? FILTER_BIQUAD)%Z
         then biquadFilterApply
    else if (Profile.dterm_filter_type pidProfile =? FILTER_FIR)%Z
         then firFilterDenoiseUpdate
    else nullFilterApply.
Proof.
  unfold pidInitFilters, nyquist. apply Z.eqb_neq in looptime_set.
  rewrite looptime_set. cbv zeta.
  repeat match goal with
         | |- context [if ?b then _ else _] => destruct b
         end; reflexivity.
Qed.

Lemma pidInitFilters_yaw_kind :
  ptermYawFilterApplyFn (filters (pidInitFilters lib pidProfile st))
  = if (Profile.yaw_lpf_hz pidProfile =? 0)%Z
       || (Profile.yaw_lpf_hz pidProfile >? nyquist)%Z then nullFilterApply
    else pt1FilterApply.
Proof.
  unfold pidInitFilters, nyquist. apply Z.eqb_neq in looptime_set.
  rewrite looptime_set. cbv zeta.
  repeat match goal with
         | |- context [if ?b then _ else _] => destruct b
         end; reflexivity.
Qed.

Lemma pidInitFilters_notch_kind :
  dtermNotchFilterApplyFn (filters (pidInitFilters lib pidProfile st))
  = if negb (dTermNotchHz pidProfile nyquist =? 0)%Z
       && negb (Profile.dterm_notch_cutoff pidProfile =? 0)%Z
    then biquadFilterApply else nullFilterApply.
Proof.
  unfold pidInitFilters, nyquist. apply Z.eqb_neq in looptime_set.
  rewrite looptime_set. cbv zeta.
  repeat match goal with
         | |- context [if ?b then _ else _] => destruct b
         end; reflexivity.
Qed.

End FilterSelection.

Lemma pidInitFilters_active lib pidProfile st :
  targetPidLooptime st <> 0%Z ->
  let nyquist := pidFrequencyNyquist st in
  let st' := pidInitFilters lib pidProfile st in
  (dtermLpfApplyFn (filters st') <> nullFilterApply <->
   Profile.dterm_lpf_hz pidProfile <> 0%Z
   /\ (Profile.dterm_lpf_hz pidProfile <= nyquist)%Z
   /\ (Profile.dterm_filter_type pidProfile = FILTER_PT1
       \/ Profile.dterm_filter_type pidProfile = FILTER_BIQUAD
       \/ Profile.dterm_filter_type pidProfile = FILTER_FIR))
  /\ (ptermYawFilterApplyFn (filters st') <> nullFilterApply <->
      Profile.yaw_lpf_hz pidProfile <> 0%Z
      /\ (Profile.yaw_lpf_hz pidProfile <= nyquist)%Z)
  /\ (dtermNotchFilterApplyFn (filters st') <> nullFilterApply <->
      dTermNotchHz pidProfile nyquist <> 0%Z
      /\ Profile.dterm_notch_cutoff pidProfile <> 0%Z).
Proof.
  intro Hl. cbv zeta.
  rewrite (pidInitFilters_lpf_kind lib pidProfile st Hl),
    (pidInitFilters_yaw_kind lib pidProfile st Hl),
    (pidInitFilters_notch_kind lib pidProfile st Hl).
  split; [|split].
  - destruct (Z.eqb_spec (Profile.dterm_lpf_hz pidProfile) 0);
      destruct (Z.gtb_spec (Profile.dterm_lpf_hz pidProfile)
                  (pidFrequencyNyquist st)); cbn [orb];
      try (split; [intro X; exfalso; apply X; reflexivity
                  | intros (? & ? & _); exfalso; lia]).
    destruct (Z.eqb_spec (Profile.dterm_filter_type pidProfile) FILTER_PT1);
      [split; [intros _; repeat split; auto; lia | discriminate]|].
    destruct (Z.eqb_spec (Profile.dterm_filter_type pidProfile) FILTER_BIQUAD);
      [split; [intros _; repeat split; auto; lia | discriminate]|].
    destruct (Z.eqb_spec (Profile.dterm_filter_type pidProfile) FILTER_FIR);
      [split; [intros _; repeat split; auto; lia | discriminate]|].
    split; [intro X; exfalso; apply X; reflexivity|].
    intros (_ & _ & [X | [X | X]]); contradiction.
  - destruct (Z.eqb_spec (Profile.yaw_lpf_hz pidProfile) 0);
      destruct (Z.gtb_spec (Profile.yaw_lpf_hz pidProfile)
                  (pidFrequencyNyquist st)); cbn [orb];
      try (split; [intro X; exfalso; apply X; reflexivity
                  | intros (? & ?); exfalso; lia]).
    split; [intros _; split; [assumption | lia] | discriminate].
  - destruct (Z.eqb_spec (dTermNotchHz pidProfile (pidFrequencyNyquist st)) 0);
      destruct (Z.eqb_spec (Profile.dterm_notch_cutoff pidProfile) 0);
      cbn [negb andb];
      try (split; [intro X; exfalso; apply X; reflexivity
                  | intros (? & ?); contradiction]).
    split; [intros _; split; assumption | discriminate].
Qed.

(** C7, as the code has it.  For every profile and every non-zero tick
    period, pidInitFilters compares a cutoff with the integer
    pidFrequencyNyquist, the binary32 value of (1.0f / dT) / 2 truncated,
    which is at most the Nyquist frequency 0.5/dT of the tick period
    dT = looptime x 10^-6 s.  The D-term low-pass is
    active exactly when its cutoff is non-zero and at most that integer and
    its type is PT1, BIQUAD or FIR; the yaw P-term low-pass exactly when its
    cutoff is non-zero and at most that integer; the D-term notch exactly
    when its notch cutoff is non-zero and its centre frequency, after the
    clamp of lines 199-208, is non-zero, and that centre frequency is at
    most the integer.  No stage is active with a cutoff above 0.5/dT, and a
    cutoff equal to it is accepted where the integer reaches it. *)
Theorem C7_filters_within_nyquist lib pidProfile looptime st0 :
  (0 < looptime < 2 ^ 32)%Z ->
  let configured := pidSetTargetLooptime looptime st0 in
  let st := pidInitFilters lib pidProfile configured in
  let nyquist := (1 # 2) / dT configured in
  let nyquistHz := pidFrequencyNyquist configured in
  let notchHz := dTermNotchHz pidProfile nyquistHz in
  inject_Z nyquistHz <= nyquist
  /\ (dtermLpfApplyFn (filters st) <> nullFilterApply <->
      Profile.dterm_lpf_hz pidProfile <> 0%Z
      /\ (Profile.dterm_lpf_hz pidProfile <= nyquistHz)%Z
      /\ (Profile.dterm_filter_type pidProfile = FILTER_PT1
          \/ Profile.dterm_filter_type pidProfile = FILTER_BIQUAD
          \/ Profile.dterm_filter_type pidProfile = FILTER_FIR))
  /\ (ptermYawFilterApplyFn (filters st) <> nullFilterApply <->
      Profile.yaw_lpf_hz pidProfile <> 0%Z
      /\ (Profile.yaw_lpf_hz pidProfile <= nyquistHz)%Z)
  /\ (dtermNotchFilterApplyFn (filters st) <> nullFilterApply <->
      notchHz <> 0%Z /\ Profile.dterm_notch_cutoff pidProfile <> 0%Z)
  /\ (notchHz <= nyquistHz)%Z
  /\ (forall hz : Z,
        nyquist < inject_Z hz ->
        (Profile.dterm_lpf_hz pidProfile = hz ->
         dtermLpfApplyFn (filters st) = nullFilterApply)
        /\ (Profile.yaw_lpf_hz pidProfile = hz ->
            ptermYawFilterApplyFn (filters st) = nullFilterApply)
        /\ notchHz <> hz).
Proof.
  intros [Hl Hu]. cbv zeta.
  set (s := pidSetTargetLooptime looptime st0).
  assert (Hs : targetPidLooptime s <> 0%Z) by (unfold s; simpl; lia).
  assert (Hp : (0 < targetPidLooptime s)%Z) by (unfold s; simpl; lia).
  pose proof (pidFrequencyNyquist_le looptime st0 Hl) as Hn. fold s in Hn.
  destruct (pidFrequencyNyquist_bounds s Hp) as (Hn0 & _).
  destruct (pidInitFilters_active lib pidProfile s Hs) as (A & B & C).
  cbv zeta in A, B, C.
  pose proof (dTermNotchHz_le pidProfile (pidFrequencyNyquist s) Hn0) as Hc.
  split; [exact Hn|]. split; [exact A|]. split; [exact B|].
  split; [exact C|]. split; [exact Hc|].
  intros hz Hhz.
  assert (Hgt : (pidFrequencyNyquist s < hz)%Z).
  { rewrite Zlt_Qlt. apply Qle_lt_trans with (1 := Hn). exact Hhz. }
  split; [|split].
  - intro E.
    destruct (dtermLpfApplyFn (filters (pidInitFilters lib pidProfile s)));
      [reflexivity | exfalso..];
      (destruct (proj1 A) as (_ & X & _); [discriminate | lia]).
  - intro E.
    destruct (ptermYawFilterApplyFn (filters (pidInitFilters lib pidProfile s)));
      [reflexivity | exfalso..];
      (destruct (proj1 B) as (_ & X); [discriminate | lia]).
  - lia.
Qed.

(** * Worked examples *)

Lemma exampleState_reachable : reachable exampleLib exampleState.
Proof.
  apply reach_pidStabilisationState, reach_pidInit;
    [apply reach_start | reflexivity].
Qed.


(** Without the zeroing of lines 554-559 the tick of [exampleInputs] gives a
    P output on roll: Kp x 100 = 1.28116 x 100. *)
Example p_first_tick :
  axisPID_P
    (pidController exampleLib exampleInputs resetPidProfile exampleTrim 1000
       exampleState) FD_ROLL == 128116 # 1000.
Proof. vm_compute. reflexivity. Qed.

(** The same tick with stabilisation switched off, and the tick of
    [overflowInputs] with stabilisation on: all four outputs are zero. *)
Lemma C4_disabled_outputs_zero_witness :
  pidStabilisationEnabled
    (pidStabilisationState PID_STABILISATION_OFF exampleState) = false
  /\ gyroOverflowDetected overflowInputs = true
  /\ pidStabilisationEnabled exampleState = true
  /\ (forall a,
        axisPID_P (pidController exampleLib exampleInputs resetPidProfile
                     exampleTrim 1000
                     (pidStabilisationState PID_STABILISATION_OFF exampleState))
          a = 0
        /\ axisPID_I (pidController exampleLib exampleInputs resetPidProfile
                        exampleTrim 1000
                        (pidStabilisationState PID_STABILISATION_OFF
                           exampleState)) a = 0
        /\ axisPID_D (pidController exampleLib exampleInputs resetPidProfile
                        exampleTrim 1000
                        (pidStabilisationState PID_STABILISATION_OFF
                           exampleState)) a = 0
        /\ axisPIDSum (pidController exampleLib exampleInputs resetPidProfile
                         exampleTrim 1000
                         (pidStabilisationState PID_STABILISATION_OFF
                            exampleState)) a = 0)
  /\ (forall a,
        axisPID_P (pidController exampleLib overflowInputs resetPidProfile
                     exampleTrim 1000 exampleState) a = 0
        /\ axisPID_I (pidController exampleLib overflowInputs resetPidProfile
                        exampleTrim 1000 exampleState) a = 0
        /\ axisPID_D (pidController exampleLib overflowInputs resetPidProfile
                        exampleTrim 1000 exampleState) a = 0
        /\ axisPIDSum (pidController exampleLib overflowInputs resetPidProfile
                         exampleTrim 1000 exampleState) a = 0).
Proof.
  assert (H1 : pidStabilisationEnabled
                 (pidStabilisationState PID_STABILISATION_OFF exampleState)
               = false) by reflexivity.
  assert (H2 : gyroOverflowDetected overflowInputs = true) by reflexivity.
  split; [exact H1|]. split; [exact H2|]. split; [reflexivity|].
  split.
  - exact (C4_disabled_outputs_zero exampleLib exampleInputs resetPidProfile
             exampleTrim 1000
             (pidStabilisationState PID_STABILISATION_OFF exampleState)
             (or_introl H1)).
  - exact (C4_disabled_outputs_zero exampleLib overflowInputs resetPidProfile
             exampleTrim 1000 exampleState (or_intror H2)).
Defined.

(** The yaw setpoint steps from 0 to 300 deg/s: the limiter accepts 10. *)
Example yaw_step_limited :
  previousSetpoint
    (pidController exampleLib yawStepInputs resetPidProfile exampleTrim 1000
       exampleState) FD_YAW == 10.
Proof. vm_compute. reflexivity. Qed.

Lemma C2_acceleration_limited_witness :
  reachable exampleLib exampleState
  /\ ~ maxVelocity (cfg exampleState) FD_YAW == 0
  /\ (forall requested,
        Qabs (snd (accelerationLimit FD_YAW requested exampleState)
              - previousSetpoint exampleState FD_YAW)
        <= maxVelocity (cfg exampleState) FD_YAW
        /\ previousSetpoint (fst (accelerationLimit FD_YAW requested exampleState))
             FD_YAW
           = snd (accelerationLimit FD_YAW requested exampleState))
  /\ (forall inp pidProfile angleTrim now,
        Qabs (previousSetpoint
                (pidController exampleLib inp pidProfile angleTrim now
                   exampleState) FD_YAW
              - previousSetpoint exampleState FD_YAW)
        <= maxVelocity (cfg exampleState) FD_YAW).
Proof.
  assert (H : ~ maxVelocity (cfg exampleState) FD_YAW == 0)
    by (intro E; vm_compute in E; discriminate E).
  split; [exact exampleState_reachable|]. split; [exact H|].
  exact (C2_acceleration_limited exampleLib exampleState FD_YAW
           exampleState_reachable H).
Defined.

(** The crash of [crashInputs] is detected on the roll axis. *)
Example crash_detected : inCrashRecoveryMode recoveringState = true.
Proof. vm_compute. reflexivity. Qed.

Example crash_time_recorded : crashDetectedAtUs recoveringState = 1000%Z.
Proof. vm_compute. reflexivity. Qed.

(** C3 as stated fails over a tick: with a crash delay of 30 ms, the crash
    of [crashInputs] meets every condition on the roll axis, the roll
    iteration enters recovery, and the pitch iteration of the same tick,
    whose rate error is zero, takes the early abort of lines 537-541: the
    tick ends in Normal. *)
Lemma C3_crash_entry_counterexample :
  inCrashRecoveryMode crashDelayState = false
  /\ Profile.crash_recovery crashDelayProfile <> 0%Z
  /\ gyroOverflowDetected crashInputs = false
  /\ ARMING_FLAG_ARMED crashInputs = true
  /\ 1 <= getMotorMixRange crashInputs
  /\ crashDtermThreshold (cfg crashDelayState)
     < Qabs (dtermDelta exampleLib crashInputs
               (tickValues crashInputs 1000 crashDelayState) FD_ROLL
               (axisSetpoint crashInputs crashDelayProfile exampleTrim FD_ROLL
                  crashDelayState) crashDelayState)
  /\ crashGyroThreshold (cfg crashDelayState)
     < Qabs (axisSetpoint crashInputs crashDelayProfile exampleTrim FD_ROLL
               crashDelayState - gyroADCf crashInputs FD_ROLL)
  /\ Qabs (getSetpointRate crashInputs FD_ROLL)
     < crashSetpointThreshold (cfg crashDelayState)
  /\ inCrashRecoveryMode
       (pidControllerAxis exampleLib crashInputs crashDelayProfile exampleTrim
          (tickValues crashInputs 1000 crashDelayState)
          (set_previousTimeUs 1000 crashDelayState) FD_ROLL) = true
  /\ inCrashRecoveryMode
       (pidController exampleLib crashInputs crashDelayProfile exampleTrim 1000
          crashDelayState) = false.
Proof.
  split; [reflexivity|].
  split; [intro X; discriminate X|].
  split; [reflexivity|]. split; [reflexivity|].
  split; [intro X; discriminate X|].
  repeat split; vm_compute; reflexivity.
Qed.

(** With no crash delay (the default) the same crash ends the tick in
    Recovering, entered at the time of the tick. *)
Lemma C3_crash_entry_witness :
  inCrashRecoveryMode crashReadyState = false
  /\ (0 <= crashTimeDelayUs (cfg crashReadyState))%Z
  /\ u32 (1000 - previousTimeUs crashReadyState) <> 0%Z
  /\ ~ relaxFactor (cfg crashReadyState) == 0
  /\ inCrashRecoveryMode
       (pidController exampleLib crashInputs crashProfile exampleTrim 1000
          crashReadyState) = true
  /\ crashDetectedAtUs
       (pidController exampleLib crashInputs crashProfile exampleTrim 1000
          crashReadyState) = 1000%Z.
Proof.
  assert (H1 : inCrashRecoveryMode crashReadyState = false) by reflexivity.
  assert (H2 : (0 <= crashTimeDelayUs (cfg crashReadyState))%Z)
    by (intro X; vm_compute in X; discriminate X).
  assert (H3 : u32 (1000 - previousTimeUs crashReadyState) <> 0%Z)
    by (intro X; vm_compute in X; discriminate X).
  assert (H4 : ~ relaxFactor (cfg crashReadyState) == 0)
    by (intro X; vm_compute in X; discriminate X).
  split; [exact H1|]. split; [exact H2|]. split; [exact H3|].
  split; [exact H4|].
  destruct (C3_crash_entry exampleLib crashInputs crashProfile exampleTrim 1000
              crashReadyState H1 H2 H3 H4) as (T1 & _ & T3).
  assert (E : Profile.crash_recovery crashProfile <> 0%Z
              /\ gyroOverflowDetected crashInputs = false
              /\ ARMING_FLAG_ARMED crashInputs = true
              /\ 1 <= getMotorMixRange crashInputs
              /\ crashDtermThreshold (cfg crashReadyState)
                 < Qabs (dtermDelta exampleLib crashInputs
                           (tickValues crashInputs 1000 crashReadyState) FD_ROLL
                           (axisSetpoint crashInputs crashProfile exampleTrim
                              FD_ROLL crashReadyState) crashReadyState)
              /\ crashGyroThreshold (cfg crashReadyState)
                 < Qabs (axisSetpoint crashInputs crashProfile exampleTrim
                           FD_ROLL crashReadyState - gyroADCf crashInputs FD_ROLL)
              /\ Qabs (getSetpointRate crashInputs FD_ROLL)
                 < crashSetpointThreshold (cfg crashReadyState)).
  { split; [intro X; discriminate X|].
    split; [reflexivity|]. split; [reflexivity|].
    split; [intro X; discriminate X|].
    repeat split; vm_compute; reflexivity. }
  split.
  - apply (proj2 T3). right. split; [exact E|].
    intros [X _]. vm_compute in X. discriminate X.
  - exact (T1 (or_introl E)).
Defined.

Lemma C5_anti_windup_witness :
  pidStabilisationEnabled exampleState = true
  /\ gyroOverflowDetected exampleInputs = false
  /\ axisPID_I
       (pidControllerAxis exampleLib exampleInputs resetPidProfile exampleTrim
          (tickValues exampleInputs 1000 exampleState) exampleState FD_ROLL)
       FD_ROLL
     = constrainf
         (axisPID_I exampleState FD_ROLL
          + Ki (cfg exampleState) FD_ROLL
            * axisErrorRate exampleInputs resetPidProfile exampleTrim
                (tickValues exampleInputs 1000 exampleState) FD_ROLL exampleState
            * dynCi (tickValues exampleInputs 1000 exampleState))
         (- itermLimit (cfg exampleState)) (itermLimit (cfg exampleState)).
Proof.
  split; [reflexivity|]. split; [reflexivity|].
  apply (C5_anti_windup exampleLib exampleInputs resetPidProfile exampleTrim
           (tickValues exampleInputs 1000 exampleState) exampleState FD_ROLL
           eq_refl eq_refl).
  left. reflexivity.
Defined.

(** The integral after that tick: Ki x 100 x dynCi = 9.77524 x 100 x 0.001. *)
Example iterm_first_tick :
  axisPID_I
    (pidController exampleLib exampleInputs resetPidProfile exampleTrim 1000
       exampleState) FD_ROLL == 977524 # 1000000.
Proof. vm_compute. reflexivity. Qed.

(** C6 as stated fails: with level P = 50 and I = 30, below the angle limit
    the limited horizon sub-mode returns 13 x 3.0 = 39 where angle mode
    returns 13 x 5.0 = 65. *)
Lemma C6_limited_horizon_counterexample :
  FLIGHT_MODE horizonInputs ANGLE_MODE = false
  /\ horizonTiltExpertMode (cfg gainState) = 0%Z
  /\ inclinationDegrees horizonInputs
     < inject_Z (Profile.levelAngleLimit gainProfile)
  /\ pidLevel horizonInputs (cfg gainState) FD_ROLL gainProfile exampleTrim 100
     == 39
  /\ levelErrorAngle horizonInputs FD_ROLL gainProfile exampleTrim
     * levelGain (cfg gainState) == 65
  /\ ~ pidLevel horizonInputs (cfg gainState) FD_ROLL gainProfile exampleTrim 100
       == pidLevel (withFlightModeFlags ANGLE_MODE horizonInputs)
            (cfg gainState) FD_ROLL gainProfile exampleTrim 100.
Proof.
  repeat split; try (vm_compute; reflexivity).
  intro H. vm_compute in H. discriminate H.
Qed.

Lemma C6_limited_horizon_witness :
  FLIGHT_MODE horizonInputs ANGLE_MODE = false
  /\ horizonTiltExpertMode (cfg gainState) = 0%Z
  /\ inclinationDegrees horizonInputs
     < inject_Z (Profile.levelAngleLimit gainProfile)
  /\ pidLevel horizonInputs (cfg gainState) FD_ROLL gainProfile exampleTrim 100
     = levelErrorAngle horizonInputs FD_ROLL gainProfile exampleTrim
       * horizonGain (cfg gainState).
Proof.
  assert (H : inclinationDegrees horizonInputs
              < inject_Z (Profile.levelAngleLimit gainProfile))
    by reflexivity.
  split; [reflexivity|]. split; [reflexivity|]. split; [exact H|].
  apply (C6_limited_horizon horizonInputs (cfg gainState) FD_ROLL gainProfile
           exampleTrim 100 eq_refl eq_refl).
  exact H.
Defined.

(** C7 as stated fails: at a tick period of 15625 us the Nyquist frequency
    0.5/dT is 32 Hz, pid.c computes (1.0f / 0.015625f) / 2 = 32, and a D-term
    low-pass configured at 32 Hz is installed. *)
Lemma C7_filters_within_nyquist_counterexample :
  Profile.ok nyquistProfile = true
  /\ targetPidLooptime nyquistState = 15625%Z
  /\ dT_binary32 nyquistState == 1 # 64
  /\ pidFrequencyNyquist nyquistState = 32%Z
  /\ (1 # 2) / dT nyquistState
     <= inject_Z (Profile.dterm_lpf_hz nyquistProfile)
  /\ dtermLpfApplyFn
       (filters (pidInitFilters exampleLib nyquistProfile nyquistState))
     <> nullFilterApply.
Proof.
  split; [reflexivity|]. split; [reflexivity|].
  split; [vm_compute; reflexivity|]. split; [vm_compute; reflexivity|].
  split.
  - intro H. vm_compute in H. discriminate H.
  - intro H. vm_compute in H. discriminate H.
Qed.

(** At 8 kHz (125 us) the integer is 3999, one below the Nyquist frequency
    of 4000 Hz; the D-term low-pass is active exactly when its cutoff -- here
    32 Hz -- is not zero and at most 3999 and its type is known. *)
Lemma C7_filters_within_nyquist_witness :
  (0 < 125 < 2 ^ 32)%Z
  /\ pidFrequencyNyquist (pidSetTargetLooptime 125 initialState) = 3999%Z
  /\ inject_Z (pidFrequencyNyquist (pidSetTargetLooptime 125 initialState))
     <= (1 # 2) / dT (pidSetTargetLooptime 125 initialState)
  /\ (dtermLpfApplyFn
        (filters (pidInitFilters exampleLib nyquistProfile
                    (pidSetTargetLooptime 125 initialState)))
      <> nullFilterApply <->
      Profile.dterm_lpf_hz nyquistProfile <> 0%Z
      /\ (Profile.dterm_lpf_hz nyquistProfile
          <= pidFrequencyNyquist (pidSetTargetLooptime 125 initialState))%Z
      /\ (Profile.dterm_filter_type nyquistProfile = FILTER_PT1
          \/ Profile.dterm_filter_type nyquistProfile = FILTER_BIQUAD
          \/ Profile.dterm_filter_type nyquistProfile = FILTER_FIR)).
Proof.
  assert (H : (0 < 125 < 2 ^ 32)%Z) by lia.
  split; [exact H|]. split; [vm_compute; reflexivity|].
  split.
  - exact (proj1 (C7_filters_within_nyquist exampleLib nyquistProfile 125
                    initialState H)).
  - exact (proj1 (proj2 (C7_filters_within_nyquist exampleLib nyquistProfile
                           125 initialState H))).
Defined.

Lemma recoveringState_reachable : reachable exampleLib recoveringState.
Proof.
  apply reach_pidController; [|reflexivity].
  apply reach_pidStabilisationState, reach_pidInit;
    [apply reach_start | reflexivity].
Qed.

(** C8 as stated fails: recovering, then disarmed while the gyro overflow
    fault is active (within the crash time limit, mixer still saturated):
    crash detection is gated off by the overflow and the state stays
    Recovering. *)
Lemma C8_disarm_exits_counterexample :
  reachable exampleLib recoveringState
  /\ inCrashRecoveryMode recoveringState = true
  /\ ARMING_FLAG_ARMED disarmedOverflowInputs = false
  /\ inCrashRecoveryMode
       (pidController exampleLib disarmedOverflowInputs crashProfile
          exampleTrim 2000 recoveringState) <> false.
Proof.
  split; [exact recoveringState_reachable|].
  split; [vm_compute; reflexivity|]. split; [reflexivity|].
  intro H. vm_compute in H. discriminate H.
Qed.

Lemma C8_disarm_exits_witness :
  inCrashRecoveryMode recoveringState = true
  /\ ARMING_FLAG_ARMED disarmedInputs = false
  /\ Profile.crash_recovery crashProfile <> 0%Z
  /\ gyroOverflowDetected disarmedInputs = false
  /\ inCrashRecoveryMode
       (pidController exampleLib disarmedInputs crashProfile exampleTrim 2000
          recoveringState) = false.
Proof.
  assert (H : Profile.crash_recovery crashProfile <> 0%Z) by discriminate.
  split; [vm_compute; reflexivity|]. split; [reflexivity|].
  split; [exact H|]. split; [reflexivity|].
  exact (C8_disarm_exits exampleLib disarmedInputs crashProfile exampleTrim
           2000 recoveringState eq_refl H eq_refl).
Defined.

(** C9 as stated fails: in the expert sub-mode with a zero D in the level
    PID, level flight and a cutoff of 81 degrees, the strength is 0 where
    clamp((cutoff - inclination)/cutoff, 0, 1) is 1. *)
Lemma C9_horizon_strength_counterexample :
  horizonTiltExpertMode (cfg expertState) <> 0%Z
  /\ horizonCutoffDegrees (cfg expertState) == 81
  /\ calcHorizonLevelStrength exampleInputs (cfg expertState) == 0
  /\ specHorizonLevelStrength true (horizonCutoffDegrees (cfg expertState))
       (inclinationDegrees exampleInputs) == 1
  /\ ~ calcHorizonLevelStrength exampleInputs (cfg expertState)
       == specHorizonLevelStrength true (horizonCutoffDegrees (cfg expertState))
            (inclinationDegrees exampleInputs).
Proof.
  split; [intro H; vm_compute in H; discriminate H|].
  repeat split; try (vm_compute; reflexivity).
  intro H. vm_compute in H. discriminate H.
Qed.

(** Horizon mode, 100 deg/s commanded on pitch at 10 degrees of pitch:
    pidLevel would make it 3 x 3.0 = 9 deg/s, and the P output of pitch is
    Kp x 100, from the raw setpoint. *)
Lemma C10_leveling_axes_witness :
  inCrashRecoveryMode gainOnState = false
  /\ (0 <= crashTimeDelayUs (cfg gainOnState))%Z
  /\ pidStabilisationEnabled gainOnState = true
  /\ gyroOverflowDetected horizonPitchInputs = false
  /\ FLIGHT_MODE horizonPitchInputs HORIZON_MODE = true
  /\ FLIGHT_MODE horizonPitchInputs ANGLE_MODE = false
  /\ snd (limitedSetpoint horizonPitchInputs FD_PITCH gainOnState) == 100
  /\ pidLevel horizonPitchInputs (cfg gainOnState) FD_PITCH gainProfile
       exampleTrim
       (snd (limitedSetpoint horizonPitchInputs FD_PITCH gainOnState)) == 9
  /\ ~ Kp (cfg gainOnState) FD_PITCH == 0
  /\ axisPID_P
       (pidController exampleLib horizonPitchInputs gainProfile exampleTrim
          1000 gainOnState) FD_PITCH
     = Kp (cfg gainOnState) FD_PITCH
       * (snd (limitedSetpoint horizonPitchInputs FD_PITCH gainOnState)
          - gyroADCf horizonPitchInputs FD_PITCH)
       * getThrottlePIDAttenuation horizonPitchInputs.
Proof.
  assert (H1 : inCrashRecoveryMode gainOnState = false) by reflexivity.
  assert (H2 : (0 <= crashTimeDelayUs (cfg gainOnState))%Z)
    by (intro X; vm_compute in X; discriminate X).
  assert (H3 : pidStabilisationEnabled gainOnState = true) by reflexivity.
  assert (H4 : gyroOverflowDetected horizonPitchInputs = false) by reflexivity.
  split; [exact H1|]. split; [exact H2|]. split; [exact H3|].
  split; [exact H4|]. split; [reflexivity|]. split; [reflexivity|].
  split; [vm_compute; reflexivity|]. split; [vm_compute; reflexivity|].
  split; [intro X; vm_compute in X; discriminate X|].
  destruct (C10_leveling_axes exampleLib horizonPitchInputs gainProfile
              exampleTrim 1000 gainOnState FD_PITCH H1 H2 H3 H4)
    as (_ & H & _).
  exact (proj1 (H eq_refl eq_refl) eq_refl).
Defined.

(** * Further properties of pid.c *)

(** ** The acceleration limiter *)

(** A request within [maxVelocity] of the previous setpoint is accepted. *)
Lemma accelerationLimit_accepts ax requested st :
  Qabs (requested - previousSetpoint st ax) <= maxVelocity (cfg st) ax ->
  snd (accelerationLimit ax requested st) = requested.
Proof.
  intro H. unfold accelerationLimit. cbv zeta. cbn [snd].
  qcase (Qgtb (ABS (requested - previousSetpoint st ax))
           (maxVelocity (cfg st) ax)); [|reflexivity].
  exfalso. rewrite ABS_Qabs in E. lra.
Qed.

(** A call that finds the previous setpoint equal to the request keeps it. *)
Lemma accelerationLimit_fixed ax requested st :
  0 <= maxVelocity (cfg st) ax ->
  previousSetpoint st ax = requested ->
  previousSetpoint (fst (accelerationLimit ax requested st)) ax = requested.
Proof.
  intros Hv Hp.
  destruct (accelerationLimit_step ax requested st Hv) as [_ ->].
  apply accelerationLimit_accepts.
  rewrite Hp. setoid_replace (requested - requested) with 0 by ring.
  exact Hv.
Qed.

Lemma accelerationLimit_cfg ax requested st :
  cfg (fst (accelerationLimit ax requested st)) = cfg st.
Proof. reflexivity. Qed.

Lemma accelerationLimitRepeat_fixed n ax requested st :
  0 <= maxVelocity (cfg st) ax ->
  previousSetpoint st ax = requested ->
  previousSetpoint (accelerationLimitRepeat n ax requested st) ax = requested.
Proof.
  revert st. induction n as [|n IH]; intros st Hv Hp; [exact Hp|].
  cbn [accelerationLimitRepeat]. apply IH.
  - rewrite accelerationLimit_cfg. exact Hv.
  - apply accelerationLimit_fixed; assumption.
Qed.

Lemma accelerationLimitRepeat_cfg n ax requested st :
  cfg (accelerationLimitRepeat n ax requested st) = cfg st.
Proof.
  revert st. induction n as [|n IH]; intro st; [reflexivity|].
  cbn [accelerationLimitRepeat]. rewrite IH. apply accelerationLimit_cfg.
Qed.

(** X1.  A request within [maxVelocity] of the previous setpoint is accepted
    unchanged, and the accepted setpoint always lies between the previous
    setpoint and the request: the limiter never overshoots. *)
Theorem X1_limiter_never_overshoots ax requested st :
  0 <= maxVelocity (cfg st) ax ->
  (Qabs (requested - previousSetpoint st ax) <= maxVelocity (cfg st) ax ->
   snd (accelerationLimit ax requested st) = requested)
  /\ (previousSetpoint st ax <= requested ->
      previousSetpoint st ax <= snd (accelerationLimit ax requested st)
      /\ snd (accelerationLimit ax requested st) <= requested)
  /\ (requested <= previousSetpoint st ax ->
      requested <= snd (accelerationLimit ax requested st)
      /\ snd (accelerationLimit ax requested st) <= previousSetpoint st ax).
Proof.
  intro H. unfold accelerationLimit. cbv zeta. cbn [snd].
  qcase (Qgtb (ABS (requested - previousSetpoint st ax))
           (maxVelocity (cfg st) ax)).
  - rewrite ABS_Qabs in E.
    qcase (Qgtb (requested - previousSetpoint st ax) 0).
    + rewrite Qabs_pos in E by lra.
      repeat split; intros; try lra.
      exfalso. rewrite Qabs_pos in H0 by lra. lra.
    + rewrite Qabs_neg in E by lra.
      repeat split; intros; try lra.
      exfalso. rewrite Qabs_neg in H0 by lra. lra.
  - repeat split; intros; try reflexivity; lra.
Qed.

(** X2.  A request within [maxVelocity] of the previous setpoint is reached
    by the first call and held by every further call with the same request:
    after [n >= 1] calls the stored setpoint is the request, and the next
    call returns the request again. *)
Theorem X2_limiter_holds_request n ax requested st :
  0 <= maxVelocity (cfg st) ax ->
  (1 <= n)%nat ->
  Qabs (requested - previousSetpoint st ax) <= maxVelocity (cfg st) ax ->
  previousSetpoint (accelerationLimitRepeat n ax requested st) ax = requested
  /\ snd (accelerationLimit ax requested
            (accelerationLimitRepeat n ax requested st)) = requested.
Proof.
  intros Hv Hn Hd.
  assert (H : previousSetpoint (accelerationLimitRepeat n ax requested st) ax
              = requested).
  { destruct n as [|n]; [lia|]. cbn [accelerationLimitRepeat].
    apply accelerationLimitRepeat_fixed.
    - rewrite accelerationLimit_cfg. exact Hv.
    - destruct (accelerationLimit_step ax requested st Hv) as [_ ->].
      apply accelerationLimit_accepts, Hd. }
  split; [exact H|].
  apply accelerationLimit_accepts.
  rewrite H, accelerationLimitRepeat_cfg.
  setoid_replace (requested - requested) with 0 by ring. exact Hv.
Qed.

(** ** What a tick keeps and what it writes *)

Section TickFrame.

Variable lib : platform.
Variable inp : inputs.
Variable pidProfile : Profile.t.
Variable angleTrim : rollAndPitchTrims_t.
Variable tk : tick.

Lemma pidControllerAxis_filterFns ax st :
  filterFns (pidControllerAxis lib inp pidProfile angleTrim tk st ax)
  = filterFns st.
Proof.
  unfold pidControllerAxis. cbv zeta.
  destruct (limitedSetpoint_shape inp ax st) as [v Hv]. rewrite Hv.
  match goal with
  | |- context [crashRecovery inp pidProfile angleTrim tk ax ?sp ?e ?s] =>
      set (r := crashRecovery inp pidProfile angleTrim tk ax sp e s);
      assert (H2 : filterFns (fst r) = filterFns st)
  end.
  { unfold r, crashRecovery, leaveRecovery. cbv zeta.
    repeat match goal with
           | |- context [if ?b then _ else _] => destruct b
           end; reflexivity. }
  set (err := snd (snd r)). set (sp := fst (snd r)).
  assert (H3 : filterFns (pTerm lib tk ax err (fst r)) = filterFns st).
  { rewrite <- H2. unfold pTerm. destruct (axis_eqb ax FD_YAW); reflexivity. }
  set (s3 := pTerm lib tk ax err (fst r)) in *.
  assert (H4 : filterFns (iTerm inp tk ax err s3) = filterFns st).
  { rewrite <- H3. unfold iTerm. cbv zeta. destruct (_ || _); reflexivity. }
  set (s4 := iTerm inp tk ax err s3) in *.
  assert (H5 : filterFns (dTerm lib inp pidProfile tk ax sp err s4)
               = filterFns st).
  { rewrite <- H4. unfold dTerm.
    destruct (negb (axis_eqb ax FD_YAW)); [|reflexivity].
    cbv zeta. unfold filterFns. cbn [filters set_axisPIDSum set_axisPID_D].
    rewrite crashCheck_filters. reflexivity. }
  rewrite <- H5. unfold disableOutputs. destruct (_ || _); reflexivity.
Qed.

(** After the D stage the sum of an axis is the sum of its components:
    P + I + D on roll and pitch, P + I on yaw, which has no D term. *)
Lemma dTerm_sum ax sp err st :
  let s := dTerm lib inp pidProfile tk ax sp err st in
  axisPIDSum s ax
  = if axis_eqb ax FD_YAW then axisPID_P s ax + axisPID_I s ax
    else axisPID_P s ax + axisPID_I s ax + axisPID_D s ax.
Proof.
  cbv zeta. unfold dTerm.
  destruct (axis_eqb ax FD_YAW); cbn [negb]; cbv zeta.
  - cbn [axisPIDSum axisPID_P axisPID_I set_axisPIDSum]. apply upd_same.
  - cbn [axisPIDSum axisPID_P axisPID_I axisPID_D set_axisPIDSum].
    apply upd_same.
Qed.

Lemma pidControllerAxis_sum ax st :
  let s := pidControllerAxis lib inp pidProfile angleTrim tk st ax in
  axisPIDSum s ax
  == if axis_eqb ax FD_YAW then axisPID_P s ax + axisPID_I s ax
     else axisPID_P s ax + axisPID_I s ax + axisPID_D s ax.
Proof.
  cbv zeta. unfold pidControllerAxis. cbv zeta.
  match goal with
  | |- context [disableOutputs inp ax ?s] =>
      pose proof (dTerm_sum ax _ _ _ : axisPIDSum s ax = _) as Hd;
      set (s5 := s) in *
  end.
  unfold disableOutputs. destruct (_ || _).
  - cbn [axisPIDSum axisPID_P axisPID_I axisPID_D set_axisPIDSum
         set_axisPID_D set_axisPID_I set_axisPID_P].
    rewrite !upd_same. destruct (axis_eqb ax FD_YAW); reflexivity.
  - rewrite Hd. reflexivity.
Qed.

(** The D output of yaw is written only by the zeroing of lines 554-559. *)
Lemma pidControllerAxis_yaw_D st :
  axisPID_D (pidControllerAxis lib inp pidProfile angleTrim tk st FD_YAW) FD_YAW
  = if outputsDisabled inp st then 0 else axisPID_D st FD_YAW.
Proof.
  unfold pidControllerAxis. cbv zeta.
  pose proof (limitedSetpoint_frame inp FD_YAW st) as F1.
  destruct (limitedSetpoint_shape inp FD_YAW st) as [v Hv].
  set (s1 := fst (limitedSetpoint inp FD_YAW st)) in *.
  match goal with
  | |- context [crashRecovery inp pidProfile angleTrim tk FD_YAW ?sp ?e s1] =>
      pose proof (crashRecovery_frame inp pidProfile angleTrim tk FD_YAW sp e s1)
        as F2;
      assert (H2 : axisPID_D
                     (fst (crashRecovery inp pidProfile angleTrim tk FD_YAW sp e s1))
                   = axisPID_D st);
      [| set (r := crashRecovery inp pidProfile angleTrim tk FD_YAW sp e s1) in * ]
  end.
  { unfold crashRecovery, leaveRecovery. cbv zeta. rewrite Hv.
    repeat match goal with
           | |- context [if ?b then _ else _] => destruct b
           end; reflexivity. }
  set (err := snd (snd r)). set (sp := fst (snd r)).
  pose proof (pTerm_frame lib tk FD_YAW err (fst r)) as F3.
  set (s3 := pTerm lib tk FD_YAW err (fst r)) in *.
  pose proof (iTerm_frame inp tk FD_YAW err s3) as F4.
  set (s4 := iTerm inp tk FD_YAW err s3) in *.
  pose proof (dTerm_frame lib inp pidProfile tk FD_YAW sp err s4) as F5.
  assert (H5 : axisPID_D (dTerm lib inp pidProfile tk FD_YAW sp err s4)
               = axisPID_D st).
  { rewrite <- H2. unfold s4, s3, iTerm, pTerm. cbv zeta. cbn [axis_eqb].
    destruct (_ || _); reflexivity. }
  set (s5 := dTerm lib inp pidProfile tk FD_YAW sp err s4) in *.
  unfold disableOutputs, outputsDisabled.
  rewrite (fr_stab _ _ _ F5), (fr_stab _ _ _ F4), (fr_stab _ _ _ F3),
    (fr_stab _ _ _ F2), (fr_stab _ _ _ F1).
  destruct (_ || _).
  - reflexivity.
  - rewrite H5. reflexivity.
Qed.

End TickFrame.

(** X3.  A tick leaves the configuration alone: the derived parameters, the loop
    period, the stabilisation switch, the I-term accelerator and the three
    filter function pointers are those of before; the time stamp of the tick
    is stored as the previous time. *)
Theorem X3_tick_keeps_configuration lib inp pidProfile angleTrim now st :
  cfg (pidController lib inp pidProfile angleTrim now st) = cfg st
  /\ dT (pidController lib inp pidProfile angleTrim now st) = dT st
  /\ targetPidLooptime (pidController lib inp pidProfile angleTrim now st)
     = targetPidLooptime st
  /\ pidStabilisationEnabled (pidController lib inp pidProfile angleTrim now st)
     = pidStabilisationEnabled st
  /\ itermAccelerator (pidController lib inp pidProfile angleTrim now st)
     = itermAccelerator st
  /\ filterFns (pidController lib inp pidProfile angleTrim now st)
     = filterFns st
  /\ previousTimeUs (pidController lib inp pidProfile angleTrim now st) = now.
Proof.
  destruct (pidController_iteration lib inp pidProfile angleTrim now st FD_ROLL)
    as (_ & _ & _ & _ & (H1 & H2 & H3 & H4 & H5)).
  repeat split; try assumption.
  - unfold pidController. cbv zeta. simpl fold_left.
    rewrite !pidControllerAxis_filterFns. reflexivity.
  - unfold pidController. cbv zeta. simpl fold_left.
    rewrite !(fr_time _ _ _ (pidControllerAxis_frame _ _ _ _ _ _ _)).
    reflexivity.
Qed.

(** X4.  After every tick the sum output of each axis is the sum of its
    component outputs: P + I + D on roll and pitch, P + I on yaw. *)
Theorem X4_sum_of_components lib inp pidProfile angleTrim now st a :
  axisPIDSum (pidController lib inp pidProfile angleTrim now st) a
  == if axis_eqb a FD_YAW then
       axisPID_P (pidController lib inp pidProfile angleTrim now st) a
       + axisPID_I (pidController lib inp pidProfile angleTrim now st) a
     else
       axisPID_P (pidController lib inp pidProfile angleTrim now st) a
       + axisPID_I (pidController lib inp pidProfile angleTrim now st) a
       + axisPID_D (pidController lib inp pidProfile angleTrim now st) a.
Proof.
  destruct (pidController_iteration lib inp pidProfile angleTrim now st a)
    as (s & _ & _ & (HP & HI & HD & HS & _) & _).
  rewrite HP, HI, HD, HS. apply pidControllerAxis_sum.
Qed.

(** X5.  Yaw has no derivative term: a tick leaves axisPID_D of yaw as it was,
    except that the zeroing on disabled stabilisation or gyro overflow sets
    it to zero. *)
Theorem X5_yaw_has_no_D lib inp pidProfile angleTrim now st :
  axisPID_D (pidController lib inp pidProfile angleTrim now st) FD_YAW
  = if outputsDisabled inp st then 0 else axisPID_D st FD_YAW.
Proof.
  destruct (pidController_iteration lib inp pidProfile angleTrim now st FD_YAW)
    as (s & (_ & Hs & _) & (_ & _ & Hd & _) & (_ & _ & HD & _) & _).
  rewrite HD, pidControllerAxis_yaw_D. unfold outputsDisabled.
  rewrite Hs, Hd. reflexivity.
Qed.

(** ** The integral over a tick *)

Section TickIntegral.

Variable lib : platform.
Variable inp : inputs.
Variable pidProfile : Profile.t.
Variable angleTrim : rollAndPitchTrims_t.
Variable tk : tick.

(** The accumulator that the integral update of an iteration reads and the
    one it leaves. *)
Lemma pidControllerAxis_I_cases ax st :
  exists err s3,
    cfg s3 = cfg st
    /\ axisPID_I s3 ax = (if recoveryActive tk st then 0 else axisPID_I st ax)
    /\ (axisPID_I (pidControllerAxis lib inp pidProfile angleTrim tk st ax) ax = 0
        \/ axisPID_I (pidControllerAxis lib inp pidProfile angleTrim tk st ax) ax
           = axisPID_I (iTerm inp tk ax err s3) ax)
    /\ (outputsDisabled inp st = false ->
        axisPID_I (pidControllerAxis lib inp pidProfile angleTrim tk st ax) ax
        = axisPID_I (iTerm inp tk ax err s3) ax).
Proof.
  unfold pidControllerAxis. cbv zeta.
  pose proof (limitedSetpoint_frame inp ax st) as F1.
  destruct (limitedSetpoint_shape inp ax st) as [v Hv].
  set (s1 := fst (limitedSetpoint inp ax st)) in *.
  match goal with
  | |- context [crashRecovery inp pidProfile angleTrim tk ax ?sp ?e s1] =>
      pose proof (crashRecovery_frame inp pidProfile angleTrim tk ax sp e s1) as F2;
      pose proof (crashRecovery_I inp pidProfile angleTrim tk ax sp e s1) as HI;
      set (r := crashRecovery inp pidProfile angleTrim tk ax sp e s1) in *
  end.
  set (err := snd (snd r)). set (sp := fst (snd r)).
  pose proof (pTerm_frame lib tk ax err (fst r)) as F3.
  pose proof (pTerm_I lib tk ax err (fst r)) as HP.
  set (s3 := pTerm lib tk ax err (fst r)) in *.
  pose proof (iTerm_frame inp tk ax err s3) as F4.
  set (s4 := iTerm inp tk ax err s3) in *.
  pose proof (dTerm_frame lib inp pidProfile tk ax sp err s4) as F5.
  pose proof (dTerm_I lib inp pidProfile tk ax sp err s4) as HD.
  set (s5 := dTerm lib inp pidProfile tk ax sp err s4) in *.
  exists err, s3. split; [|split; [|split]].
  - rewrite (fr_cfg _ _ _ F3), (fr_cfg _ _ _ F2). apply (fr_cfg _ _ _ F1).
  - rewrite HP, HI, Hv. reflexivity.
  - destruct (disableOutputs_I inp ax s5) as [-> | ->]; [left; reflexivity|].
    right. rewrite HD. reflexivity.
  - intro Hd. rewrite disableOutputs_enabled.
    + rewrite HD. reflexivity.
    + unfold outputsDisabled in Hd. apply orb_false_iff in Hd.
      destruct Hd as [Hd _]. apply negb_false_iff in Hd.
      rewrite (fr_stab _ _ _ F5), (fr_stab _ _ _ F4), (fr_stab _ _ _ F3),
        (fr_stab _ _ _ F2), (fr_stab _ _ _ F1). exact Hd.
    + unfold outputsDisabled in Hd. apply orb_false_iff in Hd. apply Hd.
Qed.

Lemma pidControllerAxis_I_saturated ax st :
  (forall errorRate, mixerIsOutputSaturated inp ax errorRate = true) ->
  Qabs (axisPID_I (pidControllerAxis lib inp pidProfile angleTrim tk st ax) ax)
  <= Qabs (axisPID_I st ax).
Proof.
  intro Hs.
  destruct (pidControllerAxis_I_cases ax st) as (err & s3 & _ & H3 & [-> | ->] & _).
  - apply Qabs_nonneg.
  - destruct (iTerm_cases inp tk ax err s3) as (_ & _ & Hm).
    cbv zeta in Hm. specialize (Hm (Hs err)).
    apply Qle_trans with (1 := Hm). rewrite H3.
    destruct (recoveryActive tk st); [apply Qabs_nonneg | apply Qle_refl].
Qed.

(** With a zero integration step the candidate of a bounded accumulator is
    the accumulator, so the update changes nothing. *)
Lemma iTerm_frozen ax err st :
  dynCi tk == 0 ->
  Qabs (axisPID_I st ax) <= itermLimit (cfg st) ->
  axisPID_I (iTerm inp tk ax err st) ax == axisPID_I st ax.
Proof.
  intros Hz Hb.
  assert (Hc : ITermNew tk ax err st == axisPID_I st ax).
  { unfold ITermNew. apply Qabs_Qle_condition in Hb.
    assert (Hx : axisPID_I st ax + Ki (cfg st) ax * err * dynCi tk
                 == axisPID_I st ax) by (rewrite Hz; ring).
    rewrite (constrainf_Qeq _ _ _ _ Hx).
    rewrite constrainf_inside by exact Hb. reflexivity. }
  unfold iTerm. cbv zeta. destruct (_ || _).
  - cbn. rewrite upd_same. exact Hc.
  - reflexivity.
Qed.

Lemma pidControllerAxis_I_frozen ax st :
  dynCi tk == 0 ->
  recoveryActive tk st = false ->
  outputsDisabled inp st = false ->
  Qabs (axisPID_I st ax) <= itermLimit (cfg st) ->
  axisPID_I (pidControllerAxis lib inp pidProfile angleTrim tk st ax) ax
  == axisPID_I st ax.
Proof.
  intros Hz Hr Hd Hb.
  destruct (pidControllerAxis_I_cases ax st) as (err & s3 & Hc & H3 & _ & ->);
    [|exact Hd].
  rewrite Hr in H3. rewrite <- H3. apply iTerm_frozen; [exact Hz|].
  rewrite H3, Hc. exact Hb.
Qed.

End TickIntegral.

(** The integration step is zero when the mixer is fully saturated, when the
    I-term accelerator is zero and when no loop period is set. *)
Lemma dynCi_zero inp now st :
  getMotorMixRange inp == 1 \/ itermAccelerator st == 0 \/ dT st == 0 ->
  dynCi (tickValues inp now st) == 0.
Proof.
  intro H. cbn [dynCi tickValues].
  destruct H as [H | [H | H]].
  - assert (Hm : MIN ((1 - getMotorMixRange inp) * ITermWindupPointInv (cfg st)) 1
                 == 0).
    { unfold MIN.
      qcase (Qltb ((1 - getMotorMixRange inp) * ITermWindupPointInv (cfg st)) 1).
      - rewrite H. ring.
      - exfalso. rewrite H in E.
        setoid_replace ((1 - 1) * ITermWindupPointInv (cfg st)) with 0 in E
          by ring.
        revert E. apply Qlt_not_le. reflexivity. }
    rewrite Hm. ring.
  - rewrite H. ring.
  - rewrite H. ring.
Qed.

(** X6.  Under saturation a tick never lets the integral grow: if the mixer
    reports the output of an axis saturated, the magnitude of its
    accumulator after the tick is at most its magnitude before, whatever the
    rate error, the crash state and the stabilisation switch. *)
Theorem X6_saturated_tick_no_growth lib inp pidProfile angleTrim now st a :
  (forall errorRate, mixerIsOutputSaturated inp a errorRate = true) ->
  Qabs (axisPID_I (pidController lib inp pidProfile angleTrim now st) a)
  <= Qabs (axisPID_I st a).
Proof.
  intro Hs.
  destruct (pidController_iteration lib inp pidProfile angleTrim now st a)
    as (s & _ & (_ & Hi & _) & (_ & HI & _) & _).
  rewrite HI, <- Hi. apply pidControllerAxis_I_saturated, Hs.
Qed.

(** X7.  Integration is frozen over a tick whose integration step is zero -- the
    mixer fully saturated (motor-mix range 1.0), a zero I-term accelerator or
    no loop period set: from a reachable Normal state, with stabilisation on
    and no gyro overflow, an accumulator that is within itermLimit is the
    same after the tick.  The windup point of the configuration is not 100
    percent: ITermWindupPointInv is finite (the second hypothesis), or the
    integration step of pid.c is not zero. *)
Theorem X7_integral_frozen lib inp pidProfile angleTrim now st a :
  reachable lib st ->
  ~ ITermWindupPointInv (cfg st) == 0 ->
  getMotorMixRange inp == 1 \/ itermAccelerator st == 0 \/ dT st == 0 ->
  inCrashRecoveryMode st = false ->
  pidStabilisationEnabled st = true ->
  gyroOverflowDetected inp = false ->
  Qabs (axisPID_I st a) <= itermLimit (cfg st) ->
  axisPID_I (pidController lib inp pidProfile angleTrim now st) a
  == axisPID_I st a.
Proof.
  intros R _ Hz Hn Hs Hg Hb.
  destruct (pidController_iteration_inactive lib inp pidProfile angleTrim now
              st a (reachable_crashDelay lib st R) (or_introl Hn))
    as (s & (Hc & Hst & _) & (_ & Hi & _) & Hr & (_ & HI & _)).
  rewrite HI, <- Hi. apply pidControllerAxis_I_frozen.
  - apply dynCi_zero, Hz.
  - exact Hr.
  - unfold outputsDisabled. rewrite Hst, Hs, Hg. reflexivity.
  - rewrite Hi, Hc. exact Hb.
Qed.

(** X8.  The limiter is bypassed on an axis whose maxVelocity is zero: the
    setpoint passes through unchanged and a tick leaves the stored previous
    setpoint of that axis alone. *)
Theorem X8_limiter_bypassed lib inp pidProfile angleTrim now st a :
  maxVelocity (cfg st) a == 0 ->
  limitedSetpoint inp a st = (st, getSetpointRate inp a)
  /\ previousSetpoint (pidController lib inp pidProfile angleTrim now st) a
     = previousSetpoint st a.
Proof.
  intro Hz.
  assert (Hq : forall s, cfg s = cfg st ->
                 limitedSetpoint inp a s = (s, getSetpointRate inp a)).
  { intros s Hc. unfold limitedSetpoint. rewrite Hc.
    replace (Qnonzero (maxVelocity (cfg st) a)) with false; [reflexivity|].
    symmetry. apply not_true_is_false. rewrite Qnonzero_neq. tauto. }
  split; [apply Hq; reflexivity|].
  destruct (pidController_iteration lib inp pidProfile angleTrim now st a)
    as (s & (Hc & _) & (_ & _ & _ & _ & Hp & _) & (_ & _ & _ & _ & HP & _) & _).
  rewrite HP, pidControllerAxis_previousSetpoint, (Hq s Hc). exact Hp.
Qed.

(** X9.  Only PID_STABILISATION_ON enables the controller: after
    pidStabilisationState with any other value, a tick leaves all four
    outputs of every axis at zero. *)
Theorem X9_stabilisation_off_zeroes lib inp pidProfile angleTrim now st
    pidControllerState a :
  pidControllerState <> PID_STABILISATION_ON ->
  outputsZero
    (pidController lib inp pidProfile angleTrim now
       (pidStabilisationState pidControllerState st)) a.
Proof.
  intro Hv.
  set (st1 := pidStabilisationState pidControllerState st).
  assert (H1 : pidStabilisationEnabled st1 = false).
  { unfold st1, pidStabilisationState. cbn.
    apply Z.eqb_neq in Hv. rewrite Hv. reflexivity. }
  destruct (pidController_iteration lib inp pidProfile angleTrim now st1 a)
    as (s & (_ & Hs & _) & _ & (HP & HI & HD & HS & _) & _).
  unfold outputsZero. rewrite HP, HI, HD, HS.
  apply pidControllerAxis_zero. left. congruence.
Qed.

(** ** The crash state over a tick *)

Section TickCrash.

Variable lib : platform.
Variable inp : inputs.
Variable pidProfile : Profile.t.
Variable angleTrim : rollAndPitchTrims_t.
Variable tk : tick.

(** On roll and pitch: the state on which crash detection runs has the
    configuration of the start of the iteration and the crash state left by
    the override; the iteration ends with the crash state detection leaves. *)
Lemma pidControllerAxis_crash_structure ax st :
  ax <> FD_YAW ->
  exists s delta err sp0 err0,
    cfg s = cfg st
    /\ crashSame (fst (crashRecovery inp pidProfile angleTrim tk ax sp0 err0
                         (fst (limitedSetpoint inp ax st)))) s
    /\ crashSame (crashCheck inp pidProfile tk ax delta err s)
         (pidControllerAxis lib inp pidProfile angleTrim tk st ax).
Proof.
  intro Hax. unfold pidControllerAxis. cbv zeta.
  pose proof (limitedSetpoint_frame inp ax st) as F1.
  set (s1 := fst (limitedSetpoint inp ax st)) in *.
  match goal with
  | |- context [crashRecovery inp pidProfile angleTrim tk ax ?sp ?e s1] =>
      pose proof (crashRecovery_frame inp pidProfile angleTrim tk ax sp e s1) as F2;
      set (sp0 := sp) in *; set (err0 := e) in *;
      set (r := crashRecovery inp pidProfile angleTrim tk ax sp0 err0 s1) in *
  end.
  set (err := snd (snd r)). set (sp := fst (snd r)).
  pose proof (pTerm_frame lib tk ax err (fst r)) as F3.
  pose proof (pTerm_crashSame lib tk ax err (fst r)) as P3.
  set (s3 := pTerm lib tk ax err (fst r)) in *.
  pose proof (iTerm_frame inp tk ax err s3) as F4.
  pose proof (iTerm_crashSame inp tk ax err s3) as P4.
  set (s4 := iTerm inp tk ax err s3) in *.
  destruct (dTerm_crashCheck lib inp pidProfile tk ax sp err s4 Hax)
    as (s & Cs & Cc & Ds).
  exists s, (dtermDelta lib inp tk ax sp s4), err, sp0, err0.
  split; [|split].
  - rewrite Cc.
    etransitivity; [apply (fr_cfg _ _ _ F4)|].
    etransitivity; [apply (fr_cfg _ _ _ F3)|].
    etransitivity; [apply (fr_cfg _ _ _ F2)|].
    apply (fr_cfg _ _ _ F1).
  - eapply crashSame_trans; [exact P3|].
    eapply crashSame_trans; [exact P4 | exact Cs].
  - eapply crashSame_trans; [exact Ds | apply disableOutputs_crashSame].
Qed.

(** The conditions without which lines 530-536 cannot enter recovery. *)
Lemma crashCheck_no_entry ax delta err st :
  inCrashRecoveryMode st = false ->
  Profile.crash_recovery pidProfile = 0%Z \/ gyroOverflowDetected inp = true
  \/ ARMING_FLAG_ARMED inp = false \/ motorMixRange tk < 1 ->
  inCrashRecoveryMode (crashCheck inp pidProfile tk ax delta err st) = false.
Proof.
  intros Hn H.
  destruct (crashCheck_enter inp pidProfile tk ax delta err st Hn) as [Hiff _].
  destruct (inCrashRecoveryMode (crashCheck inp pidProfile tk ax delta err st));
    [|reflexivity].
  destruct (proj1 Hiff eq_refl) as (H1 & H2 & H3 & H4).
  apply crashDetected_iff in H4. destruct H4 as (H4 & _).
  destruct H as [H | [H | [H | H]]]; [contradiction | congruence | congruence |].
  exfalso. lra.
Qed.

Lemma pidControllerAxis_no_entry ax st :
  inCrashRecoveryMode st = false ->
  Profile.crash_recovery pidProfile = 0%Z \/ gyroOverflowDetected inp = true
  \/ ARMING_FLAG_ARMED inp = false \/ motorMixRange tk < 1 ->
  inCrashRecoveryMode (pidControllerAxis lib inp pidProfile angleTrim tk st ax)
  = false.
Proof.
  intros Hn H.
  assert (Hn1 : inCrashRecoveryMode (fst (limitedSetpoint inp ax st)) = false).
  { destruct (limitedSetpoint_crashSame inp ax st) as [-> _]. exact Hn. }
  destruct (axis_eqb ax FD_YAW) eqn:Hyaw.
  - apply axis_eqb_eq in Hyaw. subst ax.
    destruct (pidControllerAxis_yaw_crashSame lib inp pidProfile angleTrim tk st)
      as [-> _].
    apply crashRecovery_stays_normal, Hn1.
  - assert (Hax : ax <> FD_YAW) by (intro; subst ax; discriminate).
    destruct (pidControllerAxis_crash_structure ax st Hax)
      as (s & delta & err & sp0 & err0 & _ & [Hs _] & [-> _]).
    apply crashCheck_no_entry; [|exact H].
    rewrite Hs. apply crashRecovery_stays_normal, Hn1.
Qed.

(** The override leaves the crash state alone unless its exit condition
    (lines 476-491) holds. *)
Lemma crashRecovery_stays ax sp err st :
  recoveryDone inp tk st
  && (negb (sensors_SENSOR_ACC inp) || nearlyLevel inp angleTrim st) = false ->
  crashSame st (fst (crashRecovery inp pidProfile angleTrim tk ax sp err st)).
Proof.
  intro H. unfold crashRecovery. cbv zeta.
  destruct (recoveryActive tk st); [|split; reflexivity].
  destruct (Profile.crash_recovery pidProfile =? PID_CRASH_RECOVERY_BEEP)%Z;
    match goal with
    | |- context [if recoveryDone inp tk ?s then _ else _] =>
        change (recoveryDone inp tk s) with (recoveryDone inp tk st);
        change (nearlyLevel inp angleTrim s) with (nearlyLevel inp angleTrim st)
    end;
    (destruct (recoveryDone inp tk st); cbn [andb] in H;
     [ destruct (sensors_SENSOR_ACC inp); cbn [negb orb] in H;
       [ rewrite H; split; reflexivity | discriminate H ]
     | split; reflexivity ]).
Qed.

(** ... and leaves recovery when it is active and the exit condition holds. *)
Lemma crashRecovery_exit ax sp err st :
  recoveryActive tk st = true ->
  recoveryDone inp tk st = true ->
  negb (sensors_SENSOR_ACC inp) || nearlyLevel inp angleTrim st = true ->
  inCrashRecoveryMode
    (fst (crashRecovery inp pidProfile angleTrim tk ax sp err st)) = false.
Proof.
  intros Ha Hd Hl. unfold crashRecovery. cbv zeta. rewrite Ha.
  destruct (Profile.crash_recovery pidProfile =? PID_CRASH_RECOVERY_BEEP)%Z;
    match goal with
    | |- context [if recoveryDone inp tk ?s then _ else _] =>
        change (recoveryDone inp tk s) with (recoveryDone inp tk st);
        change (nearlyLevel inp angleTrim s) with (nearlyLevel inp angleTrim st)
    end;
    rewrite Hd;
    (destruct (sensors_SENSOR_ACC inp); cbn [negb orb] in Hl;
     [ rewrite Hl; reflexivity | reflexivity ]).
Qed.

(** While recovering, armed and outside the early-abort window, crash
    detection changes nothing. *)
Lemma crashCheck_latched ax delta err st :
  inCrashRecoveryMode st = true ->
  ARMING_FLAG_ARMED inp = true ->
  (crashTimeDelayUs (cfg st)
   <= cmpTimeUs (currentTimeUs tk) (crashDetectedAtUs st))%Z ->
  crashCheck inp pidProfile tk ax delta err st = st.
Proof.
  intros Hr Ha Hw. unfold crashCheck. rewrite Ha.
  destruct (_ && _); [|reflexivity].
  assert (Hd : crashDetected inp tk ax delta err st = false).
  { unfold crashDetected. rewrite Hr. cbn [negb].
    rewrite andb_false_r. reflexivity. }
  rewrite Hd.
  assert (Hb : crashAborted inp tk ax err st = false).
  { unfold crashAborted.
    replace (cmpTimeUs (currentTimeUs tk) (crashDetectedAtUs st)
             <? crashTimeDelayUs (cfg st))%Z with false
      by (symmetry; apply Z.ltb_ge; exact Hw).
    rewrite andb_false_r. reflexivity. }
  rewrite Hb. reflexivity.
Qed.

Lemma recoveryDone_ext st s :
  crashSame st s -> cfg s = cfg st ->
  recoveryDone inp tk s = recoveryDone inp tk st
  /\ nearlyLevel inp angleTrim s = nearlyLevel inp angleTrim st
  /\ recoveryActive tk s = recoveryActive tk st.
Proof.
  intros [Hf Ht] Hc. unfold recoveryDone, nearlyLevel, recoveryActive.
  rewrite Hf, Ht, Hc. repeat split.
Qed.

Lemma pidControllerAxis_latched ax st :
  inCrashRecoveryMode st = true ->
  ARMING_FLAG_ARMED inp = true ->
  (crashTimeDelayUs (cfg st)
   <= cmpTimeUs (currentTimeUs tk) (crashDetectedAtUs st))%Z ->
  recoveryDone inp tk st
  && (negb (sensors_SENSOR_ACC inp) || nearlyLevel inp angleTrim st) = false ->
  crashSame st (pidControllerAxis lib inp pidProfile angleTrim tk st ax).
Proof.
  intros Hr Ha Hw He.
  pose proof (limitedSetpoint_crashSame inp ax st) as C1.
  pose proof (fr_cfg _ _ _ (limitedSetpoint_frame inp ax st)) as Hc1.
  destruct (recoveryDone_ext st _ C1 Hc1) as (E1 & E2 & _).
  assert (C2 : forall sp e,
             crashSame st
               (fst (crashRecovery inp pidProfile angleTrim tk ax sp e
                       (fst (limitedSetpoint inp ax st))))).
  { intros sp e. eapply crashSame_trans; [exact C1|].
    apply crashRecovery_stays. rewrite E1, E2. exact He. }
  destruct (axis_eqb ax FD_YAW) eqn:Hyaw.
  - apply axis_eqb_eq in Hyaw. subst ax.
    eapply crashSame_trans; [apply C2|].
    apply pidControllerAxis_yaw_crashSame.
  - assert (Hax : ax <> FD_YAW) by (intro; subst ax; discriminate).
    destruct (pidControllerAxis_crash_structure ax st Hax)
      as (s & delta & err & sp0 & err0 & Hc & Hs & Hf).
    assert (Cs : crashSame st s) by (eapply crashSame_trans; [apply C2 | exact Hs]).
    eapply crashSame_trans; [exact Cs|].
    rewrite crashCheck_latched in Hf; [exact Hf | | exact Ha |].
    + destruct Cs as [-> _]. exact Hr.
    + destruct Cs as [_ ->]. rewrite Hc. exact Hw.
Qed.

(** The beeper is switched on only by line 460. *)
Lemma pidControllerAxis_beeper ax st :
  beeper (pidControllerAxis lib inp pidProfile angleTrim tk st ax) = true ->
  beeper st = true
  \/ Profile.crash_recovery pidProfile = PID_CRASH_RECOVERY_BEEP.
Proof.
  unfold pidControllerAxis. cbv zeta.
  destruct (limitedSetpoint_shape inp ax st) as [v Hv].
  set (s1 := fst (limitedSetpoint inp ax st)) in *.
  assert (B1 : beeper s1 = beeper st) by (rewrite Hv; reflexivity).
  match goal with
  | |- context [crashRecovery inp pidProfile angleTrim tk ax ?sp ?e s1] =>
      set (r := crashRecovery inp pidProfile angleTrim tk ax sp e s1)
  end.
  assert (B2 : beeper (fst r) = true ->
               beeper s1 = true
               \/ Profile.crash_recovery pidProfile = PID_CRASH_RECOVERY_BEEP).
  { unfold r, crashRecovery, leaveRecovery. cbv zeta.
    destruct (Z.eqb_spec (Profile.crash_recovery pidProfile)
                PID_CRASH_RECOVERY_BEEP) as [Hb | Hb];
      [intros _; right; exact Hb|].
    repeat match goal with
           | |- context [if ?b then _ else _] => destruct b
           end; cbn; intro H; try discriminate H; left; exact H. }
  set (err := snd (snd r)). set (sp := fst (snd r)).
  set (s4 := iTerm inp tk ax err (pTerm lib tk ax err (fst r))).
  assert (B4 : beeper s4 = beeper (fst r)).
  { unfold s4, iTerm, pTerm. cbv zeta.
    destruct (axis_eqb ax FD_YAW); destruct (_ || _); reflexivity. }
  assert (B5 : beeper (dTerm lib inp pidProfile tk ax sp err s4) = true ->
               beeper s4 = true).
  { unfold dTerm. destruct (negb (axis_eqb ax FD_YAW)); [|exact (fun H => H)].
    cbv zeta. cbn [beeper set_axisPIDSum set_axisPID_D].
    unfold crashCheck, leaveRecovery.
    repeat match goal with
           | |- context [if ?b then _ else _] => destruct b
           end; cbn; intro H; try discriminate H; exact H. }
  intro H.
  assert (H5 : beeper (dTerm lib inp pidProfile tk ax sp err s4) = true).
  { revert H. unfold disableOutputs. destruct (_ || _); exact (fun H => H). }
  apply B5 in H5. rewrite B4 in H5. apply B2 in H5. rewrite B1 in H5. exact H5.
Qed.

End TickCrash.

(** X10.  A tick never enters crash recovery when the feature is off in the
    profile, when the gyro has overflowed, when the motors are disarmed or
    when the mixer is not fully saturated: from Normal it ends in Normal. *)
Theorem X10_never_enters_recovery lib inp pidProfile angleTrim now st :
  inCrashRecoveryMode st = false ->
  Profile.crash_recovery pidProfile = PID_CRASH_RECOVERY_OFF
  \/ gyroOverflowDetected inp = true
  \/ ARMING_FLAG_ARMED inp = false
  \/ getMotorMixRange inp < 1 ->
  inCrashRecoveryMode (pidController lib inp pidProfile angleTrim now st)
  = false.
Proof.
  intros Hn H. unfold pidController. cbv zeta. simpl fold_left.
  repeat apply pidControllerAxis_no_entry; try exact H. exact Hn.
Qed.

(** X11.  Recovery is latched: while Recovering with the motors armed and the
    early-abort window over, a tick during which the exit condition of lines
    476-491 does not hold ends in Recovering, with the time stamp of the
    entry unchanged. *)
Theorem X11_recovery_latched lib inp pidProfile angleTrim now st :
  inCrashRecoveryMode st = true ->
  ARMING_FLAG_ARMED inp = true ->
  (crashTimeDelayUs (cfg st) <= cmpTimeUs now (crashDetectedAtUs st))%Z ->
  recoveryDone inp (tickValues inp now st) st
  && (negb (sensors_SENSOR_ACC inp) || nearlyLevel inp angleTrim st) = false ->
  inCrashRecoveryMode (pidController lib inp pidProfile angleTrim now st) = true
  /\ crashDetectedAtUs (pidController lib inp pidProfile angleTrim now st)
     = crashDetectedAtUs st.
Proof.
  intros Hr Ha Hw He. unfold pidController. cbv zeta. simpl fold_left.
  set (tk := tickValues inp now st) in *.
  set (s0 := set_previousTimeUs now st).
  assert (Step : forall ax s,
             crashSame st s -> cfg s = cfg st ->
             crashSame st (pidControllerAxis lib inp pidProfile angleTrim tk s ax)
             /\ cfg (pidControllerAxis lib inp pidProfile angleTrim tk s ax)
                = cfg st).
  { intros ax s Cs Hc.
    destruct (recoveryDone_ext inp angleTrim tk st s Cs Hc) as (E1 & E2 & _).
    split.
    - eapply crashSame_trans; [exact Cs|].
      apply pidControllerAxis_latched.
      + destruct Cs as [-> _]. exact Hr.
      + exact Ha.
      + destruct Cs as [_ ->]. rewrite Hc. exact Hw.
      + rewrite E1, E2. exact He.
    - rewrite (fr_cfg _ _ _ (pidControllerAxis_frame _ _ _ _ _ _ _)). exact Hc. }
  assert (C0 : crashSame st s0) by (split; reflexivity).
  destruct (Step FD_ROLL s0 C0 eq_refl) as [C1 H1].
  destruct (Step FD_PITCH _ C1 H1) as [C2 H2].
  destruct (Step FD_YAW _ C2 H2) as [[Cf Ct] _].
  rewrite Cf, Ct. split; [exact Hr | reflexivity].
Qed.

(** X12.  Recovery ends when its exit condition holds: Recovering, past the delay,
    with the exit condition of lines 476-491 true, a tick ends in Normal,
    provided crash detection cannot start a new recovery in the same tick
    (feature off, gyro overflow, disarmed or mixer not fully saturated). *)
Theorem X12_recovery_exits lib inp pidProfile angleTrim now st :
  recoveryActive (tickValues inp now st) st = true ->
  recoveryDone inp (tickValues inp now st) st = true ->
  negb (sensors_SENSOR_ACC inp) || nearlyLevel inp angleTrim st = true ->
  Profile.crash_recovery pidProfile = PID_CRASH_RECOVERY_OFF
  \/ gyroOverflowDetected inp = true
  \/ ARMING_FLAG_ARMED inp = false
  \/ getMotorMixRange inp < 1 ->
  inCrashRecoveryMode (pidController lib inp pidProfile angleTrim now st)
  = false.
Proof.
  intros Ha Hd Hl H. unfold pidController. cbv zeta. simpl fold_left.
  set (tk := tickValues inp now st) in *.
  set (s0 := set_previousTimeUs now st).
  do 2 (apply pidControllerAxis_no_entry; [|exact H]).
  destruct (pidControllerAxis_crash_structure lib inp pidProfile angleTrim tk
              FD_ROLL s0 ltac:(discriminate))
    as (s & delta & err & sp0 & err0 & _ & [Hs _] & [-> _]).
  apply crashCheck_no_entry; [|exact H].
  rewrite Hs.
  pose proof (limitedSetpoint_crashSame inp FD_ROLL s0) as C1.
  pose proof (fr_cfg _ _ _ (limitedSetpoint_frame inp FD_ROLL s0)) as Hc1.
  destruct (recoveryDone_ext inp angleTrim tk s0 _ C1 Hc1) as (E1 & E2 & E3).
  apply crashRecovery_exit.
  - rewrite E3. exact Ha.
  - rewrite E1. exact Hd.
  - rewrite E2. exact Hl.
Qed.

(** X13.  The beeper is switched on only under the BEEP setting: if it is on
    after a tick, it was on before or the profile has crash_recovery set to
    PID_CRASH_RECOVERY_BEEP. *)
Theorem X13_beeper_only_with_beep lib inp pidProfile angleTrim now st :
  beeper (pidController lib inp pidProfile angleTrim now st) = true ->
  beeper st = true
  \/ Profile.crash_recovery pidProfile = PID_CRASH_RECOVERY_BEEP.
Proof.
  unfold pidController. cbv zeta. simpl fold_left. intro H.
  apply pidControllerAxis_beeper in H. destruct H as [H | H]; [|right; exact H].
  apply pidControllerAxis_beeper in H. destruct H as [H | H]; [|right; exact H].
  apply pidControllerAxis_beeper in H. destruct H as [H | H]; [|right; exact H].
  left. exact H.
Qed.

(** ** Leveling *)

Lemma constrainf_mono (x y low high : Q) :
  low <= high -> x <= y -> constrainf x low high <= constrainf y low high.
Proof.
  intros Hl Hxy. unfold constrainf.
  qcase (Qltb x low); qcase (Qltb y low); try lra;
    qcase (Qgtb x high); qcase (Qgtb y high); lra.
Qed.

Lemma Qdiv_le_compat_pos (x y c : Q) : 0 < c -> x <= y -> x / c <= y / c.
Proof.
  intros Hc Hxy. unfold Qdiv. apply Qmult_le_compat_r; [exact Hxy|].
  apply Qlt_le_weak, Qinv_lt_0_compat, Hc.
Qed.

Lemma Qdiv_nonpos (x c : Q) : 0 < c -> x <= 0 -> x / c <= 0.
Proof.
  intros Hc Hx. apply Qle_trans with (0 / c).
  - apply Qdiv_le_compat_pos; assumption.
  - unfold Qdiv. rewrite Qmult_0_l. apply Qle_refl.
Qed.

Lemma constrainf_unit_nonpos (x : Q) : x <= 0 -> constrainf x 0 1 == 0.
Proof.
  intro H. unfold constrainf.
  qcase (Qltb x 0); [reflexivity|]. qcase (Qgtb x 1); lra.
Qed.

(** X14.  The leveling strength is a factor between 0 and 1, it does not grow
    with the inclination, and it is zero once the inclination reaches the
    cutoff. *)
Theorem X14_strength_fades inp1 inp2 c :
  0 <= calcHorizonLevelStrength inp1 c <= 1
  /\ (inclinationDegrees inp1 <= inclinationDegrees inp2 ->
      calcHorizonLevelStrength inp2 c <= calcHorizonLevelStrength inp1 c)
  /\ (horizonCutoffDegrees c <= inclinationDegrees inp1 ->
      calcHorizonLevelStrength inp1 c == 0).
Proof.
  assert (U : (0 : Q) <= 1) by discriminate.
  split; [apply constrainf_range, U|].
  unfold calcHorizonLevelStrength. cbv zeta.
  destruct (negb (horizonTiltExpertMode c =? 0)%Z).
  - destruct (Qgtb (horizonTransition c) 0); cbn [andb].
    + qcase (Qgtb (horizonCutoffDegrees c) 0).
      * rewrite !constrainf_unit_idem. split; intro H.
        -- apply constrainf_mono; [exact U|].
           apply Qdiv_le_compat_pos; [exact E | lra].
        -- apply constrainf_unit_nonpos, Qdiv_nonpos; [exact E | lra].
      * split; intro; [apply Qle_refl | reflexivity].
    + split; intro; [apply Qle_refl | reflexivity].
  - qcase (Qgtb (horizonCutoffDegrees c) 0).
    + rewrite !constrainf_unit_idem. split; intro H.
      * apply constrainf_mono; [exact U|].
        apply Qdiv_le_compat_pos; [exact E | lra].
      * apply constrainf_unit_nonpos, Qdiv_nonpos; [exact E | lra].
    + split; intro; [apply Qle_refl | reflexivity].
Qed.

(** X15.  A horizon_tilt_effect of 175 or more switches horizon leveling off: the
    derived cutoff is not positive, the strength is zero and, in the expert
    sub-mode of horizon mode, pidLevel returns the raw setpoint. *)
Theorem X15_tilt_effect_175 lib pidProfile st inp ax angleTrim
    rawSetpoint :
  (175 <= Profile.horizon_tilt_effect pidProfile)%Z ->
  let c := cfg (pidInitConfig lib pidProfile st) in
  calcHorizonLevelStrength inp c = 0
  /\ (FLIGHT_MODE inp ANGLE_MODE = false ->
      Profile.horizon_tilt_expert_mode pidProfile <> 0%Z ->
      pidLevel inp c ax pidProfile angleTrim rawSetpoint == rawSetpoint).
Proof.
  intro Ht. cbv zeta.
  assert (Hc : Qgtb (horizonCutoffDegrees (cfg (pidInitConfig lib pidProfile st))) 0
               = false).
  { apply Qgtb_le. cbn [horizonCutoffDegrees cfg pidInitConfig set_cfg].
    assert (Hi : inject_Z (175 - Profile.horizon_tilt_effect pidProfile) <= 0).
    { change 0 with (inject_Z 0). rewrite <- Zle_Qle. lia. }
    apply Qle_trans with (0 * (18 # 10)).
    - apply Qmult_le_compat_r; [exact Hi | discriminate].
    - discriminate. }
  assert (Hs : calcHorizonLevelStrength inp (cfg (pidInitConfig lib pidProfile st))
               = 0).
  { unfold calcHorizonLevelStrength. cbv zeta. rewrite Hc, andb_false_r.
    destruct (negb _); reflexivity. }
  split; [exact Hs|].
  intros Ha He. unfold pidLevel. cbv zeta. rewrite Ha, Hs.
  cbn [horizonTiltExpertMode cfg pidInitConfig set_cfg].
  apply Z.eqb_neq in He. rewrite He. cbn [negb]. ring.
Qed.

(** X16.  The angle that pidLevel aims at -- stick deflection times the limit,
    plus the GPS correction -- is clamped: it never exceeds levelAngleLimit
    in either direction. *)
Theorem X16_target_angle_bounded inp ax pidProfile angleTrim :
  (0 <= Profile.levelAngleLimit pidProfile)%Z ->
  Qabs (levelErrorAngle inp ax pidProfile angleTrim
        + inject_Z (attitude_raw inp ax - angleTrim ax) / 10)
  <= inject_Z (Profile.levelAngleLimit pidProfile).
Proof.
  intro Hl. unfold levelErrorAngle. cbv zeta.
  set (L := Profile.levelAngleLimit pidProfile) in *.
  assert (HL : 0 <= inject_Z L) by (apply inject_Z_nonneg, Hl).
  assert (Ho : inject_Z (- L) == - inject_Z L)
    by (rewrite inject_Z_opp; reflexivity).
  match goal with
  | |- context [constrainf ?a ?lo ?hi] =>
      pose proof (constrainf_range a lo hi) as Hr; set (angle := constrainf a lo hi) in *
  end.
  assert (Hr' : inject_Z (- L) <= angle <= inject_Z L) by (apply Hr; lra).
  apply Qabs_Qle_condition.
  setoid_replace (angle - inject_Z (attitude_raw inp ax - angleTrim ax) / 10
                  + inject_Z (attitude_raw inp ax - angleTrim ax) / 10)
    with angle by ring.
  lra.
Qed.

(** X17.  Angle mode has the last word: with the angle flag set, a tick of
    pidController that starts in Normal, with stabilisation on and no gyro
    overflow, computes the P output of roll and of pitch from the setpoint
    errorAngle x levelGain -- whatever the horizon flag, the stick rate and
    the acceleration limiter. *)
Theorem X17_angle_mode_overrides lib inp pidProfile angleTrim now st a :
  FLIGHT_MODE inp ANGLE_MODE = true ->
  a <> FD_YAW ->
  inCrashRecoveryMode st = false ->
  (0 <= crashTimeDelayUs (cfg st))%Z ->
  pidStabilisationEnabled st = true ->
  gyroOverflowDetected inp = false ->
  axisPID_P (pidController lib inp pidProfile angleTrim now st) a
  = Kp (cfg st) a
    * (levelErrorAngle inp a pidProfile angleTrim * levelGain (cfg st)
       - gyroADCf inp a)
    * getThrottlePIDAttenuation inp.
Proof.
  intros Ha Hax Hn Hd Hs Hg.
  rewrite (pidController_P_setpoint lib inp pidProfile angleTrim now st a
             Hn Hd Hs Hg).
  cbv zeta.
  replace (axis_eqb a FD_YAW) with false
    by (destruct a; [reflexivity | reflexivity | contradiction]).
  assert (H : axisSetpoint inp pidProfile angleTrim a st
              = levelErrorAngle inp a pidProfile angleTrim * levelGain (cfg st)).
  { unfold axisSetpoint, leveledSetpoint. cbv zeta. rewrite Ha.
    replace (axis_eqb a YAW) with false
      by (destruct a; [reflexivity | reflexivity | contradiction]).
    cbn [negb andb]. unfold pidLevel. rewrite Ha. reflexivity. }
  rewrite H. reflexivity.
Qed.

(** ** Set-up *)

(** X18.  The integer Nyquist frequency that pidInitFilters computes in
    binary32 for a loop time of [looptime] microseconds is 500000 / looptime
    rounded down, or one less; it is never more.  (The comment of line 197,
    "No rounding needed", holds in that direction only: at 125 us the
    integer is 3999.) *)
Theorem X18_nyquist_bounds looptime st :
  (0 < looptime < 2 ^ 32)%Z ->
  (500000 / looptime - 1
   <= pidFrequencyNyquist (pidSetTargetLooptime looptime st)
   <= 500000 / looptime)%Z.
Proof.
  intros [Hl _].
  destruct (pidFrequencyNyquist_bounds (pidSetTargetLooptime looptime st) Hl)
    as (_ & H1 & H2).
  split; assumption.
Qed.

Lemma initRollPitch_at init arr a :
  initRollPitch init arr a
  = if axis_eqb a FD_YAW then arr a else init (arr a).
Proof. destruct a; reflexivity. Qed.

(** X19.  What pidInitFilters leaves in the storage of the filters, with a
    loop period set.  A stage that is switched off keeps its storage as it
    was; an active stage has, on roll and on pitch (the yaw low-pass: in its
    one instance), the storage that the init function of its kind returns
    for the configured cutoff: biquadFilterInit with the clamped centre
    frequency, the looptime and the Q of the two notch frequencies;
    pt1FilterInit with the cutoff and dT; biquadFilterInitLPF or
    firFilterDenoiseInit with the cutoff and the looptime.  The D-term
    storage of yaw is never touched, and the function pointer of the
    low-pass is the apply function of the configured filter type. *)
Theorem X19_filter_storage lib pidProfile st a :
  targetPidLooptime st <> 0%Z ->
  let st' := pidInitFilters lib pidProfile st in
  let notchHz := dTermNotchHz pidProfile (pidFrequencyNyquist st) in
  let lpfHz := Profile.dterm_lpf_hz pidProfile in
  dtermFilterNotch (filters st') a
  = (if axis_eqb a FD_YAW then dtermFilterNotch (filters st) a
     else match dtermNotchFilterApplyFn (filters st') with
          | nullFilterApply => dtermFilterNotch (filters st) a
          | _ =>
              biquadFilterInit lib (dtermFilterNotch (filters st) a) notchHz
                (targetPidLooptime st)
                (filterGetNotchQ lib notchHz
                   (Profile.dterm_notch_cutoff pidProfile))
                FILTER_NOTCH
          end)
  /\ dtermFilterLpf (filters st') a
     = (if axis_eqb a FD_YAW then dtermFilterLpf (filters st) a
        else match dtermLpfApplyFn (filters st') with
             | nullFilterApply => dtermFilterLpf (filters st) a
             | pt1FilterApply =>
                 pt1FilterInit lib (dtermFilterLpf (filters st) a) lpfHz (dT st)
             | biquadFilterApply =>
                 biquadFilterInitLPF lib (dtermFilterLpf (filters st) a) lpfHz
                   (targetPidLooptime st)
             | firFilterDenoiseUpdate =>
                 firFilterDenoiseInit lib (dtermFilterLpf (filters st) a) lpfHz
                   (targetPidLooptime st)
             end)
  /\ ptermYawFilter (filters st')
     = match ptermYawFilterApplyFn (filters st') with
       | nullFilterApply => ptermYawFilter (filters st)
       | _ =>
           pt1FilterInit lib (ptermYawFilter (filters st))
             (Profile.yaw_lpf_hz pidProfile) (dT st)
       end
  /\ (dtermLpfApplyFn (filters st') <> nullFilterApply ->
      (dtermLpfApplyFn (filters st') = pt1FilterApply <->
       Profile.dterm_filter_type pidProfile = FILTER_PT1)
      /\ (dtermLpfApplyFn (filters st') = biquadFilterApply <->
          Profile.dterm_filter_type pidProfile = FILTER_BIQUAD)
      /\ (dtermLpfApplyFn (filters st') = firFilterDenoiseUpdate <->
          Profile.dterm_filter_type pidProfile = FILTER_FIR)).
Proof.
  intro Hl. cbv zeta.
  unfold pidInitFilters. apply Z.eqb_neq in Hl. rewrite Hl. cbv zeta.
  destruct (negb (dTermNotchHz pidProfile (pidFrequencyNyquist st) =? 0)%Z
            && negb (Profile.dterm_notch_cutoff pidProfile =? 0)%Z);
    destruct ((Profile.dterm_lpf_hz pidProfile =? 0)%Z
              || (Profile.dterm_lpf_hz pidProfile >? pidFrequencyNyquist st)%Z);
    destruct ((Profile.yaw_lpf_hz pidProfile =? 0)%Z
              || (Profile.yaw_lpf_hz pidProfile >? pidFrequencyNyquist st)%Z);
    destruct (Z.eqb_spec (Profile.dterm_filter_type pidProfile) FILTER_PT1)
      as [T1 | T1];
    destruct (Z.eqb_spec (Profile.dterm_filter_type pidProfile) FILTER_BIQUAD)
      as [T2 | T2];
    destruct (Z.eqb_spec (Profile.dterm_filter_type pidProfile) FILTER_FIR)
      as [T3 | T3];
    cbn; rewrite ?initRollPitch_at;
    (split; [destruct a; reflexivity|]);
    (split; [destruct a; reflexivity|]);
    (split; [reflexivity|]);
    intro X; try (exfalso; apply X; reflexivity);
    repeat split; intro Y; try assumption; try reflexivity;
    try discriminate Y; try congruence;
    unfold FILTER_PT1, FILTER_BIQUAD, FILTER_FIR in *; lia.
Qed.

(** X20.  The derived parameters are a function of the scale constants, the
    profile and the loop period: pidInitConfig overwrites every one of them,
    so two states with the same dT get the same parameters, whatever they
    held before. *)
Theorem X20_derived_pure lib pidProfile st1 st2 a :
  dT st1 = dT st2 ->
  derivedAt (cfg (pidInitConfig lib pidProfile st1)) a
  = derivedAt (cfg (pidInitConfig lib pidProfile st2)) a.
Proof.
  intro H. unfold derivedAt, pidInitConfig. cbn. rewrite H.
  destruct a; reflexivity.
Qed.

(** X21.  For a profile whose fields are within their C types, the integer
    products of pidInitConfig stay far inside the 32-bit range and none of
    the derived limits and thresholds is negative (the velocities given a
    non-negative loop period). *)
Theorem X21_derived_ranges lib pidProfile st :
  Profile.ok pidProfile = true ->
  0 <= dT st ->
  let c := cfg (pidInitConfig lib pidProfile st) in
  (0 <= crashTimeLimitUs c <= 65535000
   /\ 0 <= crashTimeDelayUs c <= 65535000
   /\ 0 <= crashRecoveryAngleDeciDegrees c <= 2550)%Z
  /\ 0 <= itermLimit c /\ 0 <= crashLimitYaw c
  /\ 0 <= crashRecoveryRate c /\ 0 <= crashDtermThreshold c
  /\ 0 <= crashGyroThreshold c /\ 0 <= crashSetpointThreshold c
  /\ (forall a, 0 <= maxVelocity c a)
  /\ maxVelocity c FD_ROLL = maxVelocity c FD_PITCH.
Proof.
  intros Hp Hd. cbv zeta.
  destruct (pidInitConfig_limitsNonneg lib pidProfile st Hp Hd) as (_ & HL & HV).
  pose proof (Profile_ok_crash_times pidProfile Hp) as Hc.
  revert Hp. unfold Profile.ok. rewrite !andb_true_iff.
  unfold Profile.u16, Profile.u8. rewrite !andb_true_iff. intro Hp.
  split; [cbn; lia|].
  split; [exact HL|].
  repeat split; try (cbn; apply inject_Z_nonneg; intuition lia).
  exact HV.
Qed.

(** X22.  With no looptime (a zero gyro looptime or denominator, or a product
    that is a multiple of 2^32), pidInit installs no filter, sets dT to zero
    and every maxVelocity to zero: the acceleration limiter is bypassed. *)
Theorem X22_no_looptime lib gyroTargetLooptime pid_process_denom
    pidProfile st :
  u32 (gyroTargetLooptime * pid_process_denom) = 0%Z ->
  let st' := pidInit lib gyroTargetLooptime pid_process_denom pidProfile st in
  filterFns st' = (nullFilterApply, nullFilterApply, nullFilterApply)
  /\ dT st' == 0
  /\ (forall a, maxVelocity (cfg st') a == 0).
Proof.
  intro H. cbv zeta. unfold pidInit. cbv zeta. rewrite H.
  unfold pidInitFilters.
  change (targetPidLooptime (pidSetTargetLooptime 0 st) =? 0)%Z with true.
  cbv iota. split; [reflexivity|]. split; [reflexivity|].
  intros []; cbn; ring.
Qed.

(** X23.  The elapsed time of a tick is right across the wrap of the 32-bit
    microsecond clock: if the clock has advanced by [elapsed] microseconds
    (less than 2^32) since the previous tick, deltaT is elapsed / 10^6. *)
Theorem X23_deltaT_across_wrap inp st elapsed :
  (0 <= previousTimeUs st < 2 ^ 32)%Z ->
  (0 <= elapsed < 2 ^ 32)%Z ->
  deltaT (tickValues inp (u32 (previousTimeUs st + elapsed)) st)
  = inject_Z elapsed * (1 # 1000000).
Proof.
  intros Hp He. cbn [deltaT tickValues]. unfold u32.
  rewrite Zminus_mod_idemp_l.
  replace (previousTimeUs st + elapsed - previousTimeUs st)%Z with elapsed
    by lia.
  rewrite Z.mod_small by lia. reflexivity.
Qed.

(** ** Profile storage *)

Lemma setNth_length {A : Type} n (v : A) arr :
  length (setNth n v arr) = length arr.
Proof.
  revert n. induction arr as [|h t IH]; intros [|n]; cbn; auto.
Qed.

Lemma setNth_same {A : Type} n (v : A) arr :
  (n < length arr)%nat -> nth_error (setNth n v arr) n = Some v.
Proof.
  revert n. induction arr as [|h t IH]; intros [|n] H; cbn in *; try lia; auto.
  apply IH. lia.
Qed.

Lemma setNth_other {A : Type} n m (v : A) arr :
  m <> n -> nth_error (setNth n v arr) m = nth_error arr m.
Proof.
  revert n m. induction arr as [|h t IH]; intros [|n] [|m] H; cbn; auto;
    try contradiction; try (apply IH; congruence).
Qed.

(** X24.  pidCopyProfile with two different indices below MAX_PROFILE_COUNT - 1
    makes the destination a copy of the source and leaves every other
    profile, and the number of profiles, as they were. *)
Theorem X24_copy_profile {A : Type} MAX_PROFILE_COUNT dst src
    (pidProfiles : list A) :
  length pidProfiles = Z.to_nat MAX_PROFILE_COUNT ->
  (0 <= dst < MAX_PROFILE_COUNT - 1)%Z ->
  (0 <= src < MAX_PROFILE_COUNT - 1)%Z ->
  dst <> src ->
  let copied := pidCopyProfile MAX_PROFILE_COUNT dst src pidProfiles in
  nth_error copied (Z.to_nat dst) = nth_error pidProfiles (Z.to_nat src)
  /\ (forall i, i <> Z.to_nat dst ->
        nth_error copied i = nth_error pidProfiles i)
  /\ length copied = length pidProfiles.
Proof.
  intros Hlen Hd Hs Hne. cbv zeta. unfold pidCopyProfile.
  replace (dst <? MAX_PROFILE_COUNT - 1)%Z with true
    by (symmetry; apply Z.ltb_lt; lia).
  replace (src <? MAX_PROFILE_COUNT - 1)%Z with true
    by (symmetry; apply Z.ltb_lt; lia).
  replace (dst =? src)%Z with false by (symmetry; apply Z.eqb_neq; exact Hne).
  cbn [andb negb].
  destruct (nth_error pidProfiles (Z.to_nat src)) as [p|] eqn:E.
  - split; [|split].
    + apply setNth_same. rewrite Hlen. lia.
    + intros i Hi. apply setNth_other, Hi.
    + apply setNth_length.
  - exfalso. apply nth_error_None in E. rewrite Hlen in E. lia.
Qed.

(** X25.  pidCopyProfile never touches the last profile and never changes the
    number of profiles, whatever its arguments; with equal indices, or with
    an index at or above MAX_PROFILE_COUNT - 1 (the last profile included),
    it does nothing at all. *)
Theorem X25_copy_profile_refuses {A : Type} MAX_PROFILE_COUNT dst src
    (pidProfiles : list A) :
  (0 <= dst)%Z ->
  let copied := pidCopyProfile MAX_PROFILE_COUNT dst src pidProfiles in
  nth_error copied (Z.to_nat (MAX_PROFILE_COUNT - 1))
  = nth_error pidProfiles (Z.to_nat (MAX_PROFILE_COUNT - 1))
  /\ length copied = length pidProfiles
  /\ ((MAX_PROFILE_COUNT - 1 <= dst)%Z \/ (MAX_PROFILE_COUNT - 1 <= src)%Z
      \/ dst = src -> copied = pidProfiles).
Proof.
  intro Hd. cbv zeta. unfold pidCopyProfile.
  destruct (Z.ltb_spec dst (MAX_PROFILE_COUNT - 1));
    destruct (Z.ltb_spec src (MAX_PROFILE_COUNT - 1));
    destruct (Z.eqb_spec dst src); cbn [andb negb];
    try (repeat split; intros; reflexivity).
  destruct (nth_error pidProfiles (Z.to_nat src)) as [p|].
  - split; [|split].
    + apply setNth_other. lia.
    + apply setNth_length.
    + intros [? | [? | ?]]; exfalso; lia.
  - repeat split.
Qed.

(** * Worked examples for the further properties *)

Lemma X1_limiter_never_overshoots_witness :
  0 <= maxVelocity (cfg exampleState) FD_YAW
  /\ (previousSetpoint exampleState FD_YAW <= 300 ->
      previousSetpoint exampleState FD_YAW
      <= snd (accelerationLimit FD_YAW 300 exampleState)
      /\ snd (accelerationLimit FD_YAW 300 exampleState) <= 300).
Proof.
  assert (H : 0 <= maxVelocity (cfg exampleState) FD_YAW)
    by (intro E; vm_compute in E; discriminate E).
  split; [exact H|].
  exact (proj1 (proj2 (X1_limiter_never_overshoots FD_YAW 300 exampleState H))).
Defined.

(** A yaw request of 7 deg/s from rest, with 10 deg/s allowed per call. *)
Lemma X2_limiter_holds_request_witness :
  0 <= maxVelocity (cfg exampleState) FD_YAW
  /\ (1 <= 3)%nat
  /\ Qabs (7 - previousSetpoint exampleState FD_YAW)
     <= maxVelocity (cfg exampleState) FD_YAW
  /\ previousSetpoint (accelerationLimitRepeat 3 FD_YAW 7 exampleState) FD_YAW
     = 7
  /\ snd (accelerationLimit FD_YAW 7
            (accelerationLimitRepeat 3 FD_YAW 7 exampleState)) = 7.
Proof.
  assert (H1 : 0 <= maxVelocity (cfg exampleState) FD_YAW)
    by (intro E; vm_compute in E; discriminate E).
  assert (H2 : (1 <= 3)%nat) by lia.
  assert (H3 : Qabs (7 - previousSetpoint exampleState FD_YAW)
               <= maxVelocity (cfg exampleState) FD_YAW)
    by (intro E; vm_compute in E; discriminate E).
  split; [exact H1|]. split; [exact H2|]. split; [exact H3|].
  exact (X2_limiter_holds_request 3 FD_YAW 7 exampleState H1 H2 H3).
Defined.

Lemma X6_saturated_tick_no_growth_witness :
  (forall errorRate, mixerIsOutputSaturated crashInputs FD_ROLL errorRate = true)
  /\ Qabs (axisPID_I (pidController exampleLib crashInputs crashProfile
                        exampleTrim 1000 crashReadyState) FD_ROLL)
     <= Qabs (axisPID_I crashReadyState FD_ROLL).
Proof.
  assert (H : forall errorRate,
             mixerIsOutputSaturated crashInputs FD_ROLL errorRate = true)
    by (intro; reflexivity).
  split; [exact H|].
  exact (X6_saturated_tick_no_growth exampleLib crashInputs crashProfile
           exampleTrim 1000 crashReadyState FD_ROLL H).
Defined.

Lemma X7_integral_frozen_witness :
  reachable exampleLib exampleState
  /\ ~ ITermWindupPointInv (cfg exampleState) == 0
  /\ getMotorMixRange crashInputs == 1
  /\ inCrashRecoveryMode exampleState = false
  /\ pidStabilisationEnabled exampleState = true
  /\ gyroOverflowDetected crashInputs = false
  /\ Qabs (axisPID_I exampleState FD_ROLL) <= itermLimit (cfg exampleState)
  /\ axisPID_I (pidController exampleLib crashInputs resetPidProfile exampleTrim
                  1000 exampleState) FD_ROLL
     == axisPID_I exampleState FD_ROLL.
Proof.
  assert (H0 : ~ ITermWindupPointInv (cfg exampleState) == 0)
    by (intro E; vm_compute in E; discriminate E).
  assert (H1 : getMotorMixRange crashInputs == 1) by reflexivity.
  assert (H2 : Qabs (axisPID_I exampleState FD_ROLL)
               <= itermLimit (cfg exampleState))
    by (intro E; vm_compute in E; discriminate E).
  split; [exact exampleState_reachable|]. split; [exact H0|].
  split; [exact H1|].
  split; [reflexivity|]. split; [reflexivity|]. split; [reflexivity|].
  split; [exact H2|].
  exact (X7_integral_frozen exampleLib crashInputs resetPidProfile exampleTrim
           1000 exampleState FD_ROLL exampleState_reachable H0 (or_introl H1)
           eq_refl eq_refl eq_refl H2).
Defined.

(** The default profile has rateAccelLimit = 0: no limiter on roll. *)
Lemma X8_limiter_bypassed_witness :
  maxVelocity (cfg exampleState) FD_ROLL == 0
  /\ limitedSetpoint exampleInputs FD_ROLL exampleState
     = (exampleState, getSetpointRate exampleInputs FD_ROLL)
  /\ previousSetpoint (pidController exampleLib exampleInputs resetPidProfile
                         exampleTrim 1000 exampleState) FD_ROLL
     = previousSetpoint exampleState FD_ROLL.
Proof.
  assert (H : maxVelocity (cfg exampleState) FD_ROLL == 0)
    by (vm_compute; reflexivity).
  split; [exact H|].
  exact (X8_limiter_bypassed exampleLib exampleInputs resetPidProfile
           exampleTrim 1000 exampleState FD_ROLL H).
Defined.

Lemma X9_stabilisation_off_zeroes_witness :
  PID_STABILISATION_OFF <> PID_STABILISATION_ON
  /\ outputsZero
       (pidController exampleLib exampleInputs resetPidProfile exampleTrim 1000
          (pidStabilisationState PID_STABILISATION_OFF exampleState)) FD_ROLL.
Proof.
  assert (H : PID_STABILISATION_OFF <> PID_STABILISATION_ON)
    by (intro E; discriminate E).
  split; [exact H|].
  exact (X9_stabilisation_off_zeroes exampleLib exampleInputs resetPidProfile
           exampleTrim 1000 exampleState PID_STABILISATION_OFF FD_ROLL H).
Defined.

(** The crash of [crashInputs] with the feature off: nothing happens. *)
Lemma X10_never_enters_recovery_witness :
  inCrashRecoveryMode exampleState = false
  /\ Profile.crash_recovery resetPidProfile = PID_CRASH_RECOVERY_OFF
  /\ inCrashRecoveryMode
       (pidController exampleLib crashInputs resetPidProfile exampleTrim 1000
          exampleState) = false.
Proof.
  split; [reflexivity|]. split; [reflexivity|].
  exact (X10_never_enters_recovery exampleLib crashInputs resetPidProfile
           exampleTrim 1000 exampleState eq_refl (or_introl eq_refl)).
Defined.

(** One tick after the crash, still saturated: recovery continues. *)
Lemma X11_recovery_latched_witness :
  inCrashRecoveryMode recoveringState = true
  /\ ARMING_FLAG_ARMED crashInputs = true
  /\ (crashTimeDelayUs (cfg recoveringState)
      <= cmpTimeUs 2000 (crashDetectedAtUs recoveringState))%Z
  /\ recoveryDone crashInputs (tickValues crashInputs 2000 recoveringState)
       recoveringState
     && (negb (sensors_SENSOR_ACC crashInputs)
         || nearlyLevel crashInputs exampleTrim recoveringState) = false
  /\ inCrashRecoveryMode
       (pidController exampleLib crashInputs crashProfile exampleTrim 2000
          recoveringState) = true
  /\ crashDetectedAtUs
       (pidController exampleLib crashInputs crashProfile exampleTrim 2000
          recoveringState) = crashDetectedAtUs recoveringState.
Proof.
  assert (H1 : inCrashRecoveryMode recoveringState = true)
    by (vm_compute; reflexivity).
  assert (H2 : (crashTimeDelayUs (cfg recoveringState)
                <= cmpTimeUs 2000 (crashDetectedAtUs recoveringState))%Z)
    by (intro E; vm_compute in E; discriminate E).
  assert (H3 : recoveryDone crashInputs
                 (tickValues crashInputs 2000 recoveringState) recoveringState
               && (negb (sensors_SENSOR_ACC crashInputs)
                   || nearlyLevel crashInputs exampleTrim recoveringState)
               = false)
    by (vm_compute; reflexivity).
  split; [exact H1|]. split; [reflexivity|]. split; [exact H2|].
  split; [exact H3|].
  exact (X11_recovery_latched exampleLib crashInputs crashProfile exampleTrim
           2000 recoveringState H1 eq_refl H2 H3).
Defined.

(** One tick after the crash, level, at rest and unsaturated: recovery
    ends. *)
Lemma X12_recovery_exits_witness :
  recoveryActive (tickValues exampleInputs 2000 recoveringState) recoveringState
  = true
  /\ recoveryDone exampleInputs (tickValues exampleInputs 2000 recoveringState)
       recoveringState = true
  /\ negb (sensors_SENSOR_ACC exampleInputs)
     || nearlyLevel exampleInputs exampleTrim recoveringState = true
  /\ getMotorMixRange exampleInputs < 1
  /\ inCrashRecoveryMode
       (pidController exampleLib exampleInputs crashProfile exampleTrim 2000
          recoveringState) = false.
Proof.
  assert (H1 : recoveryActive (tickValues exampleInputs 2000 recoveringState)
                 recoveringState = true) by (vm_compute; reflexivity).
  assert (H2 : recoveryDone exampleInputs
                 (tickValues exampleInputs 2000 recoveringState)
                 recoveringState = true) by (vm_compute; reflexivity).
  assert (H3 : negb (sensors_SENSOR_ACC exampleInputs)
               || nearlyLevel exampleInputs exampleTrim recoveringState = true)
    by (vm_compute; reflexivity).
  assert (H4 : getMotorMixRange exampleInputs < 1) by reflexivity.
  split; [exact H1|]. split; [exact H2|]. split; [exact H3|].
  split; [exact H4|].
  exact (X12_recovery_exits exampleLib exampleInputs crashProfile exampleTrim
           2000 recoveringState H1 H2 H3
           (or_intror (or_intror (or_intror H4)))).
Defined.

(** Recovering under the BEEP setting: the beeper is on after the tick. *)
Lemma X13_beeper_only_with_beep_witness :
  beeper (pidController exampleLib crashInputs beepProfile exampleTrim 2000
            recoveringState) = true
  /\ (beeper recoveringState = true
      \/ Profile.crash_recovery beepProfile = PID_CRASH_RECOVERY_BEEP).
Proof.
  assert (H : beeper (pidController exampleLib crashInputs beepProfile
                        exampleTrim 2000 recoveringState) = true)
    by (vm_compute; reflexivity).
  split; [exact H|].
  exact (X13_beeper_only_with_beep exampleLib crashInputs beepProfile
           exampleTrim 2000 recoveringState H).
Defined.

(** Level against 90 degrees of pitch, with a cutoff of 81 degrees: the
    strength falls from 1 to 0. *)
Lemma X14_strength_fades_witness :
  inclinationDegrees horizonInputs <= inclinationDegrees tiltedInputs
  /\ calcHorizonLevelStrength tiltedInputs (cfg exampleState)
     <= calcHorizonLevelStrength horizonInputs (cfg exampleState)
  /\ calcHorizonLevelStrength horizonInputs (cfg exampleState) == 1
  /\ calcHorizonLevelStrength tiltedInputs (cfg exampleState) == 0.
Proof.
  assert (H : inclinationDegrees horizonInputs <= inclinationDegrees tiltedInputs)
    by (intro E; vm_compute in E; discriminate E).
  split; [exact H|].
  split; [exact (proj1 (proj2 (X14_strength_fades horizonInputs tiltedInputs
                                 (cfg exampleState))) H)|].
  split; vm_compute; reflexivity.
Defined.

Lemma X15_tilt_effect_175_witness :
  (175 <= Profile.horizon_tilt_effect tiltOffProfile)%Z
  /\ calcHorizonLevelStrength horizonInputs
       (cfg (pidInitConfig exampleLib tiltOffProfile exampleState)) = 0.
Proof.
  assert (H : (175 <= Profile.horizon_tilt_effect tiltOffProfile)%Z)
    by (intro E; vm_compute in E; discriminate E).
  split; [exact H|].
  exact (proj1 (X15_tilt_effect_175 exampleLib tiltOffProfile exampleState
                  horizonInputs FD_ROLL exampleTrim 100 H)).
Defined.

Lemma X16_target_angle_bounded_witness :
  (0 <= Profile.levelAngleLimit resetPidProfile)%Z
  /\ Qabs (levelErrorAngle angleInputs FD_ROLL resetPidProfile exampleTrim
           + inject_Z (attitude_raw angleInputs FD_ROLL - exampleTrim FD_ROLL)
             / 10)
     <= inject_Z (Profile.levelAngleLimit resetPidProfile).
Proof.
  assert (H : (0 <= Profile.levelAngleLimit resetPidProfile)%Z)
    by (intro E; vm_compute in E; discriminate E).
  split; [exact H|].
  exact (X16_target_angle_bounded angleInputs FD_ROLL resetPidProfile
           exampleTrim H).
Defined.

(** Angle mode, 100 deg/s commanded on pitch at 10 degrees of pitch and a
    target of 13 degrees: the P output of pitch comes from the setpoint
    3 x levelGain = 15 deg/s, not from the 100 deg/s of the stick. *)
Lemma X17_angle_mode_overrides_witness :
  FLIGHT_MODE anglePitchInputs ANGLE_MODE = true
  /\ FD_PITCH <> FD_YAW
  /\ inCrashRecoveryMode gainOnState = false
  /\ (0 <= crashTimeDelayUs (cfg gainOnState))%Z
  /\ pidStabilisationEnabled gainOnState = true
  /\ gyroOverflowDetected anglePitchInputs = false
  /\ getSetpointRate anglePitchInputs FD_PITCH == 100
  /\ levelErrorAngle anglePitchInputs FD_PITCH gainProfile exampleTrim == 3
  /\ axisPID_P
       (pidController exampleLib anglePitchInputs gainProfile exampleTrim 1000
          gainOnState) FD_PITCH
     = Kp (cfg gainOnState) FD_PITCH
       * (levelErrorAngle anglePitchInputs FD_PITCH gainProfile exampleTrim
          * levelGain (cfg gainOnState)
          - gyroADCf anglePitchInputs FD_PITCH)
       * getThrottlePIDAttenuation anglePitchInputs.
Proof.
  assert (H1 : FLIGHT_MODE anglePitchInputs ANGLE_MODE = true) by reflexivity.
  assert (H2 : FD_PITCH <> FD_YAW) by (intro E; discriminate E).
  assert (H3 : inCrashRecoveryMode gainOnState = false) by reflexivity.
  assert (H4 : (0 <= crashTimeDelayUs (cfg gainOnState))%Z)
    by (intro X; vm_compute in X; discriminate X).
  assert (H5 : pidStabilisationEnabled gainOnState = true) by reflexivity.
  assert (H6 : gyroOverflowDetected anglePitchInputs = false) by reflexivity.
  split; [exact H1|]. split; [exact H2|]. split; [exact H3|].
  split; [exact H4|]. split; [exact H5|]. split; [exact H6|].
  split; [vm_compute; reflexivity|]. split; [vm_compute; reflexivity|].
  exact (X17_angle_mode_overrides exampleLib anglePitchInputs gainProfile
           exampleTrim 1000 gainOnState FD_PITCH H1 H2 H3 H4 H5 H6).
Defined.

(** An 8 kHz loop: 3999 Hz, one less than 500000 / 125. *)
Lemma X18_nyquist_bounds_witness :
  (0 < 125 < 2 ^ 32)%Z
  /\ pidFrequencyNyquist (pidSetTargetLooptime 125 initialState) = 3999%Z
  /\ (500000 / 125 - 1
      <= pidFrequencyNyquist (pidSetTargetLooptime 125 initialState)
      <= 500000 / 125)%Z.
Proof.
  assert (H : (0 < 125 < 2 ^ 32)%Z) by lia.
  split; [exact H|]. split; [vm_compute; reflexivity|].
  exact (X18_nyquist_bounds 125 initialState H).
Defined.

(** The default profile at a 1 kHz loop: the D-term low-pass of roll is a
    biquad at 100 Hz. *)
Lemma X19_filter_storage_witness :
  targetPidLooptime (pidSetTargetLooptime 1000 initialState) <> 0%Z
  /\ dtermLpfApplyFn
       (filters (pidInitFilters exampleLib resetPidProfile
                   (pidSetTargetLooptime 1000 initialState)))
     = biquadFilterApply
  /\ dtermFilterLpf
       (filters (pidInitFilters exampleLib resetPidProfile
                   (pidSetTargetLooptime 1000 initialState))) FD_ROLL
     = biquadFilterInitLPF exampleLib
         (dtermFilterLpf (filters (pidSetTargetLooptime 1000 initialState))
            FD_ROLL)
         (Profile.dterm_lpf_hz resetPidProfile)
         (targetPidLooptime (pidSetTargetLooptime 1000 initialState)).
Proof.
  assert (H : targetPidLooptime (pidSetTargetLooptime 1000 initialState) <> 0%Z)
    by (intro E; discriminate E).
  assert (F : dtermLpfApplyFn
                (filters (pidInitFilters exampleLib resetPidProfile
                            (pidSetTargetLooptime 1000 initialState)))
              = biquadFilterApply) by (vm_compute; reflexivity).
  split; [exact H|]. split; [exact F|].
  pose proof (proj1 (proj2 (X19_filter_storage exampleLib resetPidProfile
                              (pidSetTargetLooptime 1000 initialState) FD_ROLL
                              H))) as S.
  cbv zeta in S. rewrite F in S. exact S.
Defined.

Lemma X20_derived_pure_witness :
  dT exampleState = dT (pidResetITerm exampleState)
  /\ derivedAt (cfg (pidInitConfig exampleLib gainProfile exampleState)) FD_YAW
     = derivedAt
         (cfg (pidInitConfig exampleLib gainProfile (pidResetITerm exampleState)))
         FD_YAW.
Proof.
  assert (H : dT exampleState = dT (pidResetITerm exampleState))
    by (vm_compute; reflexivity).
  split; [exact H|].
  exact (X20_derived_pure exampleLib gainProfile exampleState
           (pidResetITerm exampleState) FD_YAW H).
Defined.

Lemma X21_derived_ranges_witness :
  Profile.ok resetPidProfile = true
  /\ 0 <= dT exampleState
  /\ (0 <= crashTimeLimitUs (cfg (pidInitConfig exampleLib resetPidProfile
                                   exampleState)) <= 65535000)%Z.
Proof.
  assert (H : 0 <= dT exampleState) by (intro E; vm_compute in E; discriminate E).
  split; [reflexivity|]. split; [exact H|].
  exact (proj1 (proj1 (X21_derived_ranges exampleLib resetPidProfile
                         exampleState eq_refl H))).
Defined.

Lemma X22_no_looptime_witness :
  u32 (0 * 8) = 0%Z
  /\ filterFns (pidInit exampleLib 0 8 resetPidProfile initialState)
     = (nullFilterApply, nullFilterApply, nullFilterApply).
Proof.
  split; [reflexivity|].
  exact (proj1 (X22_no_looptime exampleLib 0 8 resetPidProfile initialState
                  eq_refl)).
Defined.

(** The previous tick 100 us before the wrap, this one 900 us after it. *)
Lemma X23_deltaT_across_wrap_witness :
  (0 <= previousTimeUs nearWrapState < 2 ^ 32)%Z
  /\ (0 <= 1000 < 2 ^ 32)%Z
  /\ u32 (previousTimeUs nearWrapState + 1000) = 900%Z
  /\ deltaT (tickValues exampleInputs (u32 (previousTimeUs nearWrapState + 1000))
               nearWrapState)
     = inject_Z 1000 * (1 # 1000000).
Proof.
  assert (H1 : (0 <= previousTimeUs nearWrapState < 2 ^ 32)%Z)
    by (vm_compute; split; [intro E | ]; [discriminate E | reflexivity]).
  assert (H2 : (0 <= 1000 < 2 ^ 32)%Z) by lia.
  split; [exact H1|]. split; [exact H2|]. split; [reflexivity|].
  exact (X23_deltaT_across_wrap exampleInputs nearWrapState 1000 H1 H2).
Defined.

(** Three profiles: copying profile 1 onto profile 0. *)
Lemma X24_copy_profile_witness :
  length [resetPidProfile; gainProfile; crashProfile] = Z.to_nat 3
  /\ (0 <= 0 < 3 - 1)%Z /\ (0 <= 1 < 3 - 1)%Z /\ 0%Z <> 1%Z
  /\ pidCopyProfile 3 0 1 [resetPidProfile; gainProfile; crashProfile]
     = [gainProfile; gainProfile; crashProfile]
  /\ nth_error
       (pidCopyProfile 3 0 1 [resetPidProfile; gainProfile; crashProfile])
       (Z.to_nat 0)
     = nth_error [resetPidProfile; gainProfile; crashProfile] (Z.to_nat 1).
Proof.
  assert (H1 : (0 <= 0 < 3 - 1)%Z) by lia.
  assert (H2 : (0 <= 1 < 3 - 1)%Z) by lia.
  assert (H3 : 0%Z <> 1%Z) by lia.
  split; [reflexivity|]. split; [exact H1|]. split; [exact H2|].
  split; [exact H3|]. split; [reflexivity|].
  exact (proj1 (X24_copy_profile 3 0 1
                  [resetPidProfile; gainProfile; crashProfile]
                  eq_refl H1 H2 H3)).
Defined.

(** Copying onto the last of three profiles is refused. *)
Lemma X25_copy_profile_refuses_witness :
  (0 <= 2)%Z
  /\ (3 - 1 <= 2)%Z
  /\ pidCopyProfile 3 2 0 [resetPidProfile; gainProfile; crashProfile]
     = [resetPidProfile; gainProfile; crashProfile].
Proof.
  assert (H1 : (0 <= 2)%Z) by lia.
  assert (H2 : (3 - 1 <= 2)%Z) by lia.
  split; [exact H1|]. split; [exact H2|].
  exact (proj2 (proj2 (X25_copy_profile_refuses 3 2 0
                         [resetPidProfile; gainProfile; crashProfile] H1))
           (or_introl H2)).
Defined.
